(** * KT0913 AM/FM radio driver: register protocol and tuning state machine

    A shallow embedding of [radio-kt0913.c] (the V4L2 driver for the
    KTMicro KT0913 receiver) together with the properties of its
    frequency codec, band selection, control surface, status decoders and
    initialisation sequence.

    C integers are modelled as [Z] with the wrap-around of their width
    written out; the I2C register map is a finite map from register
    address to the 16-bit word the chip holds; every driver function is a
    computation in a small state-and-error monad over the device
    structure, so that the order of the bus transfers a call issues can
    be read off the transfer trace. *)

From Stdlib Require Import ZArith Lia Bool String.
From stdpp Require Import base numbers option list gmap.

Local Open Scope Z_scope.

(** ** C integer types *)

(** [unsigned int] / [u32]: arithmetic modulo 2^32. *)
Definition u32 (x : Z) : Z := x mod 2 ^ 32.

(** [s32]: two's complement on 32 bits. *)
Definition s32 (x : Z) : Z := (x + 2 ^ 31) mod 2 ^ 32 - 2 ^ 31.

(** The 16-bit word that travels on the bus ([val_bits = 16]). *)
Definition u16 (x : Z) : Z := Z.land x 0xFFFF.

(** Linux error numbers used by the driver (returned negated). *)
Definition EIO : Z := 5.
Definition ENODEV : Z := 19.
Definition EINVAL : Z := 22.

(** ** Results and the state-and-error monad *)

(** A C function returning [int] yields [0] on success and a non-zero
    error number otherwise; out-parameters are the payload of [Ok]. *)
Inductive result (A : Type) : Type :=
| Ok (a : A)
| Err (errno : Z).
Arguments Ok {A} a.
Arguments Err {A} errno.

(** The [int] a C caller sees. *)
Definition ret_code {A} (r : result A) : Z :=
  match r with Ok _ => 0 | Err e => e end.

Definition stm (S A : Type) : Type := S -> result A * S.

Definition ret {S A} (a : A) : stm S A := fun s => (Ok a, s).
Definition fail {S A} (e : Z) : stm S A := fun s => (Err e, s).
Definition bind {S A B} (c : stm S A) (k : A -> stm S B) : stm S B :=
  fun s =>
    match c s with
    | (Ok a, s') => k a s'
    | (Err e, s') => (Err e, s')
    end.

Declare Scope stm_scope.
Delimit Scope stm_scope with stm.
Notation "x <- c ;; k" := (bind c (fun x => k))
  (at level 100, c at next level, right associativity) : stm_scope.
Notation "c ;;; k" := (bind c (fun _ => k))
  (at level 100, right associativity) : stm_scope.
Local Open Scope stm_scope.

(** ** The register map (Linux regmap over I2C) *)

Module Regmap.

(** One transfer on the bus: a word read or a word write. *)
Inductive bus_op : Type :=
| BusRead (reg : Z)
| BusWrite (reg val : Z).

(** Modelled from the spec: the register transport (Linux regmap on an
    SMBus word adapter) is an external collaborator and not part of the
    driver source.  [chip] is the content of the chip's registers,
    [trace] the transfers attempted so far (oldest first), and [faults]
    the outcome the adapter will report for the coming transfers, one
    entry per transfer: [0] for success, a negative error number for a
    failed transfer; an exhausted list means every further transfer
    succeeds. *)
Record t : Type := mk {
  chip : gmap Z Z;
  trace : list bus_op;
  faults : list Z
}.

(** [kt0913_regmap_config.max_register = KT0913_REG_AFC] *)
Definition max_register : Z := 0x3C.

Definition peek (m : t) (reg : Z) : Z := default 0 (chip m !! reg).

Definition next_fault (m : t) : Z := default 0 (head (faults m)).

(** The map after one attempted transfer [op] that leaves the chip
    with content [chip']. *)
Definition after (m : t) (op : bus_op) (chip' : gmap Z Z) : t :=
  {| chip := chip'; trace := trace m ++ [op]; faults := tail (faults m) |}.

(** Modelled from the spec: one word read on the transport.  The
    attempt is recorded, the adapter's outcome is consumed, and on
    success the chip's word is returned. *)
Definition bus_read (reg : Z) : stm t Z := fun m =>
  let m' := after m (BusRead reg) (chip m) in
  if next_fault m =? 0 then (Ok (peek m reg), m') else (Err (next_fault m), m').

(** Modelled from the spec: one word write on the transport; the chip
    keeps the word only when the transfer succeeds. *)
Definition bus_write (reg val : Z) : stm t unit := fun m =>
  if next_fault m =? 0 then
    (Ok tt, after m (BusWrite reg (u16 val)) (<[reg := u16 val]> (chip m)))
  else
    (Err (next_fault m), after m (BusWrite reg (u16 val)) (chip m)).

(** Modelled from the spec: [regmap_read].  Every register of the
    driver's map is volatile ([volatile_table] is the table of all
    registers), so a read never comes from the cache; a register above
    [max_register] is refused with [-EIO] before the bus is used. *)
Definition regmap_read (reg : Z) : stm t Z := fun m =>
  if max_register <? reg then (Err (- EIO), m) else bus_read reg m.

(** Modelled from the spec: [regmap_write]. *)
Definition regmap_write (reg val : Z) : stm t unit := fun m =>
  if max_register <? reg then (Err (- EIO), m) else bus_write reg val m.

(** [tmp = orig & ~mask; tmp |= val & mask] on [unsigned int]. *)
Definition merged (orig mask val : Z) : Z :=
  Z.lor (Z.land orig (u32 (Z.lnot mask))) (Z.land val mask).

(** Modelled from the spec: [regmap_update_bits]: read, merge the masked
    bits, and write back only when the word changes. *)
Definition regmap_update_bits (reg mask val : Z) : stm t unit :=
  orig <- regmap_read reg ;;
  let tmp := merged orig mask val in
  if tmp =? orig then ret tt else regmap_write reg tmp.

(** Modelled from the spec: [regmap_multi_reg_write]: the entries are
    written one by one in list order, stopping at the first failure. *)
Fixpoint regmap_multi_reg_write (regs : list (Z * Z)) : stm t unit :=
  match regs with
  | [] => ret tt
  | (reg, def) :: rest =>
      regmap_write reg def ;;; regmap_multi_reg_write rest
  end.

End Regmap.

Import Regmap.

(** ** Registers, masks and constants of the KT0913 *)

Definition KT0913_REG_CHIP_ID : Z := 0x01.
Definition KT0913_REG_SEEK : Z := 0x02.
Definition KT0913_REG_TUNE : Z := 0x03.
Definition KT0913_REG_VOLUME : Z := 0x04.
Definition KT0913_REG_DSPCFGA : Z := 0x05.
Definition KT0913_REG_LOCFGA : Z := 0x0A.
Definition KT0913_REG_LOCFGC : Z := 0x0C.
Definition KT0913_REG_RXCFG : Z := 0x0F.
Definition KT0913_REG_STATUSA : Z := 0x12.
Definition KT0913_REG_STATUSB : Z := 0x13.
Definition KT0913_REG_STATUSC : Z := 0x14.
Definition KT0913_REG_AMSYSCFG : Z := 0x16.
Definition KT0913_REG_AMCHAN : Z := 0x17.
Definition KT0913_REG_AMCALI : Z := 0x18.
Definition KT0913_REG_GPIOCFG : Z := 0x1D.
Definition KT0913_REG_AMDSP : Z := 0x22.
Definition KT0913_REG_AMSTATUSA : Z := 0x24.
Definition KT0913_REG_AMSTATUSB : Z := 0x25.
Definition KT0913_REG_SOFTMUTE : Z := 0x2E.
Definition KT0913_REG_AMCFG : Z := 0x33.
Definition KT0913_REG_AMCFG2 : Z := 0x34.
Definition KT0913_REG_AFC : Z := 0x3C.

Definition KT0913_TUNE_FMTUNE_MASK : Z := 0x8000.
Definition KT0913_TUNE_FMTUNE_ON : Z := 0x8000.
Definition KT0913_TUNE_FMTUNE_OFF : Z := 0x0000.
Definition KT0913_TUNE_FMCHAN_MASK : Z := 0x0FFF.

Definition KT0913_VOLUME_DMUTE_MASK : Z := 0x2000.
Definition KT0913_VOLUME_DMUTE_ON : Z := 0x0000.
Definition KT0913_VOLUME_DMUTE_OFF : Z := 0x2000.
Definition KT0913_VOLUME_DE_MASK : Z := 0x0800.
Definition KT0913_VOLUME_DE_75US : Z := 0x0000.
Definition KT0913_VOLUME_DE_50US : Z := 0x0800.
Definition KT0913_VOLUME_POP_MASK : Z := 0x30.
Definition KT0913_VOLUME_POP_SHIFT : Z := 4.

Definition KT0913_DSPCFGA_MONO_MASK : Z := 0x8000.
Definition KT0913_DSPCFGA_MONO_ON : Z := 0x8000.
Definition KT0913_DSPCFGA_MONO_OFF : Z := 0x0000.

Definition KT0913_LOCFG_CAMPUSBAND_EN_MASK : Z := 0x0008.
Definition KT0913_LOCFG_CAMPUSBAND_EN_ON : Z := 0x0008.
Definition KT0913_LOCFG_CAMPUSBAND_EN_OFF : Z := 0x0000.

Definition KT0913_RXCFGA_STDBY_MASK : Z := 0x1000.
Definition KT0913_RXCFGA_STDBY_ON : Z := 0x1000.
Definition KT0913_RXCFGA_STDBY_OFF : Z := 0x0000.
Definition KT0913_RXCFGA_VOLUME_MASK : Z := 0x001F.

Definition KT0913_STATUSA_PLL_LOCK_MASK : Z := 0x800.
Definition KT0913_STATUSA_PLL_LOCK_LOCKED : Z := 0x800.
Definition KT0913_STATUSA_ST_MASK : Z := 0x300.
Definition KT0913_STATUSA_ST_STEREO : Z := 0x300.
Definition KT0913_STATUSA_FMRSSI_MASK : Z := 0xF8.
Definition KT0913_STATUSA_FMRSSI_SHIFT : Z := 3.

Definition KT0913_AMCHAN_AMTUNE_MASK : Z := 0x8000.
Definition KT0913_AMCHAN_AMTUNE_ON : Z := 0x8000.
Definition KT0913_AMCHAN_AMTUNE_OFF : Z := 0x0000.
Definition KT0913_AMCHAN_AMCHAN_MASK : Z := 0x7FF.

Definition KT0913_AMSYSCFG_AM_FM_MASK : Z := 0x8000.
Definition KT0913_AMSYSCFG_AM_FM_AM : Z := 0x8000.
Definition KT0913_AMSYSCFG_AM_FM_FM : Z := 0x0000.
Definition KT0913_AMSYSCFG_REFCLK_MASK : Z := 0x0F00.
Definition KT0913_AMSYSCFG_REFCLK_SHIFT : Z := 8.
Definition KT0913_AMSYSCFG_AU_GAIN_MASK : Z := 0x00C0.
Definition KT0913_AMSYSCFG_AU_GAIN_6DB : Z := 0x0040.
Definition KT0913_AMSYSCFG_AU_GAIN_3DB : Z := 0x0000.
Definition KT0913_AMSYSCFG_AU_GAIN_0DB : Z := 0x00C0.
Definition KT0913_AMSYSCFG_AU_GAIN_MIN_3DB : Z := 0x0080.

Definition KT0913_AMSTATUSA_AMRSSI_MASK : Z := 0x1F00.
Definition KT0913_AMSTATUSA_AMRSSI_SHIFT : Z := 8.

Definition KT0913_CHIP_ID : Z := 0x544B.

Definition V4L2_KHZ_FREQ_MUL : Z := 16.
Definition KT0913_FMCHAN_MUL : Z := 50.
Definition KT0913_FM_RANGE_LOW_NO_CAMPUS : Z := 64000.
Definition KT0913_FM_RANGE_LOW_CAMPUS : Z := 32000.
Definition KT0913_FM_RANGE_HIGH : Z := 110000.
Definition KT0913_AM_RANGE_LOW : Z := 500.
Definition KT0913_AM_RANGE_HIGH : Z := 1710.

(** V4L2 constants of the kernel headers the driver refers to. *)
Definition V4L2_TUNER_RADIO : Z := 1.
Definition V4L2_TUNER_CAP_LOW : Z := 0x0001.
Definition V4L2_TUNER_CAP_STEREO : Z := 0x0010.
Definition V4L2_TUNER_CAP_FREQ_BANDS : Z := 0x0400.
Definition V4L2_BAND_MODULATION_FM : Z := 4.
Definition V4L2_BAND_MODULATION_AM : Z := 8.
Definition V4L2_DEEMPHASIS_50_uS : Z := 1.
Definition V4L2_DEEMPHASIS_75_uS : Z := 2.

(** Control identifiers dispatched by [kt0913_s_ctrl]. *)
Inductive ctrl_id : Type :=
| V4L2_CID_AUDIO_MUTE
| V4L2_CID_AUDIO_VOLUME
| V4L2_CID_GAIN
| V4L2_CID_TUNE_DEEMPHASIS
| V4L2_CID_RF_TUNER_PLL_LOCK
| V4L2_CID_OTHER (id : Z).

(** [struct v4l2_ctrl]: the control identifier and the new [s32] value. *)
Record v4l2_ctrl : Type := { cid : ctrl_id; val : Z }.

(** ** Device state *)

(** [enum { BAND_FM, BAND_FM_CAMUS, BAND_AM }] *)
Inductive band_t : Type := BAND_FM | BAND_FM_CAMUS | BAND_AM.

Definition band_eqb (a b : band_t) : bool :=
  match a, b with
  | BAND_FM, BAND_FM | BAND_FM_CAMUS, BAND_FM_CAMUS | BAND_AM, BAND_AM => true
  | _, _ => false
  end.

(** [struct kt0913_device], without the V4L2 bookkeeping. *)
Record kt0913_device : Type := {
  band : band_t;
  audio_anti_pop : Z;
  refclock_val : Z;
  regmap : Regmap.t
}.

Definition drv (A : Type) : Type := stm kt0913_device A.

(** The device with its register map replaced. *)
Definition with_regmap (radio : kt0913_device) (m : Regmap.t) : kt0913_device :=
  {| band := band radio; audio_anti_pop := audio_anti_pop radio;
     refclock_val := refclock_val radio; regmap := m |}.

(** Run a regmap operation on [radio->regmap]. *)
Definition on_regmap {A} (c : stm Regmap.t A) : drv A := fun radio =>
  let (r, m) := c (regmap radio) in (r, with_regmap radio m).

Definition get_band : drv band_t := fun radio => (Ok (band radio), radio).

Definition set_band (b : band_t) : drv unit := fun radio =>
  (Ok tt, {| band := b; audio_anti_pop := audio_anti_pop radio;
             refclock_val := refclock_val radio; regmap := regmap radio |}).

(** [kt0913_init_regs_to_defaults] *)
Definition kt0913_init_regs_to_defaults : list (Z * Z) :=
  [ (KT0913_REG_RXCFG, 0x881F);
    (KT0913_REG_SEEK, 0x000B);
    (KT0913_REG_DSPCFGA, 0x1000);
    (KT0913_REG_LOCFGA, 0x0100);
    (KT0913_REG_LOCFGC, 0x0024);
    (KT0913_REG_AMSYSCFG, 0x0002);
    (KT0913_REG_AMCHAN, 0x01F8);
    (KT0913_REG_GPIOCFG, 0x0000);
    (KT0913_REG_AMDSP, 0xAFC4);
    (KT0913_REG_SOFTMUTE, 0x0010);
    (KT0913_REG_AMCFG, 0x1401);
    (KT0913_REG_AMCFG, 0x4050);
    (KT0913_REG_TUNE, 0x86B8);
    (KT0913_REG_VOLUME, 0xE080) ].

(** [struct v4l2_frequency_band] *)
Record v4l2_frequency_band : Type := {
  fb_type : Z;
  fb_index : Z;
  fb_capability : Z;
  rangelow : Z;
  rangehigh : Z;
  modulation : Z
}.

(** [kt0913_bands], indexed by the band enumeration. *)
Definition kt0913_bands (b : band_t) : v4l2_frequency_band :=
  match b with
  | BAND_FM =>
      {| fb_type := V4L2_TUNER_RADIO; fb_index := 0;
         fb_capability := Z.lor V4L2_TUNER_CAP_LOW
                            (Z.lor V4L2_TUNER_CAP_STEREO V4L2_TUNER_CAP_FREQ_BANDS);
         rangelow := u32 (KT0913_FM_RANGE_LOW_NO_CAMPUS * V4L2_KHZ_FREQ_MUL);
         rangehigh := u32 (KT0913_FM_RANGE_HIGH * V4L2_KHZ_FREQ_MUL);
         modulation := V4L2_BAND_MODULATION_FM |}
  | BAND_FM_CAMUS =>
      {| fb_type := V4L2_TUNER_RADIO; fb_index := 0;
         fb_capability := Z.lor V4L2_TUNER_CAP_LOW
                            (Z.lor V4L2_TUNER_CAP_STEREO V4L2_TUNER_CAP_FREQ_BANDS);
         rangelow := u32 (KT0913_FM_RANGE_LOW_CAMPUS * V4L2_KHZ_FREQ_MUL);
         rangehigh := u32 (KT0913_FM_RANGE_HIGH * V4L2_KHZ_FREQ_MUL);
         modulation := V4L2_BAND_MODULATION_FM |}
  | BAND_AM =>
      {| fb_type := V4L2_TUNER_RADIO; fb_index := 1;
         fb_capability := Z.lor V4L2_TUNER_CAP_LOW V4L2_TUNER_CAP_FREQ_BANDS;
         rangelow := u32 (KT0913_AM_RANGE_LOW * V4L2_KHZ_FREQ_MUL);
         rangehigh := u32 (KT0913_AM_RANGE_HIGH * V4L2_KHZ_FREQ_MUL);
         modulation := V4L2_BAND_MODULATION_AM |}
  end.

(** [struct v4l2_frequency] *)
Record v4l2_frequency : Type := {
  tuner : Z;
  type : Z;
  frequency : Z
}.

(** ** Frequency codec *)

Definition khz_to_v4l2_freq (freq : Z) : Z := u32 (freq * V4L2_KHZ_FREQ_MUL).

Definition v4l2_freq_to_khz (v4l2_freq : Z) : Z := v4l2_freq / V4L2_KHZ_FREQ_MUL.

(** ** Register-level operations *)

Definition __kt0913_get_fm_frequency : drv Z :=
  tune_reg <- on_regmap (regmap_read KT0913_REG_TUNE) ;;
  ret (u32 (Z.land tune_reg KT0913_TUNE_FMCHAN_MASK * KT0913_FMCHAN_MUL)).

Definition __kt0913_set_fm_frequency (frequency : Z) : drv unit :=
  on_regmap (regmap_write KT0913_REG_TUNE
               (Z.lor KT0913_TUNE_FMTUNE_ON (frequency / KT0913_FMCHAN_MUL))).

Definition __kt0913_set_mute (on : Z) : drv unit :=
  on_regmap (regmap_update_bits KT0913_REG_VOLUME KT0913_VOLUME_DMUTE_MASK
               (if on =? 0 then KT0913_VOLUME_DMUTE_OFF else KT0913_VOLUME_DMUTE_ON)).

Definition __kt0913_set_deemphasis (deemp : Z) : drv unit :=
  if deemp =? V4L2_DEEMPHASIS_75_uS then
    on_regmap (regmap_update_bits KT0913_REG_VOLUME KT0913_VOLUME_DE_MASK
                 KT0913_VOLUME_DE_75US)
  else if deemp =? V4L2_DEEMPHASIS_50_uS then
    on_regmap (regmap_update_bits KT0913_REG_VOLUME KT0913_VOLUME_DE_MASK
                 KT0913_VOLUME_DE_50US)
  else fail (- EINVAL).

(** The register field computed by [__kt0913_set_volume]:
    [volume = (volume / 2) + 31] on [s32], C division truncating. *)
Definition volume_field (volume : Z) : Z := s32 (Z.quot volume 2 + 31).

Definition __kt0913_set_volume (volume : Z) : drv unit :=
  let volume := volume_field volume in
  on_regmap (regmap_update_bits KT0913_REG_RXCFG KT0913_RXCFGA_VOLUME_MASK
               (u32 volume)).

Definition __kt0913_set_standby (standby : Z) : drv unit :=
  on_regmap (regmap_update_bits KT0913_REG_RXCFG KT0913_RXCFGA_STDBY_MASK
               (if standby =? 0 then KT0913_RXCFGA_STDBY_OFF
                else KT0913_RXCFGA_STDBY_ON)).

Definition __kt0913_get_pll_status : drv Z :=
  statusa_reg <- on_regmap (regmap_read KT0913_REG_STATUSA) ;;
  ret (if Z.land statusa_reg KT0913_STATUSA_PLL_LOCK_MASK
          =? KT0913_STATUSA_PLL_LOCK_LOCKED then 1 else 0).

Definition __kt0913_get_rx_stereo_or_mono : drv Z :=
  statusa_reg <- on_regmap (regmap_read KT0913_REG_STATUSA) ;;
  ret (if Z.land statusa_reg KT0913_STATUSA_ST_MASK
          =? KT0913_STATUSA_ST_STEREO then 1 else 0).

(** The arithmetic of the two RSSI decoders on the word read: extract
    the field, [*rssi *= 65535], [*rssi /= mask >> shift], all on [s32]. *)
Definition rssi_of_reg (reg mask shift : Z) : Z :=
  let rssi := s32 (Z.shiftr (Z.land reg mask) shift) in
  let rssi := s32 (rssi * 65535) in
  s32 (Z.quot rssi (Z.shiftr mask shift)).

Definition __kt0913_get_fm_rssi : drv Z :=
  statusa_reg <- on_regmap (regmap_read KT0913_REG_STATUSA) ;;
  ret (rssi_of_reg statusa_reg KT0913_STATUSA_FMRSSI_MASK
         KT0913_STATUSA_FMRSSI_SHIFT).

Definition __kt0913_get_cfg_stereo_enabled : drv Z :=
  dspcfga_reg <- on_regmap (regmap_read KT0913_REG_DSPCFGA) ;;
  ret (if Z.land dspcfga_reg KT0913_DSPCFGA_MONO_MASK
          =? KT0913_DSPCFGA_MONO_OFF then 1 else 0).

Definition __kt0913_set_cfg_stereo_enabled (stereo : Z) : drv unit :=
  on_regmap (regmap_update_bits KT0913_REG_DSPCFGA KT0913_DSPCFGA_MONO_MASK
               (if stereo =? 0 then KT0913_DSPCFGA_MONO_ON
                else KT0913_DSPCFGA_MONO_OFF)).

Definition __kt0913_set_au_gain (gain : Z) : drv unit :=
  if gain =? 6 then
    on_regmap (regmap_update_bits KT0913_REG_AMSYSCFG
                 KT0913_AMSYSCFG_AU_GAIN_MASK KT0913_AMSYSCFG_AU_GAIN_6DB)
  else if gain =? 3 then
    on_regmap (regmap_update_bits KT0913_REG_AMSYSCFG
                 KT0913_AMSYSCFG_AU_GAIN_MASK KT0913_AMSYSCFG_AU_GAIN_3DB)
  else if gain =? 0 then
    on_regmap (regmap_update_bits KT0913_REG_AMSYSCFG
                 KT0913_AMSYSCFG_AU_GAIN_MASK KT0913_AMSYSCFG_AU_GAIN_0DB)
  else if gain =? -3 then
    on_regmap (regmap_update_bits KT0913_REG_AMSYSCFG
                 KT0913_AMSYSCFG_AU_GAIN_MASK KT0913_AMSYSCFG_AU_GAIN_MIN_3DB)
  else fail (- EINVAL).

Definition __kt0913_set_am_fm_band (band : band_t) : drv unit :=
  on_regmap (regmap_update_bits KT0913_REG_AMSYSCFG KT0913_AMSYSCFG_AM_FM_MASK
               (if band_eqb band BAND_AM then KT0913_AMSYSCFG_AM_FM_AM
                else KT0913_AMSYSCFG_AM_FM_FM)).

Definition __kt0913_get_am_frequency : drv Z :=
  amchan_reg <- on_regmap (regmap_read KT0913_REG_AMCHAN) ;;
  ret (Z.land amchan_reg KT0913_AMCHAN_AMCHAN_MASK).

Definition __kt0913_set_am_frequency (frequency : Z) : drv unit :=
  on_regmap (regmap_write KT0913_REG_AMCHAN
               (Z.lor KT0913_AMCHAN_AMTUNE_ON frequency)).

Definition __kt0913_get_am_rssi : drv Z :=
  amstatusa_reg <- on_regmap (regmap_read KT0913_REG_AMSTATUSA) ;;
  ret (rssi_of_reg amstatusa_reg KT0913_AMSTATUSA_AMRSSI_MASK
         KT0913_AMSTATUSA_AMRSSI_SHIFT).

(** ** Initialisation, tuning and controls *)

(** [freq >= kt0913_bands[b].rangelow && freq <= kt0913_bands[b].rangehigh] *)
Definition in_band (b : band_t) (freq : Z) : bool :=
  (rangelow (kt0913_bands b) <=? freq) && (freq <=? rangehigh (kt0913_bands b)).

Section Driver.

(** The module parameter [kt0913_use_campus_band] (an [int], read as a
    truth value). *)
Variable kt0913_use_campus_band : Z.

Definition campus_enabled : bool := negb (kt0913_use_campus_band =? 0).

Definition __kt0913_init : drv unit :=
  on_regmap (regmap_multi_reg_write kt0913_init_regs_to_defaults) ;;;
  anti_pop <- (fun radio => (Ok (audio_anti_pop radio), radio)) ;;
  on_regmap (regmap_update_bits KT0913_REG_VOLUME KT0913_VOLUME_POP_MASK
               (u32 (Z.shiftl anti_pop KT0913_VOLUME_POP_SHIFT))) ;;;
  refclock <- (fun radio => (Ok (refclock_val radio), radio)) ;;
  on_regmap (regmap_update_bits KT0913_REG_AMSYSCFG KT0913_AMSYSCFG_REFCLK_MASK
               (u32 (Z.shiftl refclock KT0913_AMSYSCFG_REFCLK_SHIFT))) ;;;
  (if campus_enabled then
     on_regmap (regmap_update_bits KT0913_REG_LOCFGC
                  KT0913_LOCFG_CAMPUSBAND_EN_MASK KT0913_LOCFG_CAMPUSBAND_EN_ON)
   else ret tt) ;;;
  __kt0913_set_mute 1.

Definition kt0913_ioctl_vidioc_g_frequency (f : v4l2_frequency)
  : drv v4l2_frequency :=
  if negb (tuner f =? 0) then fail (- EINVAL) else
  cur <- get_band ;;
  khz <- (if band_eqb cur BAND_AM then __kt0913_get_am_frequency
          else __kt0913_get_fm_frequency) ;;
  ret {| tuner := tuner f; type := V4L2_TUNER_RADIO;
         frequency := khz_to_v4l2_freq khz |}.

(** The band test of [kt0913_ioctl_vidioc_s_frequency]: the nested
    conditionals that set [new_band] or give up with [-EINVAL]. *)
Definition select_band (freq : Z) : drv band_t :=
  if in_band BAND_AM freq then ret BAND_AM
  else if in_band BAND_FM freq then ret BAND_FM
  else if campus_enabled && in_band BAND_FM_CAMUS freq then ret BAND_FM_CAMUS
  else fail (- EINVAL).

Definition kt0913_ioctl_vidioc_s_frequency (f : v4l2_frequency) : drv unit :=
  let freq := frequency f in
  if negb (tuner f =? 0) || negb (type f =? V4L2_TUNER_RADIO)
  then fail (- EINVAL) else
  if freq =? 0 then fail (- EINVAL) else
  new_band <- select_band freq ;;
  cur <- get_band ;;
  (if negb (band_eqb cur new_band) then
     __kt0913_set_am_fm_band new_band ;;; set_band new_band
   else ret tt) ;;;
  let freq := v4l2_freq_to_khz freq in
  cur <- get_band ;;
  if band_eqb cur BAND_AM then __kt0913_set_am_frequency freq
  else __kt0913_set_fm_frequency freq.

Definition kt0913_ioctl_vidioc_enum_freq_bands (tuner index : Z)
  : result v4l2_frequency_band :=
  if negb (tuner =? 0) then Err (- EINVAL) else
  if index =? 0 then
    Ok (if campus_enabled then kt0913_bands BAND_FM_CAMUS
        else kt0913_bands BAND_FM)
  else if index =? 1 then Ok (kt0913_bands BAND_AM)
  else Err (- EINVAL).

End Driver.

Definition kt0913_s_ctrl (ctrl : v4l2_ctrl) : drv unit :=
  match cid ctrl with
  | V4L2_CID_AUDIO_MUTE => __kt0913_set_mute (val ctrl)
  | V4L2_CID_AUDIO_VOLUME => __kt0913_set_volume (val ctrl)
  | V4L2_CID_GAIN => __kt0913_set_au_gain (val ctrl)
  | V4L2_CID_TUNE_DEEMPHASIS => __kt0913_set_deemphasis (val ctrl)
  | _ => fail (- EINVAL)
  end.

Definition kt0913_g_volatile_ctrl (ctrl : v4l2_ctrl) : drv Z :=
  match cid ctrl with
  | V4L2_CID_RF_TUNER_PLL_LOCK => __kt0913_get_pll_status
  | _ => fail (- EINVAL)
  end.

(** The operations as the specification names them. *)
Definition set_frequency (campus external_freq : Z) : drv unit :=
  kt0913_ioctl_vidioc_s_frequency campus
    {| tuner := 0; type := V4L2_TUNER_RADIO; frequency := external_freq |}.

Definition get_frequency : drv Z :=
  f <- kt0913_ioctl_vidioc_g_frequency
         {| tuner := 0; type := V4L2_TUNER_RADIO; frequency := 0 |} ;;
  ret (frequency f).

Definition set_volume (db : Z) : drv unit :=
  kt0913_s_ctrl {| cid := V4L2_CID_AUDIO_VOLUME; val := db |}.

(** A device as [kt0913_probe] hands it to [__kt0913_init]: zeroed
    structure ([band = BAND_FM]), the device-tree settings, and a
    register map on the given chip content. *)
Definition attach (anti_pop refclk : Z) (chip0 : gmap Z Z) (faults0 : list Z)
  : kt0913_device :=
  {| band := BAND_FM; audio_anti_pop := anti_pop; refclock_val := refclk;
     regmap := {| chip := chip0; trace := []; faults := faults0 |} |}.

(** ** Tuner ioctls, power management and device-tree settings *)

Definition V4L2_TUNER_SUB_MONO : Z := 0x0001.
Definition V4L2_TUNER_SUB_STEREO : Z := 0x0002.
Definition V4L2_TUNER_MODE_MONO : Z := 0x0000.
Definition V4L2_TUNER_MODE_STEREO : Z := 0x0001.

(** [struct v4l2_tuner] *)
Record v4l2_tuner : Type := {
  t_index : Z;
  t_name : string;
  t_type : Z;
  t_capability : Z;
  t_rangelow : Z;
  t_rangehigh : Z;
  rxsubchans : Z;
  audmode : Z;
  signal : Z;
  afc : Z
}.

(** The tuner structure after the unconditional assignments of
    [kt0913_ioctl_vidioc_g_tuner]: name, type, capability and range. *)
Definition tuner_header (v : v4l2_tuner) : v4l2_tuner :=
  {| t_index := t_index v; t_name := "FM/AM"; t_type := V4L2_TUNER_RADIO;
     t_capability := Z.lor V4L2_TUNER_CAP_LOW
                       (Z.lor V4L2_TUNER_CAP_STEREO V4L2_TUNER_CAP_FREQ_BANDS);
     t_rangelow := rangelow (kt0913_bands BAND_AM);
     t_rangehigh := rangehigh (kt0913_bands BAND_FM);
     rxsubchans := rxsubchans v; audmode := audmode v;
     signal := signal v; afc := afc v |}.

(** The assignments to [v->rxsubchans], [v->audmode], [v->signal] and the
    final [v->afc = 1]. *)
Definition tuner_report (v : v4l2_tuner) (subchans mode sig : Z) : v4l2_tuner :=
  {| t_index := t_index v; t_name := t_name v; t_type := t_type v;
     t_capability := t_capability v;
     t_rangelow := t_rangelow v; t_rangehigh := t_rangehigh v;
     rxsubchans := subchans; audmode := mode; signal := u32 sig; afc := 1 |}.

Definition kt0913_ioctl_vidioc_g_tuner (v : v4l2_tuner) : drv v4l2_tuner :=
  if 0 <? t_index v then fail (- EINVAL) else
  let v := tuner_header v in
  cur <- get_band ;;
  if band_eqb cur BAND_AM then
    rssi <- __kt0913_get_am_rssi ;;
    ret (tuner_report v V4L2_TUNER_SUB_MONO V4L2_TUNER_MODE_MONO rssi)
  else
    stereo_enabled <- __kt0913_get_cfg_stereo_enabled ;;
    is_stereo <- __kt0913_get_rx_stereo_or_mono ;;
    rssi <- __kt0913_get_fm_rssi ;;
    ret (tuner_report v
           (if stereo_enabled =? 0 then V4L2_TUNER_SUB_MONO
            else V4L2_TUNER_SUB_STEREO)
           (if is_stereo =? 0 then V4L2_TUNER_MODE_MONO
            else V4L2_TUNER_MODE_STEREO)
           rssi).

Definition kt0913_ioctl_vidioc_s_tuner (v : v4l2_tuner) : drv unit :=
  if 0 <? t_index v then fail (- EINVAL) else
  if negb (audmode v =? V4L2_TUNER_MODE_MONO)
     && negb (audmode v =? V4L2_TUNER_MODE_STEREO)
  then fail (- EINVAL) else
  cur <- get_band ;;
  if band_eqb cur BAND_AM && negb (audmode v =? V4L2_TUNER_MODE_MONO)
  then fail (- EINVAL) else
  __kt0913_set_cfg_stereo_enabled
    (if audmode v =? V4L2_TUNER_MODE_STEREO then 1 else 0).

(** The kernel's [clamp(val, lo, hi)]: [min(max(val, lo), hi)]. *)
Definition clamp (val lo hi : Z) : Z := Z.min (Z.max val lo) hi.

(** [__kt0913_parse_dt]: the two device-tree properties, each absent
    ([NULL]) or a 32-bit cell. *)
Definition __kt0913_parse_dt (ptr_anti_pop ptr_refclk : option Z)
    (radio : kt0913_device) : kt0913_device :=
  {| band := band radio;
     audio_anti_pop := match ptr_anti_pop with
                       | Some cell => clamp (u32 cell) 0 3
                       | None => 0
                       end;
     refclock_val := match ptr_refclk with
                     | Some cell => clamp (u32 cell) 0 9
                     | None => 0
                     end;
     regmap := regmap radio |}.

(** [kt0913_i2c_pm_runtime_suspend] and [kt0913_i2c_pm_runtime_resume]:
    [radio] is the client data, possibly [NULL]; the result is the [int]
    returned. *)
Definition kt0913_i2c_pm_runtime_suspend (radio : option kt0913_device)
  : Z * option kt0913_device :=
  match radio with
  | None => (0, None)
  | Some radio =>
      let (r, radio') := __kt0913_set_standby 1 radio in (ret_code r, Some radio')
  end.

Definition kt0913_i2c_pm_runtime_resume (radio : option kt0913_device)
  : Z * option kt0913_device :=
  match radio with
  | None => (0, None)
  | Some radio =>
      let (r, radio') := __kt0913_set_standby 0 radio in (ret_code r, Some radio')
  end.

(** [kt0913_regmap_all_registers_range]: the registers of the chip, as
    inclusive ranges. *)
Definition kt0913_regmap_all_registers_range : list (Z * Z) :=
  [ (0x01, 0x05); (0x0A, 0x0A); (0x0C, 0x0C); (0x0F, 0x0F); (0x12, 0x14);
    (0x16, 0x18); (0x1D, 0x1D); (0x22, 0x22); (0x24, 0x25); (0x2E, 0x2F);
    (0x30, 0x34); (0x3A, 0x3A); (0x3C, 0x3C) ].

(** Modelled from the spec: the kernel's [regmap_reg_in_ranges], the
    membership test of an access table. *)
Definition regmap_reg_in_ranges (reg : Z) (ranges : list (Z * Z)) : bool :=
  existsb (fun range => (fst range <=? reg) && (reg <=? snd range)) ranges.

(** ** Observing the transfers of a call *)

(** The transfers a call issued, given the device before and after it. *)
Definition issued (before after : kt0913_device) : list bus_op :=
  drop (length (trace (regmap before))) (trace (regmap after)).

(** A write to the mode-config register (AMSYSCFG), which holds the
    AM/FM mode bit. *)
Definition is_mode_write (op : bus_op) : bool :=
  match op with
  | BusWrite reg _ => reg =? KT0913_REG_AMSYSCFG
  | BusRead _ => false
  end.

(** A write to the tune register of either band (TUNE or AMCHAN). *)
Definition is_tune_write (op : bus_op) : bool :=
  match op with
  | BusWrite reg _ => (reg =? KT0913_REG_TUNE) || (reg =? KT0913_REG_AMCHAN)
  | BusRead _ => false
  end.

(** Any write. *)
Definition is_write (op : bus_op) : bool :=
  match op with BusWrite _ _ => true | BusRead _ => false end.

(** The shapes the transfers of a tune request can have; [changed] says
    whether the classified band differs from the band of the device. *)
Inductive tune_ops (changed : bool) : list bus_op -> Prop :=
| ops_rejected : tune_ops changed []
| ops_tune_only reg v :
    changed = false -> is_tune_write (BusWrite reg v) = true ->
    tune_ops changed [BusWrite reg v]
| ops_mode_read :
    changed = true -> tune_ops changed [BusRead KT0913_REG_AMSYSCFG]
| ops_mode_write w :
    changed = true ->
    tune_ops changed [BusRead KT0913_REG_AMSYSCFG; BusWrite KT0913_REG_AMSYSCFG w]
| ops_mode_read_tune reg v :
    changed = true -> is_tune_write (BusWrite reg v) = true ->
    tune_ops changed [BusRead KT0913_REG_AMSYSCFG; BusWrite reg v]
| ops_mode_write_tune w reg v :
    changed = true -> is_tune_write (BusWrite reg v) = true ->
    tune_ops changed
      [BusRead KT0913_REG_AMSYSCFG; BusWrite KT0913_REG_AMSYSCFG w; BusWrite reg v].

(** ** Definitions that follow the specification *)

(** The specification's band classification: the bands are tried in the
    priority order AM, FM, FM_EXTENDED, the last one only when the
    extended-band feature is enabled, and the first whose range holds the
    frequency is the target. *)
Definition spec_band_priority (extended : bool) : list band_t :=
  [BAND_AM; BAND_FM] ++ (if extended then [BAND_FM_CAMUS] else []).

Definition spec_classify (extended : bool) (freq : Z) : option band_t :=
  List.find (fun b => in_band b freq) (spec_band_priority extended).

(** The channel step of a band in kHz: 50 kHz on FM, 1 kHz on AM. *)
Definition band_step (b : band_t) : Z :=
  match b with BAND_AM => 1 | _ => KT0913_FMCHAN_MUL end.

(** The domain of the volume control as registered by [kt0913_probe]:
    [v4l2_ctrl_new_std(hdl, ops, V4L2_CID_AUDIO_VOLUME, -60, 0, 2, 0)]. *)
Definition volume_domain (db : Z) : bool :=
  (-60 <=? db) && (db <=? 0) && Z.even db.

(** The specification's error taxonomy (its section on error handling). *)
Inductive error_kind : Type :=
| IoError
| ProtocolError
| InvalidArgument
| OutOfRange
| IdentificationFailure.

(** ** The parts of a tune request *)

(** What the driver makes of a classification: the band, or [-EINVAL]. *)
Definition classified (o : option band_t) : result band_t :=
  match o with Some b => Ok b | None => Err (- EINVAL) end.

(** The tune write of [kt0913_ioctl_vidioc_s_frequency] for the band the
    device is in. *)
Definition tune_write (b : band_t) (khz : Z) : drv unit :=
  if band_eqb b BAND_AM then __kt0913_set_am_frequency khz
  else __kt0913_set_fm_frequency khz.

(** The device with its band replaced. *)
Definition with_band (radio : kt0913_device) (b : band_t) : kt0913_device :=
  {| band := b; audio_anti_pop := audio_anti_pop radio;
     refclock_val := refclock_val radio; regmap := regmap radio |}.

(** The register and the word of the tune write of a band. *)
Definition tune_reg (b : band_t) : Z :=
  if band_eqb b BAND_AM then KT0913_REG_AMCHAN else KT0913_REG_TUNE.

Definition tune_word (b : band_t) (khz : Z) : Z :=
  if band_eqb b BAND_AM then Z.lor KT0913_AMCHAN_AMTUNE_ON khz
  else Z.lor KT0913_TUNE_FMTUNE_ON (khz / KT0913_FMCHAN_MUL).

(** The mode bit a band asks for. *)
Definition mode_bit (b : band_t) : Z :=
  if band_eqb b BAND_AM then KT0913_AMSYSCFG_AM_FM_AM else KT0913_AMSYSCFG_AM_FM_FM.

(** The kHz value [kt0913_ioctl_vidioc_g_frequency] decodes from the
    register of the band the device is in. *)
Definition decoded_khz (radio : kt0913_device) : Z :=
  if band_eqb (band radio) BAND_AM then
    Z.land (peek (regmap radio) KT0913_REG_AMCHAN) KT0913_AMCHAN_AMCHAN_MASK
  else
    u32 (Z.land (peek (regmap radio) KT0913_REG_TUNE) KT0913_TUNE_FMCHAN_MASK
         * KT0913_FMCHAN_MUL).

(** ** Behaviour on a bus without faults *)

(** The register map after [regmap_update_bits] on a bus without
    faults: the read, and the write of the merged word when it differs. *)
Definition quiet_update (reg mask v : Z) (m : Regmap.t) : Regmap.t :=
  let orig := peek m reg in
  let tmp := merged orig mask v in
  let m1 := after m (BusRead reg) (chip m) in
  if tmp =? orig then m1
  else after m1 (BusWrite reg (u16 tmp)) (<[reg := u16 tmp]> (chip m1)).

(** The device as the mode step of a tune request leaves it on a bus
    without faults. *)
Definition after_mode_step (nb : band_t) (radio : kt0913_device) : kt0913_device :=
  if band_eqb (band radio) nb then radio
  else with_band
         (with_regmap radio
            (quiet_update KT0913_REG_AMSYSCFG KT0913_AMSYSCFG_AM_FM_MASK
               (mode_bit nb) (regmap radio))) nb.

(** The register map after a sequence of writes on a bus without
    faults. *)
Definition written (m : Regmap.t) (regs : list (Z * Z)) : Regmap.t :=
  fold_left
    (fun m entry =>
       after m (BusWrite (fst entry) (u16 (snd entry)))
         (<[fst entry := u16 (snd entry)]> (chip m)))
    regs m.

(** The last word a sequence of writes leaves in a register, if any. *)
Definition last_write (reg : Z) (regs : list (Z * Z)) : option Z :=
  fold_left
    (fun acc entry => if fst entry =? reg then Some (u16 (snd entry)) else acc)
    regs None.

(** The register map [__kt0913_init] leaves on a bus without faults. *)
Definition init_map (campus anti_pop refclk : Z) (m : Regmap.t) : Regmap.t :=
  let m1 := written m kt0913_init_regs_to_defaults in
  let m2 := quiet_update KT0913_REG_VOLUME KT0913_VOLUME_POP_MASK
              (u32 (Z.shiftl anti_pop KT0913_VOLUME_POP_SHIFT)) m1 in
  let m3 := quiet_update KT0913_REG_AMSYSCFG KT0913_AMSYSCFG_REFCLK_MASK
              (u32 (Z.shiftl refclk KT0913_AMSYSCFG_REFCLK_SHIFT)) m2 in
  let m4 := if campus_enabled campus
            then quiet_update KT0913_REG_LOCFGC KT0913_LOCFG_CAMPUSBAND_EN_MASK
                   KT0913_LOCFG_CAMPUSBAND_EN_ON m3
            else m3 in
  quiet_update KT0913_REG_VOLUME KT0913_VOLUME_DMUTE_MASK
    KT0913_VOLUME_DMUTE_ON m4.

(** ** Failing transfers *)

(** The device with the coming transfer outcomes replaced, and the device
    on a bus that will not fail. *)
Definition with_faults (radio : kt0913_device) (fs : list Z) : kt0913_device :=
  with_regmap radio
    {| chip := chip (regmap radio); trace := trace (regmap radio); faults := fs |}.

Definition quiet (radio : kt0913_device) : kt0913_device := with_faults radio [].

(** Outcomes whose first failure is [e], at transfer number [n] counted
    from 0. *)
Definition first_fault (n : nat) (e : Z) (rest : list Z) : list Z :=
  replicate n 0 ++ e :: rest.

(** A computation stops at the first failed transfer: run against
    outcomes whose first failure is transfer [n], it attempts the
    transfers of its run on a quiet bus up to and including transfer [n]
    and returns the error of that transfer; when the quiet run is over
    before transfer [n] it behaves as on the quiet bus. *)
Definition stops_at_fault {A} (c : drv A) : Prop :=
  forall (radio : kt0913_device) (n : nat) (e : Z) (rest : list Z),
    e <> 0 ->
    faults (regmap radio) = first_fault n e rest ->
    exists ops : list bus_op,
      trace (regmap (snd (c (quiet radio)))) = trace (regmap radio) ++ ops /\
      faults (regmap (snd (c (quiet radio)))) = [] /\
      ((n < length ops)%nat ->
       fst (c radio) = Err e /\
       trace (regmap (snd (c radio))) = trace (regmap radio) ++ take (S n) ops) /\
      ((length ops <= n)%nat ->
       c radio
       = (fst (c (quiet radio)),
          with_faults (snd (c (quiet radio)))
            (first_fault (n - length ops) e rest))).

(** ** The transfers of the initialisation *)

(** The transfers of [__kt0913_init] on a bus without faults, for the
    anti-pop level [anti_pop] (0..3) and the reference clock [refclk]
    (0..9): the default table, the anti-pop update of VOLUME, the
    reference-clock update of AMSYSCFG, the campus-band update of LOCFGC
    when the feature is on, and the mute update of VOLUME.  An update
    writes only when it changes the word, so a zero level or selector
    leaves the word of the table alone. *)
Definition init_defaults_ops : list bus_op :=
  map (fun entry => BusWrite (fst entry) (snd entry)) kt0913_init_regs_to_defaults.

Definition init_anti_pop_ops (anti_pop : Z) : list bus_op :=
  BusRead KT0913_REG_VOLUME
  :: (if anti_pop =? 0 then []
      else [BusWrite KT0913_REG_VOLUME (0xE080 + anti_pop * 16)]).

Definition init_refclk_ops (refclk : Z) : list bus_op :=
  BusRead KT0913_REG_AMSYSCFG
  :: (if refclk =? 0 then []
      else [BusWrite KT0913_REG_AMSYSCFG (0x0002 + refclk * 256)]).

Definition init_campus_ops (campus : Z) : list bus_op :=
  if campus_enabled campus
  then [BusRead KT0913_REG_LOCFGC; BusWrite KT0913_REG_LOCFGC 0x002C]
  else [].

Definition init_mute_ops (anti_pop : Z) : list bus_op :=
  [BusRead KT0913_REG_VOLUME; BusWrite KT0913_REG_VOLUME (0xC080 + anti_pop * 16)].

Definition init_ops (campus anti_pop refclk : Z) : list bus_op :=
  init_defaults_ops ++ init_anti_pop_ops anti_pop ++ init_refclk_ops refclk
  ++ init_campus_ops campus ++ init_mute_ops anti_pop.

(** ** Properties of whole operations *)

(** A computation that only reads: whatever the bus does, it leaves the
    chip, the band and the settings as they were, and only the transfer
    log (reads, one outcome consumed per read) advances. *)
Definition only_reads {A} (c : drv A) : Prop :=
  forall radio : kt0913_device,
    exists ops : list bus_op,
      snd (c radio)
      = with_regmap radio
          {| chip := chip (regmap radio);
             trace := trace (regmap radio) ++ ops;
             faults := drop (length ops) (faults (regmap radio)) |} /\
      forallb (fun op => negb (is_write op)) ops = true.

(** The register a transfer addresses. *)
Definition op_reg (op : bus_op) : Z :=
  match op with BusRead reg => reg | BusWrite reg _ => reg end.

(** A transfer to a register of the chip: inside the register table and
    not above [max_register]. *)
Definition valid_op (op : bus_op) : bool :=
  regmap_reg_in_ranges (op_reg op) kt0913_regmap_all_registers_range
  && (op_reg op <=? max_register).

(** Every transfer of a computation satisfies [P], whatever the bus
    does. *)
Definition transfers_satisfy (P : bus_op -> bool) {A} (c : drv A) : Prop :=
  forall radio : kt0913_device,
    exists ops : list bus_op,
      trace (regmap (snd (c radio))) = trace (regmap radio) ++ ops /\
      forallb P ops = true.

(** The in-memory band agrees with the AM/FM mode bit of the chip. *)
Definition mode_consistent (radio : kt0913_device) : Prop :=
  Z.testbit (peek (regmap radio) KT0913_REG_AMSYSCFG) 15
  = band_eqb (band radio) BAND_AM.

(** The low sixteen bits of two words agree outside a mask. *)
Definition same_outside (mask old new : Z) : Prop :=
  forall i : Z, 0 <= i < 16 -> Z.testbit mask i = false ->
                Z.testbit new i = Z.testbit old i.

(** The register, the field mask and the word merged under the mask for
    a control request that [kt0913_s_ctrl] accepts; [None] for a request
    it refuses. *)
Definition ctrl_field (ctrl : v4l2_ctrl) : option (Z * Z * Z) :=
  match cid ctrl with
  | V4L2_CID_AUDIO_MUTE =>
      Some (KT0913_REG_VOLUME, KT0913_VOLUME_DMUTE_MASK,
            if val ctrl =? 0 then KT0913_VOLUME_DMUTE_OFF
            else KT0913_VOLUME_DMUTE_ON)
  | V4L2_CID_AUDIO_VOLUME =>
      Some (KT0913_REG_RXCFG, KT0913_RXCFGA_VOLUME_MASK,
            u32 (volume_field (val ctrl)))
  | V4L2_CID_GAIN =>
      if val ctrl =? 6 then
        Some (KT0913_REG_AMSYSCFG, KT0913_AMSYSCFG_AU_GAIN_MASK,
              KT0913_AMSYSCFG_AU_GAIN_6DB)
      else if val ctrl =? 3 then
        Some (KT0913_REG_AMSYSCFG, KT0913_AMSYSCFG_AU_GAIN_MASK,
              KT0913_AMSYSCFG_AU_GAIN_3DB)
      else if val ctrl =? 0 then
        Some (KT0913_REG_AMSYSCFG, KT0913_AMSYSCFG_AU_GAIN_MASK,
              KT0913_AMSYSCFG_AU_GAIN_0DB)
      else if val ctrl =? -3 then
        Some (KT0913_REG_AMSYSCFG, KT0913_AMSYSCFG_AU_GAIN_MASK,
              KT0913_AMSYSCFG_AU_GAIN_MIN_3DB)
      else None
  | V4L2_CID_TUNE_DEEMPHASIS =>
      if val ctrl =? V4L2_DEEMPHASIS_75_uS then
        Some (KT0913_REG_VOLUME, KT0913_VOLUME_DE_MASK, KT0913_VOLUME_DE_75US)
      else if val ctrl =? V4L2_DEEMPHASIS_50_uS then
        Some (KT0913_REG_VOLUME, KT0913_VOLUME_DE_MASK, KT0913_VOLUME_DE_50US)
      else None
  | _ => None
  end.

(** A frequency lies in one of the two bands the driver enumerates. *)
Definition in_enumerated_band (campus freq : Z) : Prop :=
  exists (index : Z) (b : v4l2_frequency_band),
    kt0913_ioctl_vidioc_enum_freq_bands campus 0 index = Ok b /\
    rangelow b <= freq <= rangehigh b.

(** What the tuner query reports on a bus without faults, read off the
    registers: mono and the AM signal strength in the AM band; in an FM
    band the configured mode of DSPCFGA, the stereo indicator of STATUSA
    and the FM signal strength. *)
Definition tuner_reading (v : v4l2_tuner) (radio : kt0913_device) : v4l2_tuner :=
  if band_eqb (band radio) BAND_AM then
    tuner_report (tuner_header v) V4L2_TUNER_SUB_MONO V4L2_TUNER_MODE_MONO
      (rssi_of_reg (peek (regmap radio) KT0913_REG_AMSTATUSA)
         KT0913_AMSTATUSA_AMRSSI_MASK KT0913_AMSTATUSA_AMRSSI_SHIFT)
  else
    tuner_report (tuner_header v)
      (if Z.testbit (peek (regmap radio) KT0913_REG_DSPCFGA) 15
       then V4L2_TUNER_SUB_MONO else V4L2_TUNER_SUB_STEREO)
      (if Z.testbit (peek (regmap radio) KT0913_REG_STATUSA) 8
          && Z.testbit (peek (regmap radio) KT0913_REG_STATUSA) 9
       then V4L2_TUNER_MODE_STEREO else V4L2_TUNER_MODE_MONO)
      (rssi_of_reg (peek (regmap radio) KT0913_REG_STATUSA)
         KT0913_STATUSA_FMRSSI_MASK KT0913_STATUSA_FMRSSI_SHIFT).

(** The settings of the controls the driver supports: mute 0 or 1,
    volume -60..0 in steps of 2 and gain -3..6 in steps of 3 (the ranges
    given to [v4l2_ctrl_new_std] in [kt0913_probe]), de-emphasis 50 or 75
    microseconds (the two cases of [__kt0913_set_deemphasis]). *)
Definition supported_setting (ctrl : v4l2_ctrl) : bool :=
  match cid ctrl with
  | V4L2_CID_AUDIO_MUTE => (val ctrl =? 0) || (val ctrl =? 1)
  | V4L2_CID_AUDIO_VOLUME => volume_domain (val ctrl)
  | V4L2_CID_GAIN =>
      (val ctrl =? -3) || (val ctrl =? 0) || (val ctrl =? 3) || (val ctrl =? 6)
  | V4L2_CID_TUNE_DEEMPHASIS =>
      (val ctrl =? V4L2_DEEMPHASIS_50_uS) || (val ctrl =? V4L2_DEEMPHASIS_75_uS)
  | _ => false
  end.

(** * Properties *)

(** ** Integer helpers *)

Lemma s32_small (x : Z) : - 2 ^ 31 <= x < 2 ^ 31 -> s32 x = x.
Proof.
  intros Hx. unfold s32.
  rewrite Z.mod_small by lia. lia.
Qed.

Lemma u32_small (x : Z) : 0 <= x < 2 ^ 32 -> u32 x = x.
Proof. intros Hx. unfold u32. now rewrite Z.mod_small. Qed.

(** A field of five bits taken out of a word by mask and shift. *)
Lemma field5 (reg mask shift : Z) :
  Z.shiftr mask shift = 31 ->
  Z.shiftr (Z.land reg mask) shift = Z.shiftr reg shift mod 32.
Proof.
  intros Hm. rewrite Z.shiftr_land, Hm.
  change 31 with (Z.ones 5). now rewrite Z.land_ones by lia.
Qed.

Lemma rssi_of_reg_scaled (reg mask shift : Z) :
  Z.shiftr mask shift = 31 ->
  let raw := Z.shiftr (Z.land reg mask) shift in
  0 <= raw <= 31 /\ rssi_of_reg reg mask shift = raw * 65535 / 31.
Proof.
  intros Hm raw.
  assert (Hraw : 0 <= raw <= 31).
  { unfold raw. rewrite field5 by assumption.
    pose proof (Z.mod_pos_bound (Z.shiftr reg shift) 32). lia. }
  split; [assumption |].
  unfold rssi_of_reg. fold raw. rewrite Hm.
  rewrite (s32_small raw) by lia.
  rewrite (s32_small (raw * 65535)) by lia.
  rewrite Z.quot_div_nonneg by lia.
  apply s32_small.
  assert (0 <= raw * 65535 / 31 <= raw * 65535).
  { split; [apply Z.div_pos; lia | apply Z.div_le_upper_bound; lia]. }
  lia.
Qed.

(** ** Single transfers *)

Lemma on_regmap_read_run (reg : Z) (radio : kt0913_device) :
  reg <= max_register ->
  on_regmap (regmap_read reg) radio
  = (if next_fault (regmap radio) =? 0 then Ok (peek (regmap radio) reg)
     else Err (next_fault (regmap radio)),
     with_regmap radio (after (regmap radio) (BusRead reg) (chip (regmap radio)))).
Proof.
  intros Hreg. unfold on_regmap, regmap_read, bus_read.
  destruct (Z.ltb_spec max_register reg) as [Hlt | _]; [lia |].
  now destruct (next_fault (regmap radio) =? 0).
Qed.

Lemma on_regmap_write_run (reg v : Z) (radio : kt0913_device) :
  reg <= max_register ->
  on_regmap (regmap_write reg v) radio
  = if next_fault (regmap radio) =? 0 then
      (Ok tt,
       with_regmap radio
         (after (regmap radio) (BusWrite reg (u16 v))
            (<[reg := u16 v]> (chip (regmap radio)))))
    else
      (Err (next_fault (regmap radio)),
       with_regmap radio
         (after (regmap radio) (BusWrite reg (u16 v)) (chip (regmap radio)))).
Proof.
  intros Hreg. unfold on_regmap, regmap_write, bus_write.
  destruct (Z.ltb_spec max_register reg) as [Hlt | _]; [lia |].
  now destruct (next_fault (regmap radio) =? 0).
Qed.

Lemma on_regmap_read_ok (reg : Z) (radio : kt0913_device) :
  reg <= max_register ->
  next_fault (regmap radio) = 0 ->
  on_regmap (regmap_read reg) radio
  = (Ok (peek (regmap radio) reg),
     with_regmap radio (after (regmap radio) (BusRead reg) (chip (regmap radio)))).
Proof. intros Hreg Hf. rewrite on_regmap_read_run by assumption. now rewrite Hf. Qed.

Lemma on_regmap_write_ok (reg v : Z) (radio : kt0913_device) :
  reg <= max_register ->
  next_fault (regmap radio) = 0 ->
  on_regmap (regmap_write reg v) radio
  = (Ok tt,
     with_regmap radio
       (after (regmap radio) (BusWrite reg (u16 v))
          (<[reg := u16 v]> (chip (regmap radio))))).
Proof. intros Hreg Hf. rewrite on_regmap_write_run by assumption. now rewrite Hf. Qed.

(** The registers the driver touches lie inside the register map. *)
Ltac in_map :=
  match goal with |- _ <= max_register => vm_compute; discriminate end.

(** ** Status decoder: signal strength *)

(** C8 (as amended): on a successful read, each RSSI decoder extracts the
    five-bit field of its band (FM: mask 0xF8, shift 3 of STATUSA; AM:
    mask 0x1F00, shift 8 of AMSTATUSA) and returns [raw * 65535 / 31]
    with truncating integer arithmetic; raw 0 gives 0, raw 31 gives 65535
    and raw 15 gives 31710. *)
Theorem rssi_scaling (radio : kt0913_device) :
  next_fault (regmap radio) = 0 ->
  let fm_raw := Z.shiftr (Z.land (peek (regmap radio) KT0913_REG_STATUSA) 0xF8) 3 in
  let am_raw := Z.shiftr (Z.land (peek (regmap radio) KT0913_REG_AMSTATUSA) 0x1F00) 8 in
  (0 <= fm_raw <= 31 /\ 0 <= am_raw <= 31) /\
  fst (__kt0913_get_fm_rssi radio) = Ok (fm_raw * 65535 / 31) /\
  fst (__kt0913_get_am_rssi radio) = Ok (am_raw * 65535 / 31) /\
  (0 * 65535 / 31 = 0 /\ 31 * 65535 / 31 = 65535 /\ 15 * 65535 / 31 = 31710).
Proof.
  intros Hf fm_raw am_raw.
  destruct (rssi_of_reg_scaled (peek (regmap radio) KT0913_REG_STATUSA)
              KT0913_STATUSA_FMRSSI_MASK KT0913_STATUSA_FMRSSI_SHIFT eq_refl)
    as [Hfm Efm].
  destruct (rssi_of_reg_scaled (peek (regmap radio) KT0913_REG_AMSTATUSA)
              KT0913_AMSTATUSA_AMRSSI_MASK KT0913_AMSTATUSA_AMRSSI_SHIFT eq_refl)
    as [Ham Eam].
  split; [split; assumption |].
  split; [| split; [| repeat split; reflexivity]].
  - unfold __kt0913_get_fm_rssi, bind.
    rewrite on_regmap_read_ok by (assumption || (unfold max_register, KT0913_REG_STATUSA; lia)).
    cbn [ret fst]. now rewrite Efm.
  - unfold __kt0913_get_am_rssi, bind.
    rewrite on_regmap_read_ok by (assumption || (unfold max_register, KT0913_REG_AMSTATUSA; lia)).
    cbn [ret fst]. now rewrite Eam.
Qed.

(** ** Control surface: volume *)

(** C6: the volume field [db / 2 + 31] maps -60 to 1 and 0 to 31, and is
    monotone on the even values between -60 and 0. *)
Theorem volume_field_monotone :
  volume_field (-60) = 1 /\ volume_field 0 = 31 /\
  (forall db, volume_domain db = true ->
     volume_field db = db / 2 + 31 /\ 1 <= volume_field db <= 31) /\
  (forall db1 db2, volume_domain db1 = true -> volume_domain db2 = true ->
     db1 < db2 -> volume_field db1 <= volume_field db2).
Proof.
  assert (Hfield : forall db, volume_domain db = true ->
            volume_field db = db / 2 + 31 /\ 1 <= volume_field db <= 31).
  { intros db Hdom. unfold volume_domain in Hdom.
    apply andb_prop in Hdom as [Hrange Heven].
    apply andb_prop in Hrange as [Hlo Hhi].
    apply Z.leb_le in Hlo, Hhi.
    apply Z.even_spec in Heven as [k ->].
    unfold volume_field.
    rewrite (Z.mul_comm 2 k), Z.quot_mul, Z.div_mul by lia.
    rewrite s32_small by lia. lia. }
  repeat split; try reflexivity; try (apply Hfield; assumption).
  intros db1 db2 H1 H2 Hlt.
  destruct (Hfield db1 H1) as [-> _], (Hfield db2 H2) as [-> _].
  apply Z.add_le_mono_r, Z.div_le_mono; lia.
Qed.

Lemma volume_field_monotone_witness :
  volume_domain (-60) = true /\ volume_domain (-58) = true /\
  volume_field (-60) <= volume_field (-58).
Proof.
  split; [reflexivity |]. split; [reflexivity |].
  apply (proj2 (proj2 (proj2 volume_field_monotone)) (-60) (-58));
    [reflexivity | reflexivity | lia].
Defined.

(** ** Tuner controller: band classification *)

(** The nested conditionals of the driver compute the specification's
    priority search, and touch nothing. *)
Lemma select_band_spec (campus freq : Z) (radio : kt0913_device) :
  select_band campus freq radio
  = (classified (spec_classify (campus_enabled campus) freq), radio).
Proof.
  unfold select_band, spec_classify, spec_band_priority.
  cbn [app List.find].
  destruct (in_band BAND_AM freq); [reflexivity |].
  destruct (in_band BAND_FM freq); [reflexivity |].
  destruct (campus_enabled campus); cbn [andb List.find]; [| reflexivity].
  destruct (in_band BAND_FM_CAMUS freq); reflexivity.
Qed.

(** The transfers of a call are those appended to the trace. *)
Lemma issued_app (radio radio' : kt0913_device) (ops : list bus_op) :
  trace (regmap radio') = trace (regmap radio) ++ ops ->
  issued radio radio' = ops.
Proof. intros E. unfold issued. rewrite E. apply drop_app_length. Qed.

Lemma issued_refl (radio : kt0913_device) : issued radio radio = [].
Proof. apply issued_app. now rewrite app_nil_r. Qed.

Lemma band_eqb_eq (a b : band_t) : band_eqb a b = true <-> a = b.
Proof. destruct a, b; cbn; split; (reflexivity || discriminate). Qed.

Lemma band_eqb_neq (a b : band_t) : band_eqb a b = false <-> a <> b.
Proof. destruct a, b; cbn; split; (congruence || discriminate || reflexivity). Qed.

(** ** Tuner controller: the shape of a tune request *)

(** After its argument checks, a tune request is the mode update (only on
    a band change) followed by the tune write. *)
Lemma set_frequency_unfold (campus freq : Z) (radio : kt0913_device) (nb : band_t) :
  freq <> 0 ->
  spec_classify (campus_enabled campus) freq = Some nb ->
  set_frequency campus freq radio
  = if band_eqb (band radio) nb then
      tune_write nb (v4l2_freq_to_khz freq) radio
    else
      match __kt0913_set_am_fm_band nb radio with
      | (Ok _, radio1) =>
          tune_write nb (v4l2_freq_to_khz freq) (with_band radio1 nb)
      | (Err e, radio1) => (Err e, radio1)
      end.
Proof.
  intros Hfreq Hcls.
  unfold set_frequency, kt0913_ioctl_vidioc_s_frequency.
  cbn [tuner type frequency].
  rewrite !Z.eqb_refl. cbn [negb orb].
  destruct (Z.eqb_spec freq 0) as [| _]; [contradiction |].
  unfold bind at 1. rewrite select_band_spec, Hcls. cbn [classified].
  unfold bind at 1. unfold get_band at 1.
  unfold bind at 1.
  destruct (band_eqb (band radio) nb) eqn:Hb; cbn [negb].
  - unfold ret at 1. unfold bind, get_band.
    apply band_eqb_eq in Hb. rewrite Hb. reflexivity.
  - unfold bind at 1.
    destruct (__kt0913_set_am_fm_band nb radio) as [[[] | e] radio1];
      [| reflexivity].
    unfold set_band at 1. unfold bind, get_band. reflexivity.
Qed.

Lemma update_bits_shape (reg mask v : Z) (radio : kt0913_device) :
  reg <= max_register ->
  let res := on_regmap (regmap_update_bits reg mask v) radio in
  band (snd res) = band radio /\
  exists ops,
    trace (regmap (snd res)) = trace (regmap radio) ++ ops /\
    (ops = [BusRead reg] \/ exists w, ops = [BusRead reg; BusWrite reg w]).
Proof.
  intros Hreg res. subst res.
  unfold on_regmap, regmap_update_bits, bind, regmap_read, regmap_write,
    bus_read, bus_write, ret.
  destruct (Z.ltb_spec max_register reg) as [Hlt | _]; [lia |].
  destruct (next_fault (regmap radio) =? 0); cbn [snd band regmap with_regmap].
  - match goal with |- context [if ?c then _ else _] => destruct c end.
    + split; [reflexivity |]. exists [BusRead reg]. split; [reflexivity | now left].
    + match goal with |- context [if ?c then _ else _] => destruct c end;
        cbn [snd band regmap with_regmap after trace];
        (split; [reflexivity |]); eexists; (split; [now rewrite <- app_assoc |]);
        right; eexists; reflexivity.
  - split; [reflexivity |]. exists [BusRead reg]. split; [reflexivity | now left].
Qed.

Lemma tune_write_shape (b : band_t) (khz : Z) (radio : kt0913_device) :
  let res := tune_write b khz radio in
  band (snd res) = band radio /\
  exists v,
    trace (regmap (snd res))
    = trace (regmap radio)
      ++ [BusWrite (if band_eqb b BAND_AM then KT0913_REG_AMCHAN
                    else KT0913_REG_TUNE) v].
Proof.
  intros res. subst res. unfold tune_write.
  destruct (band_eqb b BAND_AM);
    unfold __kt0913_set_am_frequency, __kt0913_set_fm_frequency;
    rewrite on_regmap_write_run by in_map;
    destruct (next_fault (regmap radio) =? 0);
    cbn [snd band regmap with_regmap after trace];
    (split; [reflexivity |]); eexists; reflexivity.
Qed.

(** A request for frequency 0, or for a frequency no enabled band holds,
    is refused with [-EINVAL] and the device is left as it was. *)
Lemma set_frequency_rejected (campus freq : Z) (radio : kt0913_device) :
  freq = 0 \/ spec_classify (campus_enabled campus) freq = None ->
  set_frequency campus freq radio = (Err (- EINVAL), radio).
Proof.
  intros Hrej.
  unfold set_frequency, kt0913_ioctl_vidioc_s_frequency.
  cbn [tuner type frequency]. rewrite !Z.eqb_refl. cbn [negb orb].
  destruct (Z.eqb_spec freq 0) as [| Hne]; [reflexivity |].
  destruct Hrej as [| Hnone]; [contradiction |].
  unfold bind at 1. now rewrite select_band_spec, Hnone.
Qed.

Lemma set_frequency_band (campus freq : Z) (radio : kt0913_device) :
  fst (set_frequency campus freq radio) = Ok tt ->
  spec_classify (campus_enabled campus) freq
  = Some (band (snd (set_frequency campus freq radio))).
Proof.
  intros Hok.
  destruct (Z.eq_dec freq 0) as [Hz | Hnz].
  { rewrite set_frequency_rejected in Hok by now left. discriminate. }
  destruct (spec_classify (campus_enabled campus) freq) as [nb |] eqn:Hcls.
  2:{ rewrite set_frequency_rejected in Hok by now right. discriminate. }
  rewrite (set_frequency_unfold campus freq radio nb Hnz Hcls) in Hok |- *.
  destruct (band_eqb (band radio) nb) eqn:Hb.
  - apply band_eqb_eq in Hb.
    destruct (tune_write_shape nb (v4l2_freq_to_khz freq) radio) as [-> _].
    now rewrite Hb.
  - destruct (__kt0913_set_am_fm_band nb radio) as [[[] | e] radio1];
      [| discriminate].
    destruct (tune_write_shape nb (v4l2_freq_to_khz freq) (with_band radio1 nb))
      as [-> _].
    reflexivity.
Qed.

(** C1: the band of a tune request is found by range membership in the
    fixed priority order AM, FM, FM_EXTENDED, the extended range being
    tried only when the extended-band flag is set; a frequency inside the
    AM range is classified as AM whatever the FM ranges are, and a
    successful request leaves the device in the band so classified. *)
Theorem band_classification_priority (campus freq : Z) (radio : kt0913_device) :
  select_band campus freq radio
  = (classified (spec_classify (campus_enabled campus) freq), radio) /\
  (in_band BAND_AM freq = true ->
   fst (select_band campus freq radio) = Ok BAND_AM) /\
  (in_band BAND_AM freq = false -> in_band BAND_FM freq = true ->
   fst (select_band campus freq radio) = Ok BAND_FM) /\
  (fst (select_band campus freq radio) = Ok BAND_FM_CAMUS ->
   campus_enabled campus = true /\ in_band BAND_FM_CAMUS freq = true /\
   in_band BAND_AM freq = false /\ in_band BAND_FM freq = false) /\
  (fst (set_frequency campus freq radio) = Ok tt ->
   spec_classify (campus_enabled campus) freq
   = Some (band (snd (set_frequency campus freq radio)))).
Proof.
  split; [apply select_band_spec |].
  split; [| split; [| split; [| apply set_frequency_band]]].
  - intros Ham. unfold select_band. now rewrite Ham.
  - intros Ham Hfm. unfold select_band. now rewrite Ham, Hfm.
  - unfold select_band.
    destruct (in_band BAND_AM freq); [discriminate |].
    destruct (in_band BAND_FM freq); [discriminate |].
    destruct (campus_enabled campus); [| discriminate].
    destruct (in_band BAND_FM_CAMUS freq); [| discriminate].
    intros _. repeat split.
Qed.

(** A device sitting in the FM band on a quiet bus. *)
Lemma band_classification_priority_witness :
  in_band BAND_AM (1000 * 16) = true /\
  fst (select_band 1 (1000 * 16) (attach 0 0 ∅ [])) = Ok BAND_AM.
Proof.
  split; [reflexivity |].
  apply (proj1 (proj2 (band_classification_priority 1 (1000 * 16)
                         (attach 0 0 ∅ [])))).
  reflexivity.
Defined.

(** C2 (as amended): a request for frequency 0 and a request for a
    frequency that lies in no enabled band are both refused with the same
    error, [-EINVAL]; neither issues a register transfer, and the
    registers and the band state stay as they were. *)
Theorem set_frequency_invalid_untouched (campus freq : Z) (radio : kt0913_device) :
  freq = 0 \/ spec_classify (campus_enabled campus) freq = None ->
  set_frequency campus freq radio = (Err (- EINVAL), radio) /\
  issued radio (snd (set_frequency campus freq radio)) = [].
Proof.
  intros Hrej. rewrite (set_frequency_rejected campus freq radio Hrej).
  split; [reflexivity | apply issued_refl].
Qed.

Lemma set_frequency_invalid_untouched_witness :
  spec_classify (campus_enabled 0) (40000 * 16) = None /\
  set_frequency 0 (40000 * 16) (attach 0 0 ∅ [])
  = (Err (- EINVAL), attach 0 0 ∅ []).
Proof.
  split; [reflexivity |].
  apply (set_frequency_invalid_untouched 0 (40000 * 16) (attach 0 0 ∅ [])).
  right. reflexivity.
Defined.

(** With the extended band off, the request for 40 MHz returns the very
    error number of the request for frequency 0, [-EINVAL], so no reading
    of error numbers tells an [OutOfRange] failure from an
    [InvalidArgument] one. *)
Lemma set_frequency_out_of_range_counterexample :
  ret_code (fst (set_frequency 0 0 (attach 0 0 ∅ []))) = - EINVAL /\
  ret_code (fst (set_frequency 0 (40000 * 16) (attach 0 0 ∅ []))) = - EINVAL /\
  ~ exists kind_of : Z -> error_kind,
      kind_of (ret_code (fst (set_frequency 0 0 (attach 0 0 ∅ []))))
      = InvalidArgument /\
      kind_of (ret_code (fst (set_frequency 0 (40000 * 16) (attach 0 0 ∅ []))))
      = OutOfRange.
Proof.
  rewrite (set_frequency_rejected 0 0) by (now left).
  rewrite (set_frequency_rejected 0 (40000 * 16)) by (right; reflexivity).
  cbn [fst ret_code].
  split; [reflexivity |]. split; [reflexivity |].
  intros [kind_of [Hinv Hoor]]. congruence.
Qed.

(** ** Tuner controller: order of the mode write and the tune write *)

Lemma tune_reg_is_tune_write (b : band_t) (v : Z) :
  is_tune_write
    (BusWrite (if band_eqb b BAND_AM then KT0913_REG_AMCHAN else KT0913_REG_TUNE) v)
  = true.
Proof. now destruct (band_eqb b BAND_AM). Qed.

Lemma set_frequency_ops (campus freq : Z) (radio : kt0913_device) :
  tune_ops
    (match fst (select_band campus freq radio) with
     | Ok nb => negb (band_eqb (band radio) nb)
     | Err _ => false
     end)
    (issued radio (snd (set_frequency campus freq radio))).
Proof.
  rewrite select_band_spec. cbn [fst].
  destruct (Z.eq_dec freq 0) as [Hz | Hnz].
  { rewrite set_frequency_rejected by now left.
    cbn [snd]. rewrite issued_refl. constructor. }
  destruct (spec_classify (campus_enabled campus) freq) as [nb |] eqn:Hcls.
  2:{ rewrite set_frequency_rejected by now right.
      cbn [snd]. rewrite issued_refl. constructor. }
  rewrite (set_frequency_unfold campus freq radio nb Hnz Hcls).
  cbn [classified].
  destruct (band_eqb (band radio) nb) eqn:Hb; cbn [negb].
  - destruct (tune_write_shape nb (v4l2_freq_to_khz freq) radio) as [_ [v Hv]].
    rewrite (issued_app _ _ _ Hv).
    constructor; [reflexivity | apply tune_reg_is_tune_write].
  - assert (Hreg : KT0913_REG_AMSYSCFG <= max_register) by in_map.
    pose proof (update_bits_shape KT0913_REG_AMSYSCFG KT0913_AMSYSCFG_AM_FM_MASK
                  (if band_eqb nb BAND_AM then KT0913_AMSYSCFG_AM_FM_AM
                   else KT0913_AMSYSCFG_AM_FM_FM) radio Hreg) as Hshape.
    cbn zeta in Hshape. fold (__kt0913_set_am_fm_band nb) in Hshape.
    destruct (__kt0913_set_am_fm_band nb radio) as [[[] | e] radio1];
      cbn [snd] in Hshape; destruct Hshape as [_ [ops [Htr Hops]]].
    + destruct (tune_write_shape nb (v4l2_freq_to_khz freq) (with_band radio1 nb))
        as [_ [v Hv]].
      cbn [with_band regmap] in Hv. rewrite Htr, <- app_assoc in Hv.
      rewrite (issued_app _ _ _ Hv).
      destruct Hops as [-> | [w ->]]; cbn [app];
        constructor; (reflexivity || apply tune_reg_is_tune_write).
    + cbn [snd]. rewrite (issued_app _ _ _ Htr).
      destruct Hops as [-> | [w ->]]; now constructor.
Qed.

(** C3: in a tune request the mode-config register is written only when
    the classified band differs from the band the device is in, and such
    a mode write comes before the tune write among the transfers of the
    call. *)
Theorem mode_write_before_tune_write (campus freq : Z) (radio : kt0913_device) :
  let ops := issued radio (snd (set_frequency campus freq radio)) in
  (existsb is_mode_write ops = true ->
   exists nb, fst (select_band campus freq radio) = Ok nb /\ nb <> band radio) /\
  (forall (i j : nat) (a b : bus_op),
     ops !! i = Some a -> ops !! j = Some b ->
     is_mode_write a = true -> is_tune_write b = true -> (i < j)%nat).
Proof.
  intros ops.
  pose proof (set_frequency_ops campus freq radio) as Hops.
  fold ops in Hops. clearbody ops.
  assert (Hnot : forall reg v, is_tune_write (BusWrite reg v) = true ->
                               is_mode_write (BusWrite reg v) = false).
  { intros reg v. cbn.
    destruct (Z.eqb_spec reg KT0913_REG_AMSYSCFG) as [-> |]; [discriminate | reflexivity]. }
  split.
  - intros Hmode.
    destruct (fst (select_band campus freq radio)) as [nb | e].
    + exists nb. split; [reflexivity |].
      destruct (band_eqb (band radio) nb) eqn:Hb; cbn [negb] in Hops.
      * destruct Hops as [| reg v _ Ht | Hc | w Hc | reg v Hc | w reg v Hc];
          try discriminate.
        cbn [existsb] in Hmode. rewrite (Hnot reg v Ht) in Hmode. discriminate.
      * apply band_eqb_neq in Hb. congruence.
    + destruct Hops as [| reg v _ Ht | Hc | w Hc | reg v Hc | w reg v Hc];
        try discriminate.
      cbn [existsb] in Hmode. rewrite (Hnot reg v Ht) in Hmode. discriminate.
  - intros i j a b Hi Hj Ha Hb.
    destruct Hops as [| reg v _ Ht | _ | w _ | reg v _ Ht | w reg v _ Ht];
      repeat (destruct i as [| i]; cbn in Hi; try discriminate Hi);
      repeat (destruct j as [| j]; cbn in Hj; try discriminate Hj);
      simplify_eq; try lia; try discriminate;
      try (rewrite (Hnot reg v Ht) in Ha; discriminate).
Qed.

Lemma mode_write_before_tune_write_witness :
  existsb is_mode_write
    (issued (attach 0 0 ∅ []) (snd (set_frequency 0 (1000 * 16) (attach 0 0 ∅ []))))
  = true /\
  exists nb, fst (select_band 0 (1000 * 16) (attach 0 0 ∅ [])) = Ok nb /\
             nb <> band (attach 0 0 ∅ []).
Proof.
  split; [reflexivity |].
  apply (proj1 (mode_write_before_tune_write 0 (1000 * 16) (attach 0 0 ∅ []))).
  reflexivity.
Defined.

(** ** Tuner controller: a failed mode update *)

(** C10: when the update of the AM/FM mode bit fails during a tune
    request, the request returns that error, the band state is the one
    before the call, and no tune write is attempted: the transfers of
    the request are those of the failed mode update. *)
Theorem mode_write_failure_aborts
    (campus freq : Z) (radio : kt0913_device) (nb : band_t) (e : Z) :
  freq <> 0 ->
  fst (select_band campus freq radio) = Ok nb ->
  nb <> band radio ->
  fst (__kt0913_set_am_fm_band nb radio) = Err e ->
  let res := set_frequency campus freq radio in
  fst res = Err e /\
  snd res = snd (__kt0913_set_am_fm_band nb radio) /\
  band (snd res) = band radio /\
  existsb is_tune_write (issued radio (snd res)) = false.
Proof.
  intros Hfreq Hsel Hnb Hfail res. subst res.
  rewrite select_band_spec in Hsel. cbn [fst] in Hsel.
  destruct (spec_classify (campus_enabled campus) freq) as [nb' |] eqn:Hcls;
    [| discriminate].
  cbn [classified] in Hsel. injection Hsel as ->.
  rewrite (set_frequency_unfold campus freq radio nb Hfreq Hcls).
  assert (Hb : band_eqb (band radio) nb = false)
    by (apply band_eqb_neq; congruence).
  rewrite Hb.
  assert (Hreg : KT0913_REG_AMSYSCFG <= max_register) by in_map.
  pose proof (update_bits_shape KT0913_REG_AMSYSCFG KT0913_AMSYSCFG_AM_FM_MASK
                (if band_eqb nb BAND_AM then KT0913_AMSYSCFG_AM_FM_AM
                 else KT0913_AMSYSCFG_AM_FM_FM) radio Hreg) as Hshape.
  cbn zeta in Hshape. fold (__kt0913_set_am_fm_band nb) in Hshape.
  destruct (__kt0913_set_am_fm_band nb radio) as [[[] | e'] radio1];
    cbn [fst snd] in *; [discriminate |].
  injection Hfail as ->.
  destruct Hshape as [Hband [ops [Htr Hops]]].
  repeat split; [assumption |].
  rewrite (issued_app _ _ _ Htr).
  destruct Hops as [-> | [w ->]]; reflexivity.
Qed.

(** The device is in FM, the chip in FM mode; the read of the mode
    register succeeds and the write that sets the AM bit fails with
    [-EIO]. *)
Lemma mode_write_failure_aborts_witness :
  fst (set_frequency 0 (1000 * 16) (attach 0 0 ∅ [0; - EIO])) = Err (- EIO) /\
  band (snd (set_frequency 0 (1000 * 16) (attach 0 0 ∅ [0; - EIO]))) = BAND_FM /\
  issued (attach 0 0 ∅ [0; - EIO])
    (snd (set_frequency 0 (1000 * 16) (attach 0 0 ∅ [0; - EIO])))
  = [BusRead KT0913_REG_AMSYSCFG; BusWrite KT0913_REG_AMSYSCFG 0x8000].
Proof.
  pose proof (mode_write_failure_aborts 0 (1000 * 16) (attach 0 0 ∅ [0; - EIO])
                BAND_AM (- EIO)) as H.
  destruct H as [Hret [_ [Hband _]]];
    [discriminate | reflexivity | discriminate | reflexivity |].
  split; [exact Hret |]. split; [exact Hband | reflexivity].
Defined.

(** ** Transfers on a bus without faults *)

Lemma quiet_next_fault (m : Regmap.t) : faults m = [] -> next_fault m = 0.
Proof. intros H. unfold next_fault. now rewrite H. Qed.

Lemma quiet_after (m : Regmap.t) (op : bus_op) (c : gmap Z Z) :
  faults m = [] -> faults (after m op c) = [].
Proof. intros H. cbn. now rewrite H. Qed.

Lemma update_bits_quiet (reg mask v : Z) (radio : kt0913_device) :
  reg <= max_register ->
  faults (regmap radio) = [] ->
  on_regmap (regmap_update_bits reg mask v) radio
  = (Ok tt, with_regmap radio (quiet_update reg mask v (regmap radio))).
Proof.
  intros Hreg Hq.
  unfold on_regmap, regmap_update_bits, bind, regmap_read, regmap_write,
    bus_read, bus_write, ret, quiet_update.
  destruct (Z.ltb_spec max_register reg) as [Hlt | _]; [lia |].
  rewrite (quiet_next_fault _ Hq). cbn [Z.eqb]. cbv zeta.
  match goal with |- context [if ?c then _ else _] => destruct c end;
    [reflexivity |].
  assert (Hq1 : faults (after (regmap radio) (BusRead reg) (chip (regmap radio))) = [])
    by now apply quiet_after.
  now rewrite (quiet_next_fault _ Hq1).
Qed.

Lemma quiet_update_faults (reg mask v : Z) (m : Regmap.t) :
  faults m = [] -> faults (quiet_update reg mask v m) = [].
Proof.
  intros Hq. unfold quiet_update. cbv zeta.
  match goal with |- context [if ?c then _ else _] => destruct c end;
    repeat apply quiet_after; assumption.
Qed.

(** ** Control surface: the volume control makes no range check *)

Lemma update_bits_result (reg mask v : Z) (radio : kt0913_device) :
  reg <= max_register ->
  let res := on_regmap (regmap_update_bits reg mask v) radio in
  fst res = Ok tt \/
  exists e, In e (faults (regmap radio)) /\ e <> 0 /\ fst res = Err e.
Proof.
  intros Hreg res. subst res.
  unfold on_regmap, regmap_update_bits, bind, regmap_read, regmap_write,
    bus_read, bus_write, ret, next_fault, after.
  destruct (Z.ltb_spec max_register reg) as [Hlt | _]; [lia |].
  destruct (faults (regmap radio)) as [| e1 [| e2 rest]]; cbn.
  - match goal with |- context [if ?c then _ else _] => destruct c end;
      cbn; now left.
  - destruct (Z.eqb_spec e1 0) as [-> | Hne].
    + match goal with |- context [if ?c then _ else _] => destruct c end;
        cbn; now left.
    + right. exists e1. cbn. intuition auto.
  - destruct (Z.eqb_spec e1 0) as [-> | Hne1].
    + match goal with |- context [if ?c then _ else _] => destruct c end;
        cbn; [now left |].
      destruct (Z.eqb_spec e2 0) as [-> | Hne2]; cbn; [now left |].
      right. exists e2. intuition auto.
    + right. exists e1. cbn. intuition auto.
Qed.

(** C7 (as amended): the volume control has no range check of its own.
    For every input, inside -60..0 or not, it reads RXCFG and merges the
    low five bits of [db / 2 + 31] into the volume field, writing the
    word back when it changed.  It fails only with the error of a failed
    transfer, and on a bus without faults it succeeds, so an out-of-range
    input is never refused by the driver. *)
Theorem set_volume_no_range_check (db : Z) (radio : kt0913_device) :
  let orig := peek (regmap radio) KT0913_REG_RXCFG in
  let tmp := merged orig KT0913_RXCFGA_VOLUME_MASK (u32 (volume_field db)) in
  (fst (set_volume db radio) = Ok tt \/
   exists e, In e (faults (regmap radio)) /\ e <> 0 /\
             fst (set_volume db radio) = Err e) /\
  (faults (regmap radio) = [] ->
   fst (set_volume db radio) = Ok tt /\
   issued radio (snd (set_volume db radio))
   = BusRead KT0913_REG_RXCFG
     :: (if tmp =? orig then [] else [BusWrite KT0913_REG_RXCFG (u16 tmp)])).
Proof.
  intros orig tmp.
  unfold set_volume, kt0913_s_ctrl. cbn [cid val].
  unfold __kt0913_set_volume.
  split; [apply update_bits_result; in_map |].
  intros Hq.
  rewrite update_bits_quiet by (in_map || assumption).
  unfold quiet_update. fold orig. fold tmp. cbn [fst snd]. split; [reflexivity |].
  apply issued_app.
  destruct (tmp =? orig); cbn [with_regmap regmap after trace];
    [reflexivity | now rewrite <- app_assoc].
Qed.

(** The chip holds the power-on volume word of the default table. *)
Lemma set_volume_no_range_check_witness :
  volume_domain 2 = false /\
  fst (set_volume 2 (attach 0 0 {[ KT0913_REG_RXCFG := 0x881F ]} [])) = Ok tt.
Proof.
  split; [reflexivity |].
  apply (proj2 (set_volume_no_range_check 2
                  (attach 0 0 {[ KT0913_REG_RXCFG := 0x881F ]} []))).
  reflexivity.
Defined.

(** An input above the range is accepted and a register write goes out. *)
Lemma set_volume_out_of_range_counterexample :
  volume_domain 2 = false /\
  set_volume 2 (attach 0 0 {[ KT0913_REG_RXCFG := 0x881F ]} [])
  = (Ok tt,
     with_regmap (attach 0 0 {[ KT0913_REG_RXCFG := 0x881F ]} [])
       {| chip := {[ KT0913_REG_RXCFG := 0x8800 ]};
          trace := [BusRead KT0913_REG_RXCFG; BusWrite KT0913_REG_RXCFG 0x8800];
          faults := [] |}) /\
  existsb is_write
    (issued (attach 0 0 {[ KT0913_REG_RXCFG := 0x881F ]} [])
       (snd (set_volume 2 (attach 0 0 {[ KT0913_REG_RXCFG := 0x881F ]} []))))
  = true.
Proof. repeat split; vm_compute; reflexivity. Qed.

(** A chip that reports the raw FM signal strength 15. *)
Lemma rssi_scaling_witness :
  next_fault (regmap (attach 0 0 {[ KT0913_REG_STATUSA := 0x78 ]} [])) = 0 /\
  fst (__kt0913_get_fm_rssi (attach 0 0 {[ KT0913_REG_STATUSA := 0x78 ]} []))
  = Ok 31710.
Proof.
  split; [reflexivity |].
  exact (proj1 (proj2 (rssi_scaling
                         (attach 0 0 {[ KT0913_REG_STATUSA := 0x78 ]} []) eq_refl))).
Defined.

(** Raw strength 15 is decoded to 31710, not to 31705, on FM and on AM. *)
Lemma rssi_raw15_counterexample :
  Z.shiftr (Z.land 0x78 KT0913_STATUSA_FMRSSI_MASK) KT0913_STATUSA_FMRSSI_SHIFT = 15 /\
  Z.shiftr (Z.land 0x0F00 KT0913_AMSTATUSA_AMRSSI_MASK) KT0913_AMSTATUSA_AMRSSI_SHIFT = 15 /\
  fst (__kt0913_get_fm_rssi (attach 0 0 {[ KT0913_REG_STATUSA := 0x78 ]} []))
  <> Ok 31705 /\
  fst (__kt0913_get_am_rssi (attach 0 0 {[ KT0913_REG_AMSTATUSA := 0x0F00 ]} []))
  <> Ok 31705.
Proof. repeat split; vm_compute; discriminate. Qed.

(** ** Frequency codec: reading back a channel code *)

(** A channel code of [k] bits (k below 16) written together with the
    tune-enable bit is read back unchanged through the field mask. *)
Lemma chan_readback (c k : Z) :
  0 <= k <= 15 -> 0 <= c < 2 ^ k ->
  Z.land (u16 (Z.lor 0x8000 c)) (Z.ones k) = c.
Proof.
  intros Hk Hc. unfold u16.
  change 0xFFFF with (Z.ones 16). change 0x8000 with (2 ^ 15).
  apply Z.bits_inj'. intros n Hn.
  rewrite !Z.land_spec, Z.lor_spec, Z.pow2_bits_eqb by lia.
  destruct (Z.ltb_spec n k) as [Hlt | Hge].
  - rewrite !Z.ones_spec_low by lia.
    destruct (Z.eqb_spec 15 n) as [E | _]; [lia |].
    cbn [orb]. now rewrite !andb_true_r.
  - rewrite (Z.ones_spec_high k n) by lia.
    rewrite andb_false_r. symmetry.
    destruct (Z.eq_dec c 0) as [-> | Hnz]; [apply Z.bits_0 |].
    apply Z.bits_above_log2; [lia |].
    apply Z.log2_lt_pow2; [lia |].
    apply Z.lt_le_trans with (2 ^ k); [lia |].
    apply Z.pow_le_mono_r; lia.
Qed.

Lemma in_band_bounds (b : band_t) (freq : Z) :
  in_band b freq = true ->
  match b with
  | BAND_AM => 500 * 16 <= freq <= 1710 * 16
  | BAND_FM => 64000 * 16 <= freq <= 110000 * 16
  | BAND_FM_CAMUS => 32000 * 16 <= freq <= 110000 * 16
  end.
Proof.
  unfold in_band. intros H. apply andb_prop in H as [Hlo Hhi].
  apply Z.leb_le in Hlo, Hhi.
  destruct b;
    match type of Hlo with ?lo <= _ =>
      let v := eval vm_compute in lo in change lo with v in Hlo end;
    match type of Hhi with _ <= ?hi =>
      let v := eval vm_compute in hi in change hi with v in Hhi end;
    lia.
Qed.

Lemma spec_classify_in_band (extended : bool) (freq : Z) (nb : band_t) :
  spec_classify extended freq = Some nb -> in_band nb freq = true.
Proof.
  unfold spec_classify. intros H. now apply List.find_some in H as [_ H].
Qed.

(** ** Tune requests on a bus without faults *)

Lemma tune_write_quiet (b : band_t) (khz : Z) (radio : kt0913_device) :
  faults (regmap radio) = [] ->
  tune_write b khz radio
  = (Ok tt,
     with_regmap radio
       (after (regmap radio) (BusWrite (tune_reg b) (u16 (tune_word b khz)))
          (<[tune_reg b := u16 (tune_word b khz)]> (chip (regmap radio))))).
Proof.
  intros Hq. unfold tune_write, tune_reg, tune_word.
  destruct (band_eqb b BAND_AM);
    unfold __kt0913_set_am_frequency, __kt0913_set_fm_frequency;
    rewrite on_regmap_write_ok by (in_map || now apply quiet_next_fault);
    reflexivity.
Qed.

Lemma set_frequency_quiet (campus freq : Z) (radio : kt0913_device) (nb : band_t) :
  faults (regmap radio) = [] ->
  spec_classify (campus_enabled campus) freq = Some nb ->
  let radio1 := after_mode_step nb radio in
  set_frequency campus freq radio
  = (Ok tt,
     with_regmap radio1
       (after (regmap radio1)
          (BusWrite (tune_reg nb) (u16 (tune_word nb (v4l2_freq_to_khz freq))))
          (<[tune_reg nb := u16 (tune_word nb (v4l2_freq_to_khz freq))]>
             (chip (regmap radio1))))) /\
  band radio1 = nb /\ faults (regmap radio1) = [].
Proof.
  intros Hq Hcls radio1.
  assert (Hnz : freq <> 0).
  { pose proof (in_band_bounds nb freq (spec_classify_in_band _ _ _ Hcls)).
    destruct nb; lia. }
  rewrite (set_frequency_unfold campus freq radio nb Hnz Hcls).
  subst radio1. unfold after_mode_step.
  destruct (band_eqb (band radio) nb) eqn:Hb.
  - apply band_eqb_eq in Hb.
    rewrite tune_write_quiet by assumption. auto.
  - unfold __kt0913_set_am_fm_band. fold (mode_bit nb).
    rewrite update_bits_quiet by (in_map || assumption).
    assert (Hq1 : faults (quiet_update KT0913_REG_AMSYSCFG KT0913_AMSYSCFG_AM_FM_MASK
                            (mode_bit nb) (regmap radio)) = [])
      by now apply quiet_update_faults.
    rewrite tune_write_quiet by exact Hq1.
    auto.
Qed.

Lemma get_frequency_quiet (radio : kt0913_device) :
  faults (regmap radio) = [] ->
  fst (get_frequency radio) = Ok (khz_to_v4l2_freq (decoded_khz radio)).
Proof.
  intros Hq.
  unfold get_frequency, kt0913_ioctl_vidioc_g_frequency, decoded_khz.
  cbn [tuner]. rewrite Z.eqb_refl. cbn [negb].
  unfold bind at 1. unfold bind at 1. unfold get_band at 1.
  unfold bind at 1.
  destruct (band_eqb (band radio) BAND_AM);
    unfold __kt0913_get_am_frequency, __kt0913_get_fm_frequency, bind;
    rewrite on_regmap_read_ok by (in_map || now apply quiet_next_fault);
    reflexivity.
Qed.

Lemma peek_written (m : Regmap.t) (op : bus_op) (reg w : Z) :
  peek (after m op (<[reg := w]> (chip m))) reg = w.
Proof. unfold peek. cbn [after chip]. now rewrite lookup_insert_eq. Qed.

Lemma in_band_classify (extended : bool) (b : band_t) (freq : Z) :
  in_band b freq = true ->
  (b = BAND_FM_CAMUS -> extended = true) ->
  exists nb, spec_classify extended freq = Some nb /\ band_step nb = band_step b.
Proof.
  intros Hin Hext. unfold spec_classify, spec_band_priority.
  cbn [app List.find].
  destruct (in_band BAND_AM freq) eqn:Ham.
  { exists BAND_AM. split; [reflexivity |].
    apply in_band_bounds in Ham, Hin. destruct b; cbn in *; (reflexivity || lia). }
  destruct (in_band BAND_FM freq) eqn:Hfm.
  { exists BAND_FM. split; [reflexivity |].
    destruct b; try reflexivity. congruence. }
  destruct b; try congruence.
  rewrite (Hext eq_refl). cbn [List.find]. rewrite Hin.
  now exists BAND_FM_CAMUS.
Qed.

(** ** Frequency round trip *)

(** C5: for an external frequency inside the range of an enabled band, a
    tune request followed by a frequency query (on a bus without faults)
    returns the request truncated down to a whole number of channel steps
    of the band (50 kHz on FM, 1 kHz on AM; one kHz is 16 external
    units), never rounded up; a request that is a whole number of steps
    is returned unchanged. *)
Theorem frequency_round_trip
    (campus freq : Z) (radio : kt0913_device) (b : band_t) :
  faults (regmap radio) = [] ->
  in_band b freq = true ->
  (b = BAND_FM_CAMUS -> campus_enabled campus = true) ->
  let step := band_step b * V4L2_KHZ_FREQ_MUL in
  let radio' := snd (set_frequency campus freq radio) in
  fst (set_frequency campus freq radio) = Ok tt /\
  fst (get_frequency radio') = Ok (freq / step * step) /\
  freq - step < freq / step * step <= freq /\
  (freq mod step = 0 -> fst (get_frequency radio') = Ok freq).
Proof.
  intros Hq Hin Hext step radio'.
  destruct (in_band_classify _ b freq Hin Hext) as [nb [Hcls Hstep]].
  destruct (set_frequency_quiet campus freq radio nb Hq Hcls) as [Hset [Hband Hq1]].
  assert (Hstep_pos : 0 < step) by (subst step; destruct b; reflexivity).
  assert (Hget : fst (get_frequency radio') = Ok (freq / step * step)).
  { subst radio'. rewrite Hset. cbn [snd].
    rewrite get_frequency_quiet
      by (cbn [with_regmap regmap]; now apply quiet_after).
    f_equal. unfold decoded_khz.
    cbn [with_regmap band regmap]. rewrite Hband.
    pose proof (in_band_bounds nb freq (spec_classify_in_band _ _ _ Hcls)) as Hb.
    subst step. rewrite <- Hstep.
    assert (Hkhz : v4l2_freq_to_khz freq = freq / 16) by reflexivity.
    assert (Hfm : 32000 * 16 <= freq <= 110000 * 16 ->
                  khz_to_v4l2_freq
                    (u32 (Z.land (u16 (Z.lor 0x8000 (freq / 16 / 50))) (Z.ones 12) * 50))
                  = freq / (50 * 16) * (50 * 16)).
    { intros Hrange.
      assert (640 <= freq / 16 / 50 <= 2200).
      { split; [apply Z.div_le_lower_bound; [lia |];
                apply Z.div_le_lower_bound; lia
               | apply Z.div_le_upper_bound; [lia |];
                 apply Z.div_le_upper_bound; lia]. }
      rewrite chan_readback by lia.
      unfold khz_to_v4l2_freq. change V4L2_KHZ_FREQ_MUL with 16.
      rewrite (u32_small (freq / 16 / 50 * 50)) by lia.
      rewrite u32_small by lia.
      rewrite Z.div_div by lia. change (16 * 50) with (50 * 16). lia. }
    destruct nb; unfold tune_reg, tune_word; cbn [band_eqb band_step];
      rewrite peek_written.
    - apply Hfm. lia.
    - apply Hfm. lia.
    - change KT0913_AMCHAN_AMTUNE_ON with 0x8000.
      change KT0913_AMCHAN_AMCHAN_MASK with (Z.ones 11).
      rewrite Hkhz. change V4L2_KHZ_FREQ_MUL with 16.
      assert (500 <= freq / 16 <= 1710).
      { split; [apply Z.div_le_lower_bound | apply Z.div_le_upper_bound]; lia. }
      rewrite chan_readback by lia.
      unfold khz_to_v4l2_freq. change V4L2_KHZ_FREQ_MUL with 16.
      rewrite u32_small by lia. change (1 * 16) with 16. reflexivity. }
  split; [now rewrite Hset |].
  split; [exact Hget |].
  pose proof (Z.div_mod freq step ltac:(lia)) as Hdm.
  pose proof (Z.mod_pos_bound freq step Hstep_pos) as Hmod.
  split; [lia |].
  intros Hal. rewrite Hget. f_equal. lia.
Qed.

(** A request half a kHz above 88.1 MHz comes back as 88.1 MHz. *)
Lemma frequency_round_trip_witness :
  in_band BAND_FM 1409607 = true /\
  fst (get_frequency (snd (set_frequency 0 1409607 (attach 0 0 ∅ []))))
  = Ok 1409600.
Proof.
  split; [reflexivity |].
  refine (proj1 (proj2 (frequency_round_trip 0 1409607 (attach 0 0 ∅ []) BAND_FM
                          eq_refl eq_refl _))).
  discriminate.
Defined.

(** ** Scenario: tuning to AM 1000 kHz from the FM state *)

Lemma land_bit15 (x : Z) :
  Z.land x 0x8000 = if Z.testbit x 15 then 0x8000 else 0.
Proof.
  change 0x8000 with (2 ^ 15).
  apply Z.bits_inj'. intros n Hn.
  rewrite Z.land_spec, Z.pow2_bits_eqb by lia.
  destruct (Z.eqb_spec 15 n) as [<- | Hne].
  - rewrite andb_true_r.
    destruct (Z.testbit x 15); [now rewrite Z.pow2_bits_true | now rewrite Z.bits_0].
  - rewrite andb_false_r.
    destruct (Z.testbit x 15);
      [rewrite Z.pow2_bits_false by lia | rewrite Z.bits_0]; reflexivity.
Qed.

(** Merging the AM mode bit into a word sets bit 15 of the word that
    goes out, and changes the word when the bit was clear. *)
Lemma mode_merge_am (orig : Z) :
  let tmp := merged orig KT0913_AMSYSCFG_AM_FM_MASK KT0913_AMSYSCFG_AM_FM_AM in
  Z.land (u16 tmp) 0x8000 = 0x8000 /\
  (Z.land orig 0x8000 = 0 -> (tmp =? orig) = false).
Proof.
  intros tmp.
  assert (Hbit : Z.testbit tmp 15 = true).
  { subst tmp. unfold merged. rewrite Z.lor_spec.
    apply orb_true_iff. right. reflexivity. }
  split.
  - rewrite land_bit15. unfold u16. rewrite Z.land_spec, Hbit. reflexivity.
  - intros Hclear. apply Z.eqb_neq. intros E.
    rewrite land_bit15, <- E, Hbit in Hclear. discriminate.
Qed.

(** C4: from the FM band state, with the chip in FM mode and no bus
    faults, [set_frequency (1000 * 16)] reads the mode register, writes it
    back with the AM bit set, writes [0x8000 | 1000] to the AM-channel
    register, leaves the device in the AM band, and a following
    [get_frequency] returns [1000 * 16]. *)
Theorem tune_am_1000_from_fm (campus : Z) (radio : kt0913_device) :
  band radio = BAND_FM ->
  faults (regmap radio) = [] ->
  Z.land (peek (regmap radio) KT0913_REG_AMSYSCFG) KT0913_AMSYSCFG_AM_FM_MASK
  = KT0913_AMSYSCFG_AM_FM_FM ->
  let res := set_frequency campus (1000 * 16) radio in
  fst res = Ok tt /\
  band (snd res) = BAND_AM /\
  (exists w,
     issued radio (snd res)
     = [BusRead KT0913_REG_AMSYSCFG; BusWrite KT0913_REG_AMSYSCFG w;
        BusWrite KT0913_REG_AMCHAN (Z.lor 0x8000 1000)] /\
     Z.land w KT0913_AMSYSCFG_AM_FM_MASK = KT0913_AMSYSCFG_AM_FM_AM) /\
  Z.land (peek (regmap (snd res)) KT0913_REG_AMSYSCFG) KT0913_AMSYSCFG_AM_FM_MASK
  = KT0913_AMSYSCFG_AM_FM_AM /\
  peek (regmap (snd res)) KT0913_REG_AMCHAN = Z.lor 0x8000 1000 /\
  fst (get_frequency (snd res)) = Ok (1000 * 16).
Proof.
  intros Hband Hq Hfm res.
  assert (Hcls : spec_classify (campus_enabled campus) (1000 * 16) = Some BAND_AM)
    by reflexivity.
  destruct (set_frequency_quiet campus (1000 * 16) radio BAND_AM Hq Hcls)
    as [Hset [Hband1 Hq1]].
  destruct (mode_merge_am (peek (regmap radio) KT0913_REG_AMSYSCFG))
    as [Hbit Hchg].
  specialize (Hchg Hfm).
  subst res. rewrite Hset. cbn [fst snd].
  unfold after_mode_step in *. rewrite Hband in *. cbn [band_eqb] in *.
  unfold quiet_update in *. cbv zeta in *.
  change (mode_bit BAND_AM) with KT0913_AMSYSCFG_AM_FM_AM in *.
  rewrite Hchg in *.
  change (tune_reg BAND_AM) with KT0913_REG_AMCHAN.
  change (u16 (tune_word BAND_AM (v4l2_freq_to_khz (1000 * 16))))
    with (Z.lor 0x8000 1000).
  unfold with_band, with_regmap, after.
  cbn [regmap band trace chip faults audio_anti_pop refclock_val].
  split; [reflexivity |]. split; [reflexivity |].
  split; [| split; [| split]].
  - eexists. split; [| exact Hbit].
    apply issued_app. now rewrite <- !app_assoc.
  - unfold peek. cbn [chip].
    rewrite lookup_insert_ne by (vm_compute; discriminate).
    rewrite lookup_insert_eq. exact Hbit.
  - unfold peek. cbn [chip]. now rewrite lookup_insert_eq.
  - rewrite get_frequency_quiet by (cbn [regmap faults]; now rewrite Hq).
    unfold decoded_khz. cbn [band band_eqb regmap]. unfold peek. cbn [chip].
    rewrite lookup_insert_eq. reflexivity.
Qed.

(** The device after initialisation with the default settings. *)
Lemma tune_am_1000_from_fm_witness :
  band (snd (__kt0913_init 0 (attach 0 0 ∅ []))) = BAND_FM /\
  peek (regmap (snd (set_frequency 0 (1000 * 16)
                       (snd (__kt0913_init 0 (attach 0 0 ∅ []))))))
    KT0913_REG_AMCHAN = 0x83E8 /\
  fst (get_frequency (snd (set_frequency 0 (1000 * 16)
                             (snd (__kt0913_init 0 (attach 0 0 ∅ []))))))
  = Ok (1000 * 16).
Proof.
  pose proof (tune_am_1000_from_fm 0 (snd (__kt0913_init 0 (attach 0 0 ∅ [])))
                eq_refl eq_refl eq_refl) as H.
  cbv zeta in H. destruct H as [_ [_ [_ [_ [Hchan Hget]]]]].
  split; [reflexivity |]. split; [exact Hchan | exact Hget].
Defined.

(** ** Stopping at the first failed transfer *)

Lemma quiet_with_faults (radio : kt0913_device) (fs : list Z) :
  faults (regmap radio) = [] -> quiet (with_faults radio fs) = radio.
Proof.
  destruct radio as [b a r [c t f]]. cbn. intros ->. reflexivity.
Qed.

Lemma with_faults_same (radio : kt0913_device) :
  with_faults (quiet radio) (faults (regmap radio)) = radio.
Proof. destruct radio as [b a r [c t f]]. reflexivity. Qed.

Lemma stops_at_fault_ext {A} (c c' : drv A) :
  (forall radio, c radio = c' radio) -> stops_at_fault c' -> stops_at_fault c.
Proof.
  intros Heq Hc' radio n e rest He Hf.
  destruct (Hc' radio n e rest He Hf) as [ops H].
  exists ops. now rewrite !Heq.
Qed.

(** A computation that only inspects the device, without any transfer. *)
Lemma stops_at_fault_pure {A} (f : kt0913_device -> result A) :
  (forall radio, f (quiet radio) = f radio) ->
  stops_at_fault (fun radio => (f radio, radio)).
Proof.
  intros Hf radio n e rest He Hfaults. exists []. cbn [fst snd].
  split; [now rewrite app_nil_r |]. split; [reflexivity |].
  split; [cbn; lia |]. intros _.
  cbn [length]. rewrite Nat.sub_0_r, Hf, <- Hfaults, with_faults_same.
  reflexivity.
Qed.

Lemma stops_at_fault_ret {A} (a : A) : stops_at_fault (ret a).
Proof. now apply (stops_at_fault_pure (fun _ => Ok a)). Qed.

Lemma stops_at_fault_bind {A B} (c : drv A) (k : A -> drv B) :
  stops_at_fault c -> (forall a, stops_at_fault (k a)) ->
  stops_at_fault (bind c k).
Proof.
  intros Hc Hk radio n e rest He Hf.
  destruct (Hc radio n e rest He Hf) as [ops_c [Htr_c [Hq_c [Hlt_c Hge_c]]]].
  unfold bind.
  destruct (c (quiet radio)) as [[a | e0] radio0] eqn:Hquiet;
    cbn [fst snd] in *.
  - (* the quiet run of [c] succeeds and [k a] follows *)
    set (left_n := (n - length ops_c)%nat).
    destruct (Hk a (with_faults radio0 (first_fault left_n e rest))
                left_n e rest He eq_refl)
      as [ops_k [Htr_k [Hq_k [Hlt_k Hge_k]]]].
    rewrite (quiet_with_faults _ _ Hq_c) in *.
    cbn [with_faults with_regmap regmap trace] in Htr_k, Hlt_k.
    exists (ops_c ++ ops_k).
    split; [now rewrite Htr_k, Htr_c, app_assoc |].
    split; [assumption |].
    rewrite length_app. split.
    + intros Hn.
      destruct (Nat.lt_ge_cases n (length ops_c)) as [Hin | Hout].
      * destruct (Hlt_c Hin) as [Herr Htr]. 
        destruct (c radio) as [r radio1]. cbn [fst snd] in *. subst r.
        cbn [fst snd]. split; [reflexivity |].
        now rewrite take_app_le by lia.
      * rewrite (Hge_c Hout). fold left_n.
        destruct Hlt_k as [Herr Htr]; [subst left_n; lia |].
        split; [assumption |].
        rewrite Htr, Htr_c, <- app_assoc. f_equal.
        rewrite take_app_ge by lia. f_equal. f_equal. subst left_n. lia.
    + intros Hn.
      rewrite (Hge_c ltac:(lia)). fold left_n.
      rewrite Hge_k by (subst left_n; lia).
      do 3 f_equal. subst left_n. lia.
  - (* the quiet run of [c] fails by itself *)
    exists ops_c. split; [assumption |]. split; [assumption |]. split.
    + intros Hn. destruct (Hlt_c Hn) as [Herr Htr].
      destruct (c radio) as [r radio1]. cbn [fst snd] in *. now subst r.
    + intros Hn. now rewrite (Hge_c Hn).
Qed.

Lemma on_regmap_bind {A B} (c : stm Regmap.t A) (k : A -> stm Regmap.t B)
    (radio : kt0913_device) :
  on_regmap (bind c k) radio = bind (on_regmap c) (fun a => on_regmap (k a)) radio.
Proof.
  unfold on_regmap, bind.
  destruct (c (regmap radio)) as [[a | e] m]; reflexivity.
Qed.

Lemma on_regmap_ret {A} (a : A) (radio : kt0913_device) :
  on_regmap (ret a) radio = ret a radio.
Proof. destruct radio. reflexivity. Qed.

Lemma first_fault_0 (e : Z) (rest : list Z) : first_fault 0 e rest = e :: rest.
Proof. reflexivity. Qed.

Lemma first_fault_S (n : nat) (e : Z) (rest : list Z) :
  first_fault (S n) e rest = 0 :: first_fault n e rest.
Proof. reflexivity. Qed.

(** One transfer: it fails when it is transfer 0 of the coming
    outcomes, and otherwise does what it does on a quiet bus. *)
Lemma stops_at_fault_read (reg : Z) :
  reg <= max_register -> stops_at_fault (on_regmap (regmap_read reg)).
Proof.
  intros Hreg radio n e rest He Hf.
  exists [BusRead reg].
  rewrite !on_regmap_read_run by assumption.
  destruct radio as [b a r [c t f]]. cbn in Hf. subst f.
  unfold quiet, with_faults, with_regmap, after, next_fault, peek.
  destruct n as [| n]; [rewrite first_fault_0 | rewrite first_fault_S]; cbn.
  - destruct (Z.eqb_spec e 0) as [| _]; [contradiction |].
    repeat split; (reflexivity || lia).
  - rewrite Nat.sub_0_r. repeat split; (reflexivity || lia).
Qed.

Lemma stops_at_fault_write (reg v : Z) :
  reg <= max_register -> stops_at_fault (on_regmap (regmap_write reg v)).
Proof.
  intros Hreg radio n e rest He Hf.
  exists [BusWrite reg (u16 v)].
  rewrite !on_regmap_write_run by assumption.
  destruct radio as [b a r [c t f]]. cbn in Hf. subst f.
  unfold quiet, with_faults, with_regmap, after, next_fault, peek.
  destruct n as [| n]; [rewrite first_fault_0 | rewrite first_fault_S]; cbn.
  - destruct (Z.eqb_spec e 0) as [| _]; [contradiction |].
    repeat split; (reflexivity || lia).
  - rewrite Nat.sub_0_r. repeat split; (reflexivity || lia).
Qed.

Lemma stops_at_fault_update_bits (reg mask v : Z) :
  reg <= max_register ->
  stops_at_fault (on_regmap (regmap_update_bits reg mask v)).
Proof.
  intros Hreg. unfold regmap_update_bits.
  eapply stops_at_fault_ext; [intros radio; apply on_regmap_bind |].
  apply stops_at_fault_bind; [now apply stops_at_fault_read |].
  intros orig. cbv zeta.
  match goal with |- context [if ?c then _ else _] => destruct c end.
  - eapply stops_at_fault_ext; [intros radio; apply on_regmap_ret |].
    apply stops_at_fault_ret.
  - now apply stops_at_fault_write.
Qed.

Lemma stops_at_fault_multi_reg_write (regs : list (Z * Z)) :
  Forall (fun entry => fst entry <= max_register) regs ->
  stops_at_fault (on_regmap (regmap_multi_reg_write regs)).
Proof.
  induction 1 as [| [reg def] regs Hreg _ IH]; cbn [regmap_multi_reg_write].
  - eapply stops_at_fault_ext; [intros radio; apply on_regmap_ret |].
    apply stops_at_fault_ret.
  - eapply stops_at_fault_ext; [intros radio; apply on_regmap_bind |].
    apply stops_at_fault_bind; [now apply stops_at_fault_write |].
    intros _. exact IH.
Qed.

Lemma defaults_in_map :
  Forall (fun entry : Z * Z => fst entry <= max_register)
    kt0913_init_regs_to_defaults.
Proof. repeat constructor; in_map. Qed.

Lemma stops_at_fault_init (campus : Z) : stops_at_fault (__kt0913_init campus).
Proof.
  unfold __kt0913_init.
  apply stops_at_fault_bind;
    [apply stops_at_fault_multi_reg_write, defaults_in_map | intros _].
  apply stops_at_fault_bind;
    [apply (stops_at_fault_pure (fun radio => Ok (audio_anti_pop radio)));
     reflexivity | intros anti_pop].
  apply stops_at_fault_bind;
    [apply stops_at_fault_update_bits; in_map | intros _].
  apply stops_at_fault_bind;
    [apply (stops_at_fault_pure (fun radio => Ok (refclock_val radio)));
     reflexivity | intros refclock].
  apply stops_at_fault_bind;
    [apply stops_at_fault_update_bits; in_map | intros _].
  apply stops_at_fault_bind.
  - destruct (campus_enabled campus);
      [apply stops_at_fault_update_bits; in_map | apply stops_at_fault_ret].
  - intros _. apply stops_at_fault_update_bits. in_map.
Qed.

(** ** Initialisation on a bus without faults *)

Lemma written_faults (regs : list (Z * Z)) (m : Regmap.t) :
  faults m = [] -> faults (written m regs) = [].
Proof.
  revert m. induction regs as [| entry regs IH]; intros m Hq; [assumption |].
  cbn [written fold_left]. apply IH. now apply quiet_after.
Qed.

Lemma written_trace (regs : list (Z * Z)) (m : Regmap.t) :
  trace (written m regs)
  = trace m ++ map (fun entry => BusWrite (fst entry) (u16 (snd entry))) regs.
Proof.
  revert m. induction regs as [| entry regs IH]; intros m.
  - cbn. now rewrite app_nil_r.
  - cbn [written fold_left map]. fold (written (after m (BusWrite entry.1 (u16 entry.2))
                                          (<[entry.1 := u16 entry.2]> (chip m))) regs).
    rewrite IH. cbn [after trace]. now rewrite <- app_assoc.
Qed.

Lemma peek_after (m : Regmap.t) (op : bus_op) (c : gmap Z Z) (reg : Z) :
  peek (after m op c) reg = default 0 (c !! reg).
Proof. reflexivity. Qed.

Lemma written_peek_from (regs : list (Z * Z)) (reg base : Z) :
  forall (m : Regmap.t) (acc : option Z),
    peek m reg = default base acc ->
    peek (written m regs) reg
    = default base
        (fold_left
           (fun acc entry => if fst entry =? reg then Some (u16 (snd entry)) else acc)
           regs acc).
Proof.
  induction regs as [| [r v] regs IH]; intros m acc Hacc; [exact Hacc |].
  cbn [written fold_left fst snd]. apply IH.
  rewrite peek_after.
  destruct (Z.eqb_spec r reg) as [-> | Hne].
  - now rewrite lookup_insert_eq.
  - rewrite lookup_insert_ne by assumption. exact Hacc.
Qed.

Lemma written_peek (regs : list (Z * Z)) (m : Regmap.t) (reg : Z) :
  peek (written m regs) reg = default (peek m reg) (last_write reg regs).
Proof. now apply written_peek_from. Qed.

Lemma multi_reg_write_quiet (regs : list (Z * Z)) :
  Forall (fun entry => fst entry <= max_register) regs ->
  forall radio : kt0913_device,
    faults (regmap radio) = [] ->
    on_regmap (regmap_multi_reg_write regs) radio
    = (Ok tt, with_regmap radio (written (regmap radio) regs)).
Proof.
  induction 1 as [| [reg def] regs Hreg _ IH]; intros radio Hq.
  - destruct radio. reflexivity.
  - cbn [regmap_multi_reg_write]. rewrite on_regmap_bind. unfold bind at 1.
    rewrite on_regmap_write_ok by (assumption || now apply quiet_next_fault).
    rewrite IH by (cbn [with_regmap regmap]; now apply quiet_after).
    reflexivity.
Qed.

Lemma quiet_update_trace (reg mask v : Z) (m : Regmap.t) :
  trace (quiet_update reg mask v m)
  = trace m
    ++ BusRead reg
       :: (if merged (peek m reg) mask v =? peek m reg then []
           else [BusWrite reg (u16 (merged (peek m reg) mask v))]).
Proof.
  unfold quiet_update. cbv zeta.
  destruct (merged (peek m reg) mask v =? peek m reg); cbn [after trace];
    [reflexivity |].
  now rewrite <- app_assoc.
Qed.

Lemma quiet_update_peek_same (reg mask v : Z) (m : Regmap.t) :
  peek (quiet_update reg mask v m) reg
  = if merged (peek m reg) mask v =? peek m reg then peek m reg
    else u16 (merged (peek m reg) mask v).
Proof.
  unfold quiet_update. cbv zeta.
  destruct (merged (peek m reg) mask v =? peek m reg); rewrite peek_after;
    [reflexivity |].
  now rewrite lookup_insert_eq.
Qed.

Lemma quiet_update_peek_other (reg mask v : Z) (m : Regmap.t) (reg' : Z) :
  reg <> reg' -> peek (quiet_update reg mask v m) reg' = peek m reg'.
Proof.
  intros Hne. unfold quiet_update. cbv zeta.
  match goal with |- context [if ?c then _ else _] => destruct c end;
    rewrite peek_after; [reflexivity |].
  now rewrite lookup_insert_ne.
Qed.

Lemma init_quiet_run (campus : Z) (radio : kt0913_device) :
  faults (regmap radio) = [] ->
  __kt0913_init campus radio
  = (Ok tt,
     with_regmap radio
       (init_map campus (audio_anti_pop radio) (refclock_val radio) (regmap radio))).
Proof.
  intros Hq. unfold __kt0913_init, init_map. cbv zeta.
  unfold bind at 1.
  rewrite (multi_reg_write_quiet _ defaults_in_map _ Hq).
  set (m1 := written (regmap radio) kt0913_init_regs_to_defaults).
  assert (Hq1 : faults m1 = []) by now apply written_faults.
  unfold bind at 1. unfold bind at 1. cbn [with_regmap audio_anti_pop].
  rewrite update_bits_quiet by (in_map || exact Hq1).
  cbn [with_regmap regmap audio_anti_pop refclock_val band].
  set (m2 := quiet_update KT0913_REG_VOLUME _ _ m1).
  assert (Hq2 : faults m2 = []) by now apply quiet_update_faults.
  unfold bind at 1. unfold bind at 1.
  rewrite update_bits_quiet by (in_map || exact Hq2).
  cbn [with_regmap regmap audio_anti_pop refclock_val band].
  set (m3 := quiet_update KT0913_REG_AMSYSCFG _ _ m2).
  assert (Hq3 : faults m3 = []) by now apply quiet_update_faults.
  unfold bind at 1. unfold __kt0913_set_mute. cbn [Z.eqb].
  destruct (campus_enabled campus).
  - rewrite update_bits_quiet by (in_map || exact Hq3).
    cbn [with_regmap regmap audio_anti_pop refclock_val band].
    rewrite update_bits_quiet
      by (in_map || (cbn [regmap]; now apply quiet_update_faults)).
    reflexivity.
  - unfold ret at 1.
    rewrite update_bits_quiet by (in_map || exact Hq3).
    reflexivity.
Qed.

Lemma init_map_faults (campus anti_pop refclk : Z) (m : Regmap.t) :
  faults m = [] -> faults (init_map campus anti_pop refclk m) = [].
Proof.
  intros Hq. unfold init_map. cbv zeta.
  apply quiet_update_faults.
  destruct (campus_enabled campus);
    repeat apply quiet_update_faults; now apply written_faults.
Qed.

(** The transfers and the final volume word of the initialisation, for
    every setting the device tree can give. *)
Lemma init_map_trace (campus anti_pop refclk : Z) (m : Regmap.t) :
  0 <= anti_pop <= 3 -> 0 <= refclk <= 9 ->
  trace (init_map campus anti_pop refclk m)
  = trace m ++ init_ops campus anti_pop refclk /\
  peek (init_map campus anti_pop refclk m) KT0913_REG_VOLUME
  = 0xC080 + anti_pop * 16.
Proof.
  intros Ha Hr. unfold init_map, init_ops, init_campus_ops. cbv zeta.
  set (m1 := written m kt0913_init_regs_to_defaults).
  assert (T1 : trace m1 = trace m ++ init_defaults_ops)
    by (subst m1; now rewrite written_trace).
  assert (V1 : peek m1 KT0913_REG_VOLUME = 0xE080)
    by (subst m1; now rewrite written_peek).
  assert (A1 : peek m1 KT0913_REG_AMSYSCFG = 0x0002)
    by (subst m1; now rewrite written_peek).
  assert (L1 : peek m1 KT0913_REG_LOCFGC = 0x0024)
    by (subst m1; now rewrite written_peek).
  clearbody m1.
  set (m2 := quiet_update KT0913_REG_VOLUME _ _ m1).
  assert (T2 := quiet_update_trace KT0913_REG_VOLUME KT0913_VOLUME_POP_MASK
                  (u32 (Z.shiftl anti_pop KT0913_VOLUME_POP_SHIFT)) m1).
  assert (V2 := quiet_update_peek_same KT0913_REG_VOLUME KT0913_VOLUME_POP_MASK
                  (u32 (Z.shiftl anti_pop KT0913_VOLUME_POP_SHIFT)) m1).
  assert (A2 : peek m2 KT0913_REG_AMSYSCFG = 0x0002)
    by (subst m2; now rewrite quiet_update_peek_other).
  assert (L2 : peek m2 KT0913_REG_LOCFGC = 0x0024)
    by (subst m2; now rewrite quiet_update_peek_other).
  fold m2 in T2, V2. rewrite V1, T1 in T2. rewrite V1 in V2. clearbody m2.
  set (m3 := quiet_update KT0913_REG_AMSYSCFG _ _ m2).
  assert (T3 := quiet_update_trace KT0913_REG_AMSYSCFG KT0913_AMSYSCFG_REFCLK_MASK
                  (u32 (Z.shiftl refclk KT0913_AMSYSCFG_REFCLK_SHIFT)) m2).
  assert (V3 : peek m3 KT0913_REG_VOLUME = peek m2 KT0913_REG_VOLUME)
    by (subst m3; now rewrite quiet_update_peek_other).
  assert (L3 : peek m3 KT0913_REG_LOCFGC = 0x0024)
    by (subst m3; now rewrite quiet_update_peek_other).
  fold m3 in T3. rewrite A2, T2 in T3. rewrite V2 in V3. clearbody m3.
  set (m4 := if campus_enabled campus then _ else m3).
  assert (T4 : trace m4
               = trace m3
                 ++ (if campus_enabled campus
                     then [BusRead KT0913_REG_LOCFGC;
                           BusWrite KT0913_REG_LOCFGC 0x002C]
                     else [])).
  { subst m4. destruct (campus_enabled campus); [| now rewrite app_nil_r].
    now rewrite quiet_update_trace, L3. }
  assert (V4 : peek m4 KT0913_REG_VOLUME = peek m3 KT0913_REG_VOLUME).
  { subst m4. destruct (campus_enabled campus); [| reflexivity].
    now rewrite quiet_update_peek_other. }
  rewrite T3 in T4. rewrite V3 in V4. clearbody m4.
  rewrite quiet_update_trace, quiet_update_peek_same, V4, T4.
  rewrite <- !app_assoc.
  assert (Hpop : anti_pop = 0 \/ anti_pop = 1 \/ anti_pop = 2 \/ anti_pop = 3) by lia.
  assert (Hclk : refclk = 0 \/ refclk = 1 \/ refclk = 2 \/ refclk = 3 \/ refclk = 4 \/
                 refclk = 5 \/ refclk = 6 \/ refclk = 7 \/ refclk = 8 \/ refclk = 9)
    by lia.
  clear - Hpop Hclk.
  destruct (campus_enabled campus);
    repeat (destruct Hpop as [-> | Hpop]); try subst anti_pop;
    repeat (destruct Hclk as [-> | Hclk]); try subst refclk;
    (split; [do 2 f_equal; vm_compute; reflexivity | vm_compute; reflexivity]).
Qed.

(** ** Initialisation sequence *)

(** C9: initialisation issues its transfers in one fixed order: the
    writes of the default table in table order, then the anti-pop update
    of the volume register, then the reference-clock update of the
    mode register, then (only with the extended-band feature on) the
    campus-band update, and last the update that forces mute on.  When a
    transfer fails, initialisation returns the error of that transfer and
    the transfers attempted are those of the fixed order up to and
    including the failed one: nothing is attempted after it. *)
Theorem init_sequence_order (campus : Z) (radio : kt0913_device) :
  0 <= audio_anti_pop radio <= 3 ->
  0 <= refclock_val radio <= 9 ->
  let ops := init_ops campus (audio_anti_pop radio) (refclock_val radio) in
  ops = init_defaults_ops ++ init_anti_pop_ops (audio_anti_pop radio)
        ++ init_refclk_ops (refclock_val radio) ++ init_campus_ops campus
        ++ init_mute_ops (audio_anti_pop radio) /\
  (faults (regmap radio) = [] ->
   fst (__kt0913_init campus radio) = Ok tt /\
   trace (regmap (snd (__kt0913_init campus radio))) = trace (regmap radio) ++ ops /\
   Z.land (peek (regmap (snd (__kt0913_init campus radio))) KT0913_REG_VOLUME)
     KT0913_VOLUME_DMUTE_MASK = KT0913_VOLUME_DMUTE_ON) /\
  (forall (n : nat) (e : Z) (rest : list Z),
     e <> 0 -> (n < length ops)%nat ->
     faults (regmap radio) = first_fault n e rest ->
     fst (__kt0913_init campus radio) = Err e /\
     trace (regmap (snd (__kt0913_init campus radio)))
     = trace (regmap radio) ++ take (S n) ops).
Proof.
  intros Ha Hr ops. split; [reflexivity |]. split.
  - intros Hq. rewrite (init_quiet_run campus radio Hq). cbn [fst snd].
    destruct (init_map_trace campus _ _ (regmap radio) Ha Hr) as [Htr Hvol].
    split; [reflexivity |]. split; [exact Htr |].
    cbn [with_regmap regmap]. rewrite Hvol.
    assert (Hpop : audio_anti_pop radio = 0 \/ audio_anti_pop radio = 1 \/
                   audio_anti_pop radio = 2 \/ audio_anti_pop radio = 3) by lia.
    destruct Hpop as [-> | [-> | [-> | ->]]]; reflexivity.
  - intros n e rest He Hn Hf.
    destruct (stops_at_fault_init campus radio n e rest He Hf)
      as [ops' [Htr [_ [Hlt _]]]].
    rewrite (init_quiet_run campus (quiet radio) eq_refl) in Htr.
    cbn [snd] in Htr.
    destruct (init_map_trace campus _ _ (regmap (quiet radio)) Ha Hr) as [Htr' _].
    change (audio_anti_pop (quiet radio)) with (audio_anti_pop radio) in Htr.
    change (refclock_val (quiet radio)) with (refclock_val radio) in Htr.
    change (regmap (with_regmap (quiet radio) ?m)) with m in Htr.
    rewrite Htr' in Htr. change (trace (regmap (quiet radio))) with (trace (regmap radio)) in Htr.
    apply app_inv_head in Htr. subst ops'.
    exact (Hlt Hn).
Qed.

(** With the default settings and the extended band off, the sixteenth
    transfer (the read that starts the reference-clock update) fails. *)
Lemma init_sequence_order_witness :
  fst (__kt0913_init 0 (attach 0 0 ∅ (first_fault 15 (- EIO) []))) = Err (- EIO) /\
  trace (regmap (snd (__kt0913_init 0 (attach 0 0 ∅ (first_fault 15 (- EIO) [])))))
  = init_defaults_ops
    ++ [BusRead KT0913_REG_VOLUME; BusRead KT0913_REG_AMSYSCFG].
Proof.
  pose proof (init_sequence_order 0 (attach 0 0 ∅ (first_fault 15 (- EIO) [])))
    as H.
  cbv zeta in H.
  destruct H as [_ [_ Hfail]]; [cbn; lia | cbn; lia |].
  destruct (Hfail 15%nat (- EIO) []) as [Hret Htr];
    [discriminate | cbn; lia | reflexivity |].
  split; [exact Hret | exact Htr].
Defined.

(** * Further properties of the driver *)

(** ** Bits of a merged word *)

Lemma merged_spec (orig mask v i : Z) :
  0 <= mask < 2 ^ 32 -> 0 <= i < 32 ->
  Z.testbit (merged orig mask v) i
  = if Z.testbit mask i then Z.testbit v i else Z.testbit orig i.
Proof.
  intros Hm Hi. unfold merged, u32.
  rewrite Z.lor_spec, !Z.land_spec, Z.testbit_mod_pow2 by lia.
  rewrite Z.lnot_spec by lia.
  destruct (Z.ltb_spec i 32) as [_ | Hge]; [| lia].
  destruct (Z.testbit mask i), (Z.testbit v i), (Z.testbit orig i); reflexivity.
Qed.

Lemma u16_spec (x i : Z) : 0 <= i < 16 -> Z.testbit (u16 x) i = Z.testbit x i.
Proof.
  intros Hi. unfold u16. change 0xFFFF with (Z.ones 16).
  rewrite Z.land_spec, Z.ones_spec_low by lia. apply andb_true_r.
Qed.

(** What [regmap_update_bits] leaves behind, whatever the bus does: the
    device keeps its band and settings, other registers are untouched, a
    failed update leaves the chip as it was, and a successful one leaves
    the masked bits at the new value and the other bits alone. *)
Lemma update_bits_outcome (reg mask v : Z) (radio : kt0913_device) :
  reg <= max_register -> 0 <= mask < 2 ^ 32 ->
  let res := on_regmap (regmap_update_bits reg mask v) radio in
  snd res = with_regmap radio (regmap (snd res)) /\
  (forall reg', reg' <> reg ->
     peek (regmap (snd res)) reg' = peek (regmap radio) reg') /\
  (forall e, fst res = Err e -> chip (regmap (snd res)) = chip (regmap radio)) /\
  (fst res = Ok tt ->
   forall i, 0 <= i < 16 ->
     Z.testbit (peek (regmap (snd res)) reg) i
     = if Z.testbit mask i then Z.testbit v i
       else Z.testbit (peek (regmap radio) reg) i).
Proof.
  intros Hreg Hmask res. subst res.
  unfold on_regmap, regmap_update_bits, bind, regmap_read, regmap_write,
    bus_read, bus_write, ret.
  destruct (Z.ltb_spec max_register reg) as [Hlt | _]; [lia |].
  destruct (next_fault (regmap radio) =? 0).
  - cbv zeta.
    destruct (merged (peek (regmap radio) reg) mask v =? peek (regmap radio) reg)
      eqn:Hsame.
    + cbn [fst snd]. unfold with_regmap, after, peek. cbn.
      repeat split; try reflexivity; try discriminate.
      intros _ i Hi. apply Z.eqb_eq in Hsame.
      fold (peek (regmap radio) reg). rewrite <- Hsame at 1.
      apply merged_spec; lia.
    + match goal with |- context [if ?c then _ else _] => destruct c end;
        cbn [fst snd]; unfold with_regmap, after, peek; cbn.
      * repeat split; try reflexivity; try discriminate.
        -- intros reg' Hne. now rewrite lookup_insert_ne by congruence.
        -- intros _ i Hi. rewrite lookup_insert_eq. cbn.
           rewrite u16_spec by lia. fold (peek (regmap radio) reg).
           apply merged_spec; lia.
      * repeat split; try reflexivity; try discriminate.
  - cbn [fst snd]. unfold with_regmap, after, peek. cbn.
    repeat split; try reflexivity; try discriminate.
Qed.

(** ** Queries only read *)

Lemma only_reads_pure {A} (f : kt0913_device -> result A) :
  only_reads (fun radio => (f radio, radio)).
Proof.
  intros radio. exists []. cbn [snd length drop forallb].
  split; [| reflexivity].
  destruct radio as [b a r [c t f0]]. unfold with_regmap. cbn.
  now rewrite app_nil_r.
Qed.

Lemma only_reads_bind {A B} (c : drv A) (k : A -> drv B) :
  only_reads c -> (forall a, only_reads (k a)) -> only_reads (bind c k).
Proof.
  intros Hc Hk radio. unfold bind.
  destruct (Hc radio) as [ops1 [E1 P1]].
  destruct (c radio) as [[a | e] radio1]; cbn [snd] in *.
  - destruct (Hk a radio1) as [ops2 [E2 P2]].
    exists (ops1 ++ ops2). split.
    + rewrite E2, E1. unfold with_regmap. cbn.
      rewrite <- app_assoc, drop_drop, length_app. reflexivity.
    + rewrite forallb_app, P1, P2. reflexivity.
  - exists ops1. now split.
Qed.

Lemma tail_drop {A} (l : list A) : tail l = drop 1 l.
Proof. now destruct l. Qed.

Lemma only_reads_read (reg : Z) : only_reads (on_regmap (regmap_read reg)).
Proof.
  intros radio. unfold on_regmap, regmap_read, bus_read.
  destruct (max_register <? reg).
  - exists []. cbn [snd length drop forallb]. split; [| reflexivity].
    destruct radio as [b a r [c t f0]]. unfold with_regmap. cbn.
    now rewrite app_nil_r.
  - exists [BusRead reg].
    destruct (next_fault (regmap radio) =? 0); cbn [snd];
      (split; [| reflexivity]); unfold with_regmap, after; cbn [regmap chip trace faults length];
      now rewrite tail_drop.
Qed.

Ltac only_reads_step :=
  first [ apply only_reads_read
        | apply (only_reads_pure (fun _ => Ok _))
        | apply (only_reads_pure (fun _ => Err _))
        | apply only_reads_bind; [| intros ?] ].

Lemma only_reads_g_frequency (f : v4l2_frequency) :
  only_reads (kt0913_ioctl_vidioc_g_frequency f).
Proof.
  unfold kt0913_ioctl_vidioc_g_frequency.
  destruct (negb (tuner f =? 0)); [apply (only_reads_pure (fun _ => Err _)) |].
  apply only_reads_bind;
    [apply (only_reads_pure (fun radio => Ok (band radio))) | intros cur].
  apply only_reads_bind; [| intros khz; only_reads_step].
  destruct (band_eqb cur BAND_AM);
    unfold __kt0913_get_am_frequency, __kt0913_get_fm_frequency;
    repeat only_reads_step.
Qed.

Lemma only_reads_g_tuner (v : v4l2_tuner) :
  only_reads (kt0913_ioctl_vidioc_g_tuner v).
Proof.
  unfold kt0913_ioctl_vidioc_g_tuner.
  destruct (0 <? t_index v); [apply (only_reads_pure (fun _ => Err _)) |].
  cbv zeta.
  apply only_reads_bind;
    [apply (only_reads_pure (fun radio => Ok (band radio))) | intros cur].
  destruct (band_eqb cur BAND_AM);
    unfold __kt0913_get_am_rssi, __kt0913_get_fm_rssi,
      __kt0913_get_cfg_stereo_enabled, __kt0913_get_rx_stereo_or_mono;
    repeat only_reads_step.
Qed.

Lemma only_reads_g_volatile_ctrl (ctrl : v4l2_ctrl) :
  only_reads (kt0913_g_volatile_ctrl ctrl).
Proof.
  unfold kt0913_g_volatile_ctrl.
  destruct (cid ctrl); try apply (only_reads_pure (fun _ => Err _)).
  unfold __kt0913_get_pll_status. repeat only_reads_step.
Qed.

(** X1: the frequency query, the tuner query and the PLL-lock control
    query only read.  Whatever the bus does, they issue no write and
    leave the chip registers, the band and the settings of the device as
    they were; only the transfer log and the consumed outcomes advance. *)
Theorem queries_only_read
    (f : v4l2_frequency) (v : v4l2_tuner) (ctrl : v4l2_ctrl) :
  only_reads (kt0913_ioctl_vidioc_g_frequency f) /\
  only_reads (kt0913_ioctl_vidioc_g_tuner v) /\
  only_reads (kt0913_g_volatile_ctrl ctrl).
Proof.
  split; [apply only_reads_g_frequency |].
  split; [apply only_reads_g_tuner | apply only_reads_g_volatile_ctrl].
Qed.

(** ** No transfer follows a failed one *)

Lemma stops_at_fault_fail {A} (e : Z) : stops_at_fault (@fail kt0913_device A e).
Proof. now apply (stops_at_fault_pure (fun _ => Err e)). Qed.

Lemma stops_at_fault_get_band : stops_at_fault get_band.
Proof. now apply (stops_at_fault_pure (fun radio => Ok (band radio))). Qed.

Lemma stops_at_fault_set_band (b : band_t) : stops_at_fault (set_band b).
Proof.
  intros radio n e rest He Hf. exists []. unfold set_band. cbn [fst snd length].
  split; [now rewrite app_nil_r |]. split; [reflexivity |].
  split; [lia |]. intros _. rewrite Nat.sub_0_r.
  destruct radio as [b0 a r [c t f]]. cbn in Hf. subst f. reflexivity.
Qed.

Lemma stops_at_fault_select_band (campus freq : Z) :
  stops_at_fault (select_band campus freq).
Proof.
  unfold select_band.
  destruct (in_band BAND_AM freq); [apply stops_at_fault_ret |].
  destruct (in_band BAND_FM freq); [apply stops_at_fault_ret |].
  destruct (campus_enabled campus && in_band BAND_FM_CAMUS freq);
    [apply stops_at_fault_ret | apply stops_at_fault_fail].
Qed.

Ltac stops_step :=
  first [ apply stops_at_fault_ret
        | apply stops_at_fault_fail
        | apply stops_at_fault_get_band
        | apply stops_at_fault_set_band
        | apply stops_at_fault_select_band
        | apply stops_at_fault_read; in_map
        | apply stops_at_fault_write; in_map
        | apply stops_at_fault_update_bits; in_map
        | apply stops_at_fault_bind; [| intros ?] ].

Lemma stops_at_fault_set_frequency (campus freq : Z) :
  stops_at_fault (set_frequency campus freq).
Proof.
  unfold set_frequency, kt0913_ioctl_vidioc_s_frequency.
  cbn [tuner type frequency]. rewrite !Z.eqb_refl. cbn [negb orb].
  destruct (freq =? 0); [apply stops_at_fault_fail |].
  apply stops_at_fault_bind; [apply stops_at_fault_select_band | intros nb].
  apply stops_at_fault_bind; [apply stops_at_fault_get_band | intros cur].
  apply stops_at_fault_bind.
  - destruct (negb (band_eqb cur nb)); [| apply stops_at_fault_ret].
    unfold __kt0913_set_am_fm_band. repeat stops_step.
  - intros _. cbv zeta.
    apply stops_at_fault_bind; [apply stops_at_fault_get_band | intros cur'].
    destruct (band_eqb cur' BAND_AM);
      unfold __kt0913_set_am_frequency, __kt0913_set_fm_frequency; stops_step.
Qed.

Lemma stops_at_fault_get_frequency : stops_at_fault get_frequency.
Proof.
  unfold get_frequency, kt0913_ioctl_vidioc_g_frequency. cbn [tuner].
  rewrite Z.eqb_refl. cbn [negb].
  apply stops_at_fault_bind; [| intros f; stops_step].
  apply stops_at_fault_bind; [apply stops_at_fault_get_band | intros cur].
  apply stops_at_fault_bind; [| intros khz; stops_step].
  destruct (band_eqb cur BAND_AM);
    unfold __kt0913_get_am_frequency, __kt0913_get_fm_frequency;
    repeat stops_step.
Qed.

Lemma stops_at_fault_s_ctrl (ctrl : v4l2_ctrl) :
  stops_at_fault (kt0913_s_ctrl ctrl).
Proof.
  unfold kt0913_s_ctrl.
  destruct (cid ctrl); try apply stops_at_fault_fail;
    unfold __kt0913_set_mute, __kt0913_set_volume, __kt0913_set_au_gain,
      __kt0913_set_deemphasis;
    repeat match goal with
           | |- context [if ?c then _ else _] => destruct c
           end;
    stops_step.
Qed.

Lemma stops_at_fault_g_volatile_ctrl (ctrl : v4l2_ctrl) :
  stops_at_fault (kt0913_g_volatile_ctrl ctrl).
Proof.
  unfold kt0913_g_volatile_ctrl.
  destruct (cid ctrl); try apply stops_at_fault_fail.
  unfold __kt0913_get_pll_status. repeat stops_step.
Qed.

Lemma stops_at_fault_s_tuner (v : v4l2_tuner) :
  stops_at_fault (kt0913_ioctl_vidioc_s_tuner v).
Proof.
  unfold kt0913_ioctl_vidioc_s_tuner.
  destruct (0 <? t_index v); [apply stops_at_fault_fail |].
  destruct (negb (audmode v =? V4L2_TUNER_MODE_MONO)
            && negb (audmode v =? V4L2_TUNER_MODE_STEREO));
    [apply stops_at_fault_fail |].
  apply stops_at_fault_bind; [apply stops_at_fault_get_band | intros cur].
  destruct (band_eqb cur BAND_AM && negb (audmode v =? V4L2_TUNER_MODE_MONO));
    [apply stops_at_fault_fail |].
  unfold __kt0913_set_cfg_stereo_enabled. stops_step.
Qed.

Lemma stops_at_fault_g_tuner (v : v4l2_tuner) :
  stops_at_fault (kt0913_ioctl_vidioc_g_tuner v).
Proof.
  unfold kt0913_ioctl_vidioc_g_tuner.
  destruct (0 <? t_index v); [apply stops_at_fault_fail |].
  cbv zeta.
  apply stops_at_fault_bind; [apply stops_at_fault_get_band | intros cur].
  destruct (band_eqb cur BAND_AM);
    unfold __kt0913_get_am_rssi, __kt0913_get_fm_rssi,
      __kt0913_get_cfg_stereo_enabled, __kt0913_get_rx_stereo_or_mono;
    repeat stops_step.
Qed.

(** X2: no operation of the driver attempts a transfer after one has
    failed.  Run against bus outcomes whose first failure is transfer
    [n], a tune request, a frequency query, a control request, a control
    query, a tuner request, a tuner query or a standby switch attempts
    the transfers of its fault-free run up to and including transfer [n]
    and returns the error of that transfer; when the fault-free run is
    over before transfer [n], it behaves as on the fault-free bus. *)
Theorem operations_stop_at_first_fault
    (campus freq standby : Z) (ctrl : v4l2_ctrl) (v : v4l2_tuner) :
  stops_at_fault (set_frequency campus freq) /\
  stops_at_fault get_frequency /\
  stops_at_fault (kt0913_s_ctrl ctrl) /\
  stops_at_fault (kt0913_g_volatile_ctrl ctrl) /\
  stops_at_fault (kt0913_ioctl_vidioc_s_tuner v) /\
  stops_at_fault (kt0913_ioctl_vidioc_g_tuner v) /\
  stops_at_fault (__kt0913_set_standby standby).
Proof.
  repeat split.
  - apply stops_at_fault_set_frequency.
  - apply stops_at_fault_get_frequency.
  - apply stops_at_fault_s_ctrl.
  - apply stops_at_fault_g_volatile_ctrl.
  - apply stops_at_fault_s_tuner.
  - apply stops_at_fault_g_tuner.
  - unfold __kt0913_set_standby. stops_step.
Qed.

(** The FM tuner query makes three reads; here the second one fails. *)
Lemma operations_stop_at_first_fault_witness :
  fst (kt0913_ioctl_vidioc_g_tuner
         {| t_index := 0; t_name := ""; t_type := 0; t_capability := 0;
            t_rangelow := 0; t_rangehigh := 0; rxsubchans := 0; audmode := 0;
            signal := 0; afc := 0 |}
         (attach 0 0 ∅ (first_fault 1 (- EIO) [])))
  = Err (- EIO) /\
  trace (regmap (snd (kt0913_ioctl_vidioc_g_tuner
         {| t_index := 0; t_name := ""; t_type := 0; t_capability := 0;
            t_rangelow := 0; t_rangehigh := 0; rxsubchans := 0; audmode := 0;
            signal := 0; afc := 0 |}
         (attach 0 0 ∅ (first_fault 1 (- EIO) [])))))
  = [BusRead KT0913_REG_DSPCFGA; BusRead KT0913_REG_STATUSA].
Proof.
  pose proof (proj1 (proj2 (proj2 (proj2 (proj2 (proj2
                (operations_stop_at_first_fault 0 0 0
                   {| cid := V4L2_CID_AUDIO_MUTE; val := 0 |}
                   {| t_index := 0; t_name := ""; t_type := 0; t_capability := 0;
                      t_rangelow := 0; t_rangehigh := 0; rxsubchans := 0;
                      audmode := 0; signal := 0; afc := 0 |})))))))
    as Hstop.
  destruct (Hstop (attach 0 0 ∅ (first_fault 1 (- EIO) [])) 1%nat (- EIO) [])
    as [ops [Htr [_ [Hlt _]]]]; [discriminate | reflexivity |].
  assert (Hops : ops = [BusRead KT0913_REG_DSPCFGA; BusRead KT0913_REG_STATUSA;
                        BusRead KT0913_REG_STATUSA]).
  { symmetry. exact Htr. }
  subst ops. exact (Hlt ltac:(cbn; lia)).
Defined.

(** ** Only registers of the chip are addressed *)

Section Transfers.

Variable P : bus_op -> bool.

Lemma transfers_pure {A} (f : kt0913_device -> result A) :
  transfers_satisfy P (fun radio => (f radio, radio)).
Proof. intros radio. exists []. cbn. now rewrite app_nil_r. Qed.

Lemma transfers_set_band (b : band_t) : transfers_satisfy P (set_band b).
Proof. intros radio. exists []. cbn. now rewrite app_nil_r. Qed.

Lemma transfers_bind {A B} (c : drv A) (k : A -> drv B) :
  transfers_satisfy P c -> (forall a, transfers_satisfy P (k a)) ->
  transfers_satisfy P (bind c k).
Proof.
  intros Hc Hk radio. unfold bind.
  destruct (Hc radio) as [ops1 [E1 P1]].
  destruct (c radio) as [[a | e] radio1]; cbn [snd] in *.
  - destruct (Hk a radio1) as [ops2 [E2 P2]].
    exists (ops1 ++ ops2). split.
    + now rewrite E2, E1, app_assoc.
    + now rewrite forallb_app, P1, P2.
  - exists ops1. now split.
Qed.

Lemma transfers_read (reg : Z) :
  P (BusRead reg) = true -> transfers_satisfy P (on_regmap (regmap_read reg)).
Proof.
  intros HP radio. unfold on_regmap, regmap_read, bus_read.
  destruct (max_register <? reg).
  - exists []. cbn. now rewrite app_nil_r.
  - exists [BusRead reg].
    destruct (next_fault (regmap radio) =? 0); cbn; now rewrite HP.
Qed.

Lemma transfers_write (reg v : Z) :
  (forall w, P (BusWrite reg w) = true) ->
  transfers_satisfy P (on_regmap (regmap_write reg v)).
Proof.
  intros HP radio. unfold on_regmap, regmap_write, bus_write.
  destruct (max_register <? reg).
  - exists []. cbn. now rewrite app_nil_r.
  - exists [BusWrite reg (u16 v)].
    destruct (next_fault (regmap radio) =? 0); cbn; now rewrite HP.
Qed.

Lemma transfers_ext {A} (c c' : drv A) :
  (forall radio, c radio = c' radio) -> transfers_satisfy P c' ->
  transfers_satisfy P c.
Proof. intros Heq Hc' radio. rewrite Heq. apply Hc'. Qed.

Lemma transfers_update_bits (reg mask v : Z) :
  P (BusRead reg) = true -> (forall w, P (BusWrite reg w) = true) ->
  transfers_satisfy P (on_regmap (regmap_update_bits reg mask v)).
Proof.
  intros HR HW. unfold regmap_update_bits.
  eapply transfers_ext; [intros radio; apply on_regmap_bind |].
  apply transfers_bind; [now apply transfers_read |].
  intros orig. cbv zeta.
  match goal with |- context [if ?c then _ else _] => destruct c end.
  - eapply transfers_ext; [intros radio; apply on_regmap_ret |].
    apply (transfers_pure (fun _ => Ok tt)).
  - now apply transfers_write.
Qed.

Lemma transfers_multi_reg_write (regs : list (Z * Z)) :
  Forall (fun entry => forall w, P (BusWrite (fst entry) w) = true) regs ->
  transfers_satisfy P (on_regmap (regmap_multi_reg_write regs)).
Proof.
  induction 1 as [| [reg def] regs Hreg _ IH]; cbn [regmap_multi_reg_write].
  - eapply transfers_ext; [intros radio; apply on_regmap_ret |].
    apply (transfers_pure (fun _ => Ok tt)).
  - eapply transfers_ext; [intros radio; apply on_regmap_bind |].
    apply transfers_bind; [now apply transfers_write |].
    intros _. exact IH.
Qed.

End Transfers.

Ltac valid_step :=
  first [ apply (transfers_pure valid_op (fun _ => Ok _))
        | apply (transfers_pure valid_op (fun _ => Err _))
        | apply (transfers_pure valid_op (fun radio => Ok (band radio)))
        | apply transfers_set_band
        | apply transfers_read; reflexivity
        | apply transfers_write; intros ?; reflexivity
        | apply transfers_update_bits; [reflexivity | intros ?; reflexivity]
        | apply transfers_bind; [| intros ?] ].

Ltac valid_branches :=
  repeat match goal with
         | |- context [if ?c then _ else _] => destruct c
         end.

(** X3: the driver only ever addresses registers of the chip.  Whatever
    the arguments and whatever the bus does, every transfer that
    initialisation, a tune request, a frequency query, a control request
    or query, a tuner request or query, or a standby switch attempts goes
    to a register of the chip's register table, none above the highest
    register of the map. *)
Theorem only_chip_registers_addressed
    (campus freq standby : Z) (f : v4l2_frequency) (ctrl : v4l2_ctrl)
    (v : v4l2_tuner) :
  transfers_satisfy valid_op (__kt0913_init campus) /\
  transfers_satisfy valid_op (kt0913_ioctl_vidioc_s_frequency campus f) /\
  transfers_satisfy valid_op (kt0913_ioctl_vidioc_g_frequency f) /\
  transfers_satisfy valid_op (kt0913_s_ctrl ctrl) /\
  transfers_satisfy valid_op (kt0913_g_volatile_ctrl ctrl) /\
  transfers_satisfy valid_op (kt0913_ioctl_vidioc_s_tuner v) /\
  transfers_satisfy valid_op (kt0913_ioctl_vidioc_g_tuner v) /\
  transfers_satisfy valid_op (__kt0913_set_standby standby).
Proof.
  repeat split.
  - unfold __kt0913_init.
    apply transfers_bind;
      [apply transfers_multi_reg_write; repeat constructor | intros _].
    apply transfers_bind;
      [apply (transfers_pure valid_op (fun radio => Ok (audio_anti_pop radio)))
      | intros anti_pop].
    apply transfers_bind; [valid_step | intros _].
    apply transfers_bind;
      [apply (transfers_pure valid_op (fun radio => Ok (refclock_val radio)))
      | intros refclk].
    apply transfers_bind; [valid_step | intros _].
    apply transfers_bind;
      [destruct (campus_enabled campus); valid_step | intros _].
    unfold __kt0913_set_mute. valid_step.
  - unfold kt0913_ioctl_vidioc_s_frequency.
    destruct (negb (tuner f =? 0) || negb (type f =? V4L2_TUNER_RADIO));
      [valid_step |].
    destruct (frequency f =? 0); [valid_step |].
    apply transfers_bind.
    { unfold select_band. valid_branches; valid_step. }
    intros nb. apply transfers_bind; [valid_step | intros cur].
    apply transfers_bind.
    { destruct (negb (band_eqb cur nb)); [| valid_step].
      unfold __kt0913_set_am_fm_band. repeat valid_step. }
    intros _. cbv zeta. apply transfers_bind; [valid_step | intros cur'].
    destruct (band_eqb cur' BAND_AM);
      unfold __kt0913_set_am_frequency, __kt0913_set_fm_frequency; valid_step.
  - unfold kt0913_ioctl_vidioc_g_frequency.
    destruct (negb (tuner f =? 0)); [valid_step |].
    apply transfers_bind; [valid_step | intros cur].
    apply transfers_bind; [| intros khz; valid_step].
    destruct (band_eqb cur BAND_AM);
      unfold __kt0913_get_am_frequency, __kt0913_get_fm_frequency;
      repeat valid_step.
  - unfold kt0913_s_ctrl.
    destruct (cid ctrl); try valid_step;
      unfold __kt0913_set_mute, __kt0913_set_volume, __kt0913_set_au_gain,
        __kt0913_set_deemphasis; valid_branches; valid_step.
  - unfold kt0913_g_volatile_ctrl.
    destruct (cid ctrl); unfold __kt0913_get_pll_status; repeat valid_step.
  - unfold kt0913_ioctl_vidioc_s_tuner.
    destruct (0 <? t_index v); [valid_step |].
    match goal with |- context [if ?c then _ else _] => destruct c end;
      [valid_step |].
    apply transfers_bind; [valid_step | intros cur].
    match goal with |- context [if ?c then _ else _] => destruct c end;
      [valid_step |].
    unfold __kt0913_set_cfg_stereo_enabled. valid_step.
  - unfold kt0913_ioctl_vidioc_g_tuner.
    destruct (0 <? t_index v); [valid_step |]. cbv zeta.
    apply transfers_bind; [valid_step | intros cur].
    destruct (band_eqb cur BAND_AM);
      unfold __kt0913_get_am_rssi, __kt0913_get_fm_rssi,
        __kt0913_get_cfg_stereo_enabled, __kt0913_get_rx_stereo_or_mono;
      repeat valid_step.
  - unfold __kt0913_set_standby. valid_step.
Qed.

(** ** What a request changes on the chip *)

Lemma s_ctrl_as_update (ctrl : v4l2_ctrl) (radio : kt0913_device) :
  kt0913_s_ctrl ctrl radio
  = match ctrl_field ctrl with
    | Some (reg, mask, v) => on_regmap (regmap_update_bits reg mask v) radio
    | None => (Err (- EINVAL), radio)
    end.
Proof.
  unfold kt0913_s_ctrl, ctrl_field.
  destruct (cid ctrl); try reflexivity;
    unfold __kt0913_set_mute, __kt0913_set_volume, __kt0913_set_au_gain,
      __kt0913_set_deemphasis;
    repeat match goal with
           | |- context [if ?c then _ else _] => destruct c
           end;
    reflexivity.
Qed.

Lemma ctrl_field_in_map (ctrl : v4l2_ctrl) (reg mask v : Z) :
  ctrl_field ctrl = Some (reg, mask, v) ->
  reg <= max_register /\ 0 <= mask < 2 ^ 32 /\ reg <> KT0913_REG_TUNE /\
  reg <> KT0913_REG_AMCHAN /\ Z.testbit mask 15 = false.
Proof.
  unfold ctrl_field.
  destruct (cid ctrl); try discriminate;
    repeat match goal with
           | |- context [if ?c then _ else _] => destruct c
           end;
    try discriminate; intros E; injection E as <- <- <-;
    repeat split; try reflexivity; try discriminate.
Qed.

Lemma update_bits_trace_nonempty (reg mask v : Z) (radio : kt0913_device) :
  reg <= max_register ->
  issued radio (snd (on_regmap (regmap_update_bits reg mask v) radio)) <> [].
Proof.
  intros Hreg.
  destruct (update_bits_shape reg mask v radio Hreg) as [_ [ops [Htr Hops]]].
  rewrite (issued_app _ _ _ Htr).
  destruct Hops as [-> | [w ->]]; discriminate.
Qed.

(** X4: what a control request changes.  A request the driver refuses
    (unknown control, a gain other than -3, 0, 3 or 6 dB, a de-emphasis
    other than 75 or 50 microseconds) returns [-EINVAL] and leaves the
    device untouched.  An accepted request attempts at least one
    transfer and, whatever the bus does, keeps the band, leaves every
    other register alone and changes no bit of its own register outside
    its field, so that mute, de-emphasis and anti-pop in VOLUME, volume
    and standby in RXCFG, and gain, reference clock and AM/FM mode in
    AMSYSCFG never disturb one another; when it succeeds the bits of the
    field are those of the requested encoding. *)
Theorem control_request_footprint (ctrl : v4l2_ctrl) (radio : kt0913_device) :
  let res := kt0913_s_ctrl ctrl radio in
  match ctrl_field ctrl with
  | None => res = (Err (- EINVAL), radio)
  | Some (reg, mask, v) =>
      issued radio (snd res) <> [] /\
      band (snd res) = band radio /\
      (forall reg', reg' <> reg ->
         peek (regmap (snd res)) reg' = peek (regmap radio) reg') /\
      same_outside mask (peek (regmap radio) reg) (peek (regmap (snd res)) reg) /\
      (fst res = Ok tt ->
       forall i, 0 <= i < 16 -> Z.testbit mask i = true ->
         Z.testbit (peek (regmap (snd res)) reg) i = Z.testbit v i)
  end.
Proof.
  intros res. subst res. rewrite s_ctrl_as_update.
  destruct (ctrl_field ctrl) as [[[reg mask] v] |] eqn:Hfield; [| reflexivity].
  destruct (ctrl_field_in_map ctrl reg mask v Hfield) as [Hreg [Hmask _]].
  destruct (update_bits_outcome reg mask v radio Hreg Hmask)
    as [Hsame [Hother [Herr Hok]]].
  split; [now apply update_bits_trace_nonempty |].
  split; [now rewrite Hsame |].
  split; [exact Hother |].
  split.
  - intros i Hi Hbit.
    destruct (fst (on_regmap (regmap_update_bits reg mask v) radio))
      as [[] | e] eqn:Hres.
    + rewrite (Hok eq_refl i Hi), Hbit. reflexivity.
    + unfold peek. now rewrite (Herr e eq_refl).
  - intros Hres i Hi Hbit. rewrite (Hok Hres i Hi), Hbit. reflexivity.
Qed.

(** Unmuting on a chip whose VOLUME register holds the word
    initialisation leaves there sets bit 13 and nothing else. *)
Lemma control_request_footprint_witness :
  fst (kt0913_s_ctrl {| cid := V4L2_CID_AUDIO_MUTE; val := 0 |}
         (attach 0 0 {[ KT0913_REG_VOLUME := 0xC080 ]} [])) = Ok tt /\
  Z.testbit
    (peek (regmap (snd (kt0913_s_ctrl {| cid := V4L2_CID_AUDIO_MUTE; val := 0 |}
                          (attach 0 0 {[ KT0913_REG_VOLUME := 0xC080 ]} []))))
       KT0913_REG_VOLUME) 13
  = Z.testbit KT0913_VOLUME_DMUTE_OFF 13.
Proof.
  split; [reflexivity |].
  pose proof (control_request_footprint
                {| cid := V4L2_CID_AUDIO_MUTE; val := 0 |}
                (attach 0 0 {[ KT0913_REG_VOLUME := 0xC080 ]} [])) as H.
  cbv zeta in H. cbn [ctrl_field cid val Z.eqb] in H.
  destruct H as [_ [_ [_ [_ Hbits]]]].
  apply (Hbits eq_refl 13); [lia | reflexivity].
Defined.

Lemma tune_write_outcome (b : band_t) (khz : Z) (radio : kt0913_device) :
  let res := tune_write b khz radio in
  snd res = with_regmap radio (regmap (snd res)) /\
  (forall reg', reg' <> tune_reg b ->
     peek (regmap (snd res)) reg' = peek (regmap radio) reg').
Proof.
  intros res. subst res. unfold tune_write, tune_reg.
  destruct (band_eqb b BAND_AM);
    unfold __kt0913_set_am_frequency, __kt0913_set_fm_frequency;
    rewrite on_regmap_write_run by in_map;
    destruct (next_fault (regmap radio) =? 0);
    cbn [snd]; unfold with_regmap, after, peek; cbn;
    (split; [reflexivity |]); intros reg' Hne;
    try reflexivity; now rewrite lookup_insert_ne by congruence.
Qed.

(** The state a tune request leaves, step by step, whatever the bus
    does: the registers other than AMSYSCFG and the tune register of the
    target band are untouched, and when the band state changes the mode
    bit of the chip has changed with it. *)
Lemma set_frequency_outcome (campus freq : Z) (radio : kt0913_device) :
  let res := set_frequency campus freq radio in
  (forall reg', reg' <> KT0913_REG_AMSYSCFG -> reg' <> KT0913_REG_TUNE ->
     reg' <> KT0913_REG_AMCHAN ->
     peek (regmap (snd res)) reg' = peek (regmap radio) reg') /\
  same_outside KT0913_AMSYSCFG_AM_FM_MASK
    (peek (regmap radio) KT0913_REG_AMSYSCFG)
    (peek (regmap (snd res)) KT0913_REG_AMSYSCFG) /\
  audio_anti_pop (snd res) = audio_anti_pop radio /\
  refclock_val (snd res) = refclock_val radio /\
  (mode_consistent radio -> mode_consistent (snd res)).
Proof.
  intros res. subst res.
  destruct (Z.eq_dec freq 0) as [Hz | Hnz].
  { rewrite set_frequency_rejected by now left.
    cbn [snd]. repeat split; auto; try (now intros i _ _). }
  destruct (spec_classify (campus_enabled campus) freq) as [nb |] eqn:Hcls.
  2:{ rewrite set_frequency_rejected by now right.
      cbn [snd]. repeat split; auto; try (now intros i _ _). }
  rewrite (set_frequency_unfold campus freq radio nb Hnz Hcls).
  assert (Htune : forall r : kt0913_device,
            tune_reg nb <> KT0913_REG_AMSYSCFG /\
            (tune_reg nb = KT0913_REG_TUNE \/ tune_reg nb = KT0913_REG_AMCHAN)).
  { intros _. unfold tune_reg. destruct (band_eqb nb BAND_AM);
      (split; [discriminate | auto]). }
  destruct (Htune radio) as [Hne Hcases].
  destruct (band_eqb (band radio) nb) eqn:Hb.
  - destruct (tune_write_outcome nb (v4l2_freq_to_khz freq) radio)
      as [Hsame Hother].
    rewrite Hsame. cbn [with_regmap audio_anti_pop refclock_val band regmap].
    repeat split.
    + intros reg' H1 H2 H3. apply Hother. destruct Hcases; congruence.
    + intros i _ _. now rewrite Hother by congruence.
    + unfold mode_consistent. cbn [band regmap].
      now rewrite Hother by congruence.
  - assert (Hreg : KT0913_REG_AMSYSCFG <= max_register) by in_map.
    assert (Hmask : 0 <= KT0913_AMSYSCFG_AM_FM_MASK < 2 ^ 32)
      by (split; [discriminate | reflexivity]).
    pose proof (update_bits_outcome KT0913_REG_AMSYSCFG KT0913_AMSYSCFG_AM_FM_MASK
                  (mode_bit nb) radio Hreg Hmask) as Hupd.
    cbv zeta in Hupd. unfold mode_bit in Hupd.
    fold (__kt0913_set_am_fm_band nb) in Hupd.
    destruct (__kt0913_set_am_fm_band nb radio) as [[[] | e] radio1];
      cbn [fst snd] in Hupd; destruct Hupd as [Hsame1 [Hother1 [Herr1 Hok1]]].
    + destruct (tune_write_outcome nb (v4l2_freq_to_khz freq) (with_band radio1 nb))
        as [Hsame2 Hother2].
      remember (snd (tune_write nb (v4l2_freq_to_khz freq) (with_band radio1 nb)))
        as radio2 eqn:E2. clear E2.
      assert (Ha : audio_anti_pop radio2 = audio_anti_pop radio)
        by (rewrite Hsame2, Hsame1; reflexivity).
      assert (Hr : refclock_val radio2 = refclock_val radio)
        by (rewrite Hsame2, Hsame1; reflexivity).
      assert (Hbd : band radio2 = nb) by (rewrite Hsame2; reflexivity).
      cbn [with_band regmap] in Hother2.
      repeat split; try assumption.
      * intros reg' H1 H2 H3.
        rewrite Hother2 by (destruct Hcases; congruence). now apply Hother1.
      * intros i Hi Hbit. rewrite Hother2 by congruence.
        rewrite (Hok1 eq_refl i Hi), Hbit. reflexivity.
      * intros _. unfold mode_consistent. rewrite Hbd.
        rewrite Hother2 by congruence.
        rewrite (Hok1 eq_refl 15 ltac:(lia)).
        now destruct nb.
    + cbn [snd].
      assert (Ha : audio_anti_pop radio1 = audio_anti_pop radio)
        by (rewrite Hsame1; reflexivity).
      assert (Hr : refclock_val radio1 = refclock_val radio)
        by (rewrite Hsame1; reflexivity).
      assert (Hbd : band radio1 = band radio) by (rewrite Hsame1; reflexivity).
      repeat split; try assumption.
      * intros reg' H1 _ _. now apply Hother1.
      * intros i _ _. unfold peek. now rewrite (Herr1 e eq_refl).
      * unfold mode_consistent, peek. rewrite Hbd.
        now rewrite (Herr1 e eq_refl).
Qed.

(** X5: what a tune request changes, whatever the bus does and whether
    it succeeds or not: no register other than AMSYSCFG and the two tune
    registers TUNE and AMCHAN, in AMSYSCFG no bit but the AM/FM mode bit
    (so audio gain and reference clock survive a band change), and
    nothing of the device-tree settings. *)
Theorem tune_request_footprint (campus freq : Z) (radio : kt0913_device) :
  let res := set_frequency campus freq radio in
  (forall reg', reg' <> KT0913_REG_AMSYSCFG -> reg' <> KT0913_REG_TUNE ->
     reg' <> KT0913_REG_AMCHAN ->
     peek (regmap (snd res)) reg' = peek (regmap radio) reg') /\
  same_outside KT0913_AMSYSCFG_AM_FM_MASK
    (peek (regmap radio) KT0913_REG_AMSYSCFG)
    (peek (regmap (snd res)) KT0913_REG_AMSYSCFG) /\
  audio_anti_pop (snd res) = audio_anti_pop radio /\
  refclock_val (snd res) = refclock_val radio.
Proof.
  intros res. subst res.
  destruct (set_frequency_outcome campus freq radio) as [H1 [H2 [H3 [H4 _]]]].
  auto.
Qed.

(** ** The registers after initialisation *)

Lemma init_map_peek_table (campus anti_pop refclk : Z) (m : Regmap.t) (reg : Z) :
  reg <> KT0913_REG_VOLUME -> reg <> KT0913_REG_AMSYSCFG ->
  reg <> KT0913_REG_LOCFGC ->
  peek (init_map campus anti_pop refclk m) reg
  = default (peek m reg) (last_write reg kt0913_init_regs_to_defaults).
Proof.
  intros Hv Ha Hl. unfold init_map. cbv zeta.
  rewrite quiet_update_peek_other by congruence.
  destruct (campus_enabled campus);
    rewrite ?quiet_update_peek_other by congruence;
    apply written_peek.
Qed.

Lemma init_map_peek_config (campus anti_pop refclk : Z) (m : Regmap.t) :
  0 <= anti_pop <= 3 -> 0 <= refclk <= 9 ->
  peek (init_map campus anti_pop refclk m) KT0913_REG_AMSYSCFG
  = 0x0002 + refclk * 256 /\
  peek (init_map campus anti_pop refclk m) KT0913_REG_LOCFGC
  = (if campus_enabled campus then 0x002C else 0x0024).
Proof.
  intros Ha Hr. unfold init_map. cbv zeta.
  set (m1 := written m kt0913_init_regs_to_defaults).
  assert (A1 : peek m1 KT0913_REG_AMSYSCFG = 0x0002)
    by (subst m1; now rewrite written_peek).
  assert (L1 : peek m1 KT0913_REG_LOCFGC = 0x0024)
    by (subst m1; now rewrite written_peek).
  clearbody m1.
  set (m2 := quiet_update KT0913_REG_VOLUME _ _ m1).
  assert (A2 : peek m2 KT0913_REG_AMSYSCFG = 0x0002)
    by (subst m2; now rewrite quiet_update_peek_other).
  assert (L2 : peek m2 KT0913_REG_LOCFGC = 0x0024)
    by (subst m2; now rewrite quiet_update_peek_other).
  clearbody m2.
  set (m3 := quiet_update KT0913_REG_AMSYSCFG _ _ m2).
  assert (A3 := quiet_update_peek_same KT0913_REG_AMSYSCFG
                  KT0913_AMSYSCFG_REFCLK_MASK
                  (u32 (Z.shiftl refclk KT0913_AMSYSCFG_REFCLK_SHIFT)) m2).
  fold m3 in A3. rewrite A2 in A3.
  assert (L3 : peek m3 KT0913_REG_LOCFGC = 0x0024)
    by (subst m3; now rewrite quiet_update_peek_other).
  clearbody m3.
  set (m4 := if campus_enabled campus then _ else m3).
  assert (A4 : peek m4 KT0913_REG_AMSYSCFG = peek m3 KT0913_REG_AMSYSCFG).
  { subst m4. destruct (campus_enabled campus); [| reflexivity].
    now rewrite quiet_update_peek_other. }
  assert (L4 : peek m4 KT0913_REG_LOCFGC
               = if campus_enabled campus then 0x002C else 0x0024).
  { subst m4. destruct (campus_enabled campus); [| exact L3].
    now rewrite quiet_update_peek_same, L3. }
  clearbody m4.
  rewrite !quiet_update_peek_other by discriminate.
  rewrite A4, A3, L4. split; [| reflexivity].
  assert (Hclk : refclk = 0 \/ refclk = 1 \/ refclk = 2 \/ refclk = 3 \/ refclk = 4 \/
                 refclk = 5 \/ refclk = 6 \/ refclk = 7 \/ refclk = 8 \/ refclk = 9)
    by lia.
  clear - Hclk.
  repeat (destruct Hclk as [-> | Hclk]); try subst refclk; reflexivity.
Qed.

(** X6: the registers a successful initialisation leaves, for every
    setting the device tree can give and whatever the chip held before.
    VOLUME holds [0xC080] with the anti-pop level in bits 4-5 (mute on),
    AMSYSCFG holds [0x0002] with the reference clock in bits 8-11 (FM
    mode), LOCFGC has the campus-band bit exactly when the feature is on,
    and every other register holds the last word the default table gives
    it: AMCFG ends at [0x4050], its first table word [0x1401] being
    overwritten by the second entry for the same register, and a
    register the table does not name, such as AMCFG2, keeps its content.
    A device left in an FM band then reports 86 MHz. *)
Theorem init_register_state (campus : Z) (radio : kt0913_device) :
  0 <= audio_anti_pop radio <= 3 ->
  0 <= refclock_val radio <= 9 ->
  faults (regmap radio) = [] ->
  let radio' := snd (__kt0913_init campus radio) in
  let reg_after := peek (regmap radio') in
  reg_after KT0913_REG_VOLUME = 0xC080 + audio_anti_pop radio * 16 /\
  reg_after KT0913_REG_AMSYSCFG = 0x0002 + refclock_val radio * 256 /\
  reg_after KT0913_REG_LOCFGC = (if campus_enabled campus then 0x002C else 0x0024) /\
  (forall reg, reg <> KT0913_REG_VOLUME -> reg <> KT0913_REG_AMSYSCFG ->
     reg <> KT0913_REG_LOCFGC ->
     reg_after reg
     = default (peek (regmap radio) reg)
         (last_write reg kt0913_init_regs_to_defaults)) /\
  reg_after KT0913_REG_AMCFG = 0x4050 /\
  reg_after KT0913_REG_AMCFG2 = peek (regmap radio) KT0913_REG_AMCFG2 /\
  band radio' = band radio /\
  (band radio <> BAND_AM -> fst (get_frequency radio') = Ok (86000 * 16)).
Proof.
  intros Ha Hr Hq radio' reg_after. subst radio' reg_after.
  rewrite (init_quiet_run campus radio Hq). unfold with_regmap.
  cbn [snd regmap band].
  destruct (init_map_trace campus _ _ (regmap radio) Ha Hr) as [_ Hvol].
  destruct (init_map_peek_config campus _ _ (regmap radio) Ha Hr) as [Hsys Hloc].
  split; [exact Hvol |]. split; [exact Hsys |]. split; [exact Hloc |].
  split; [intros reg; apply init_map_peek_table |].
  split; [now rewrite init_map_peek_table by discriminate |].
  split; [now rewrite init_map_peek_table by discriminate |].
  split; [reflexivity |].
  intros Hband.
  rewrite get_frequency_quiet
    by (cbn [regmap]; now apply init_map_faults).
  unfold decoded_khz. cbn [band regmap].
  apply band_eqb_neq in Hband. rewrite Hband.
  now rewrite init_map_peek_table by discriminate.
Qed.

Lemma init_register_state_witness :
  peek (regmap (snd (__kt0913_init 1 (attach 2 3 ∅ [])))) KT0913_REG_AMSYSCFG
  = 0x0302 /\
  peek (regmap (snd (__kt0913_init 1 (attach 2 3 ∅ [])))) KT0913_REG_AMCFG
  = 0x4050.
Proof.
  pose proof (init_register_state 1 (attach 2 3 ∅ [])) as H.
  cbv zeta in H.
  destruct H as [_ [Hsys [_ [_ [Hcfg _]]]]]; [cbn; lia | cbn; lia | reflexivity |].
  split; [exact Hsys | exact Hcfg].
Defined.

(** ** The band state and the mode bit of the chip *)

Lemma update_bits_keeps_mode (reg mask v : Z) (radio : kt0913_device) :
  reg <= max_register -> 0 <= mask < 2 ^ 32 ->
  reg <> KT0913_REG_AMSYSCFG \/ Z.testbit mask 15 = false ->
  mode_consistent radio ->
  mode_consistent (snd (on_regmap (regmap_update_bits reg mask v) radio)).
Proof.
  intros Hreg Hmask Hside Hcons.
  destruct (update_bits_outcome reg mask v radio Hreg Hmask)
    as [Hsame [Hother [Herr Hok]]].
  unfold mode_consistent in *.
  assert (Hbd : band (snd (on_regmap (regmap_update_bits reg mask v) radio))
                = band radio) by (rewrite Hsame; reflexivity).
  rewrite Hbd, <- Hcons.
  destruct (Z.eq_dec reg KT0913_REG_AMSYSCFG) as [-> | Hne].
  - destruct Hside as [Hbad | Hbit]; [contradiction |].
    destruct (fst (on_regmap (regmap_update_bits KT0913_REG_AMSYSCFG mask v) radio))
      as [[] | e] eqn:Hres.
    + rewrite (Hok eq_refl 15 ltac:(lia)), Hbit. reflexivity.
    + unfold peek. now rewrite (Herr e eq_refl).
  - now rewrite Hother by congruence.
Qed.

(** X7: the band the driver remembers always agrees with the AM/FM mode
    bit of the chip.  A successful initialisation of a device in an FM
    band establishes the agreement, and every request keeps it whatever
    the bus does: a tune request (also one that fails between the mode
    update and the tune write), a control request, a tuner request and a
    standby switch. *)
Theorem band_matches_mode_bit
    (campus freq standby : Z) (ctrl : v4l2_ctrl) (v : v4l2_tuner)
    (radio : kt0913_device) :
  (0 <= audio_anti_pop radio <= 3 -> 0 <= refclock_val radio <= 9 ->
   faults (regmap radio) = [] -> band radio <> BAND_AM ->
   mode_consistent (snd (__kt0913_init campus radio))) /\
  (mode_consistent radio ->
   mode_consistent (snd (set_frequency campus freq radio)) /\
   mode_consistent (snd (kt0913_s_ctrl ctrl radio)) /\
   mode_consistent (snd (kt0913_ioctl_vidioc_s_tuner v radio)) /\
   mode_consistent (snd (__kt0913_set_standby standby radio))).
Proof.
  split.
  - intros Ha Hr Hq Hband.
    rewrite (init_quiet_run campus radio Hq). unfold mode_consistent, with_regmap.
    cbn [snd regmap band].
    destruct (init_map_peek_config campus _ _ (regmap radio) Ha Hr) as [-> _].
    apply band_eqb_neq in Hband. rewrite Hband.
    assert (Hclk : refclock_val radio = 0 \/ refclock_val radio = 1 \/
                   refclock_val radio = 2 \/ refclock_val radio = 3 \/
                   refclock_val radio = 4 \/ refclock_val radio = 5 \/
                   refclock_val radio = 6 \/ refclock_val radio = 7 \/
                   refclock_val radio = 8 \/ refclock_val radio = 9) by lia.
    repeat (destruct Hclk as [-> | Hclk]); try rewrite Hclk; reflexivity.
  - intros Hcons. split; [| split; [| split]].
    + now apply set_frequency_outcome.
    + rewrite s_ctrl_as_update.
      destruct (ctrl_field ctrl) as [[[reg mask] w] |] eqn:Hfield;
        [| exact Hcons].
      destruct (ctrl_field_in_map ctrl reg mask w Hfield)
        as [Hreg [Hmask [_ [_ Hbit]]]].
      apply update_bits_keeps_mode; auto.
    + unfold kt0913_ioctl_vidioc_s_tuner.
      destruct (0 <? t_index v); [exact Hcons |].
      match goal with |- context [if ?c then _ else _] => destruct c end;
        [exact Hcons |].
      unfold bind, get_band.
      match goal with |- context [if ?c then _ else _] => destruct c end;
        [exact Hcons |].
      unfold __kt0913_set_cfg_stereo_enabled.
      apply update_bits_keeps_mode;
        [in_map | split; [discriminate | reflexivity] | left; discriminate
        | exact Hcons].
    + unfold __kt0913_set_standby.
      apply update_bits_keeps_mode;
        [in_map | split; [discriminate | reflexivity] | left; discriminate
        | exact Hcons].
Qed.

(** A tune request to AM whose mode write fails leaves band and chip in
    agreement (both still FM). *)
Lemma band_matches_mode_bit_witness :
  mode_consistent (attach 0 0 ∅ [0; - EIO]) /\
  mode_consistent (snd (set_frequency 0 (1000 * 16) (attach 0 0 ∅ [0; - EIO]))).
Proof.
  assert (Hbefore : mode_consistent (attach 0 0 ∅ [0; - EIO])) by reflexivity.
  split; [exact Hbefore |].
  pose proof (band_matches_mode_bit 0 (1000 * 16) 0
                {| cid := V4L2_CID_AUDIO_MUTE; val := 0 |}
                {| t_index := 0; t_name := ""; t_type := 0; t_capability := 0;
                   t_rangelow := 0; t_rangehigh := 0; rxsubchans := 0;
                   audmode := 0; signal := 0; afc := 0 |}
                (attach 0 0 ∅ [0; - EIO])) as [_ Hkeep].
  destruct (Hkeep Hbefore) as [Hset _]. exact Hset.
Defined.

(** ** Enumerated bands and accepted frequencies *)

Lemma in_band_range (b : band_t) (freq : Z) :
  in_band b freq = true
  <-> rangelow (kt0913_bands b) <= freq <= rangehigh (kt0913_bands b).
Proof.
  unfold in_band. rewrite andb_true_iff, !Z.leb_le. reflexivity.
Qed.

Lemma spec_classify_extended (extended : bool) (freq : Z) :
  spec_classify extended freq = Some BAND_FM_CAMUS -> extended = true.
Proof.
  unfold spec_classify, spec_band_priority. cbn [app List.find].
  destruct (in_band BAND_AM freq); [discriminate |].
  destruct (in_band BAND_FM freq); [discriminate |].
  destruct extended; [reflexivity | discriminate].
Qed.

Lemma enumerated_iff_classified (campus freq : Z) :
  in_enumerated_band campus freq
  <-> exists nb, spec_classify (campus_enabled campus) freq = Some nb.
Proof.
  unfold in_enumerated_band, kt0913_ioctl_vidioc_enum_freq_bands.
  cbn [Z.eqb negb]. split.
  - intros [index [b [Henum Hrange]]].
    destruct (Z.eqb_spec index 0) as [_ | _].
    + injection Henum as <-.
      destruct (campus_enabled campus) eqn:Hc.
      * destruct (in_band_classify true BAND_FM_CAMUS freq) as [nb [H _]];
          [now apply in_band_range | reflexivity | now exists nb].
      * destruct (in_band_classify false BAND_FM freq) as [nb [H _]];
          [now apply in_band_range | discriminate | now exists nb].
    + destruct (Z.eqb_spec index 1) as [_ | _]; [| discriminate].
      injection Henum as <-.
      destruct (in_band_classify (campus_enabled campus) BAND_AM freq)
        as [nb [H _]];
        [now apply in_band_range | discriminate | now exists nb].
  - intros [nb Hcls].
    pose proof (spec_classify_in_band _ _ _ Hcls) as Hin.
    destruct nb.
    + exists 0. cbn [Z.eqb].
      destruct (campus_enabled campus).
      * eexists. split; [reflexivity |]. apply in_band_range.
        apply in_band_bounds in Hin. apply in_band_range.
        apply in_band_range. unfold in_band.
        apply andb_true_iff. rewrite !Z.leb_le.
        change (rangelow (kt0913_bands BAND_FM_CAMUS)) with (32000 * 16).
        change (rangehigh (kt0913_bands BAND_FM_CAMUS)) with (110000 * 16).
        lia.
      * eexists. split; [reflexivity |]. now apply in_band_range.
    + exists 0. cbn [Z.eqb].
      rewrite (spec_classify_extended _ _ Hcls).
      eexists. split; [reflexivity |]. now apply in_band_range.
    + exists 1. cbn [Z.eqb]. eexists. split; [reflexivity |].
      now apply in_band_range.
Qed.

Lemma classified_request_reaches_bus
    (campus freq : Z) (radio : kt0913_device) (nb : band_t) :
  spec_classify (campus_enabled campus) freq = Some nb ->
  issued radio (snd (set_frequency campus freq radio)) <> [].
Proof.
  intros Hcls.
  assert (Hnz : freq <> 0).
  { pose proof (in_band_bounds nb freq (spec_classify_in_band _ _ _ Hcls)).
    destruct nb; lia. }
  rewrite (set_frequency_unfold campus freq radio nb Hnz Hcls).
  destruct (band_eqb (band radio) nb).
  - destruct (tune_write_shape nb (v4l2_freq_to_khz freq) radio) as [_ [w Hw]].
    rewrite (issued_app _ _ _ Hw). discriminate.
  - assert (Hreg : KT0913_REG_AMSYSCFG <= max_register) by in_map.
    pose proof (update_bits_shape KT0913_REG_AMSYSCFG KT0913_AMSYSCFG_AM_FM_MASK
                  (mode_bit nb) radio Hreg) as Hshape.
    cbv zeta in Hshape. unfold mode_bit in Hshape.
    fold (__kt0913_set_am_fm_band nb) in Hshape.
    destruct (__kt0913_set_am_fm_band nb radio) as [[[] | e] radio1];
      cbn [snd] in Hshape; destruct Hshape as [_ [ops [Htr Hops]]].
    + destruct (tune_write_shape nb (v4l2_freq_to_khz freq) (with_band radio1 nb))
        as [_ [w Hw]].
      cbn [with_band regmap] in Hw. rewrite Htr, <- app_assoc in Hw.
      rewrite (issued_app _ _ _ Hw).
      destruct Hops as [-> | [w' ->]]; discriminate.
    + cbn [snd]. rewrite (issued_app _ _ _ Htr).
      destruct Hops as [-> | [w' ->]]; discriminate.
Qed.

(** X8: the frequencies a tune request accepts are exactly those of the
    bands the driver enumerates.  A frequency inside the range of
    enumerated band 0 (FM, or the campus band when that feature is on)
    or 1 (AM) makes the request reach the bus, and lies inside the range
    the tuner query reports; any other frequency is refused with
    [-EINVAL] and the device is left untouched. *)
Theorem accepted_iff_enumerated
    (campus freq : Z) (radio : kt0913_device) (v : v4l2_tuner) :
  (in_enumerated_band campus freq ->
   issued radio (snd (set_frequency campus freq radio)) <> [] /\
   t_rangelow (tuner_header v) <= freq <= t_rangehigh (tuner_header v)) /\
  (~ in_enumerated_band campus freq ->
   set_frequency campus freq radio = (Err (- EINVAL), radio)).
Proof.
  split.
  - intros Henum. apply enumerated_iff_classified in Henum as [nb Hcls].
    split; [now apply (classified_request_reaches_bus campus freq radio nb) |].
    pose proof (in_band_bounds nb freq (spec_classify_in_band _ _ _ Hcls)) as Hb.
    cbn [tuner_header t_rangelow t_rangehigh].
    change (rangelow (kt0913_bands BAND_AM)) with (500 * 16).
    change (rangehigh (kt0913_bands BAND_FM)) with (110000 * 16).
    destruct nb; lia.
  - intros Hnot. apply set_frequency_rejected. right.
    destruct (spec_classify (campus_enabled campus) freq) as [nb |] eqn:Hcls;
      [| reflexivity].
    exfalso. apply Hnot. apply enumerated_iff_classified. now exists nb.
Qed.

(** 40 MHz lies in the campus band, which is enumerated only when the
    feature is on. *)
Lemma accepted_iff_enumerated_witness :
  in_enumerated_band 1 (40000 * 16) /\
  issued (attach 0 0 ∅ []) (snd (set_frequency 1 (40000 * 16) (attach 0 0 ∅ [])))
  <> [].
Proof.
  assert (Henum : in_enumerated_band 1 (40000 * 16)).
  { exists 0, (kt0913_bands BAND_FM_CAMUS). split; [reflexivity |].
    split; discriminate. }
  split; [exact Henum |].
  pose proof (accepted_iff_enumerated 1 (40000 * 16) (attach 0 0 ∅ [])
                {| t_index := 0; t_name := ""; t_type := 0; t_capability := 0;
                   t_rangelow := 0; t_rangehigh := 0; rxsubchans := 0;
                   audmode := 0; signal := 0; afc := 0 |}) as [Hacc _].
  exact (proj1 (Hacc Henum)).
Defined.

(** ** The tuner query and the tuner request *)

Lemma land_stereo_bits (x : Z) :
  (Z.land x KT0913_STATUSA_ST_MASK =? KT0913_STATUSA_ST_STEREO)
  = Z.testbit x 8 && Z.testbit x 9.
Proof.
  assert (Hbits : forall n, 0 <= n ->
            Z.testbit 0x300 n = (n =? 8) || (n =? 9)).
  { intros n Hn. change 0x300 with (Z.lor (2 ^ 8) (2 ^ 9)).
    rewrite Z.lor_spec, !Z.pow2_bits_eqb by lia.
    rewrite (Z.eqb_sym 8 n), (Z.eqb_sym 9 n). reflexivity. }
  unfold KT0913_STATUSA_ST_MASK, KT0913_STATUSA_ST_STEREO.
  destruct (Z.testbit x 8) eqn:H8, (Z.testbit x 9) eqn:H9; cbn [andb].
  - apply Z.eqb_eq. apply Z.bits_inj'. intros n Hn.
    rewrite Z.land_spec, Hbits by assumption.
    destruct (Z.eqb_spec n 8) as [-> | _]; [now rewrite H8 |].
    destruct (Z.eqb_spec n 9) as [-> | _]; [now rewrite H9 |].
    apply andb_false_r.
  - apply Z.eqb_neq. intros E.
    assert (Hb : Z.testbit (Z.land x 0x300) 9 = true) by now rewrite E.
    rewrite Z.land_spec, H9 in Hb. discriminate.
  - apply Z.eqb_neq. intros E.
    assert (Hb : Z.testbit (Z.land x 0x300) 8 = true) by now rewrite E.
    rewrite Z.land_spec, H8 in Hb. discriminate.
  - apply Z.eqb_neq. intros E.
    assert (Hb : Z.testbit (Z.land x 0x300) 8 = true) by now rewrite E.
    rewrite Z.land_spec, H8 in Hb. discriminate.
Qed.

Lemma read_quiet (reg : Z) (radio : kt0913_device) :
  reg <= max_register -> faults (regmap radio) = [] ->
  exists radio1,
    on_regmap (regmap_read reg) radio = (Ok (peek (regmap radio) reg), radio1) /\
    faults (regmap radio1) = [] /\ band radio1 = band radio /\
    chip (regmap radio1) = chip (regmap radio).
Proof.
  intros Hreg Hq. eexists.
  rewrite on_regmap_read_ok by (assumption || now apply quiet_next_fault).
  split; [reflexivity |]. unfold with_regmap. cbn [regmap band].
  split; [now apply quiet_after | now split].
Qed.

Lemma g_tuner_quiet (v : v4l2_tuner) (radio : kt0913_device) :
  t_index v <= 0 -> faults (regmap radio) = [] ->
  fst (kt0913_ioctl_vidioc_g_tuner v radio) = Ok (tuner_reading v radio).
Proof.
  intros Hidx Hq. unfold kt0913_ioctl_vidioc_g_tuner, tuner_reading.
  destruct (Z.ltb_spec 0 (t_index v)) as [Hlt | _]; [lia |]. cbv zeta.
  unfold bind at 1. unfold get_band at 1.
  destruct (band_eqb (band radio) BAND_AM).
  - unfold __kt0913_get_am_rssi, bind.
    destruct (read_quiet KT0913_REG_AMSTATUSA radio) as [r1 [-> _]];
      [in_map | assumption |].
    reflexivity.
  - unfold __kt0913_get_cfg_stereo_enabled, __kt0913_get_rx_stereo_or_mono,
      __kt0913_get_fm_rssi, bind.
    destruct (read_quiet KT0913_REG_DSPCFGA radio) as [r1 [-> [Hq1 [_ Hc1]]]];
      [in_map | assumption |].
    cbn [ret].
    destruct (read_quiet KT0913_REG_STATUSA r1) as [r2 [-> [Hq2 [_ Hc2]]]];
      [in_map | assumption |].
    cbn [ret].
    destruct (read_quiet KT0913_REG_STATUSA r2) as [r3 [-> _]];
      [in_map | assumption |].
    cbn [ret fst]. f_equal.
    assert (P1 : forall reg, peek (regmap r1) reg = peek (regmap radio) reg)
      by (intros reg; unfold peek; now rewrite Hc1).
    assert (P2 : forall reg, peek (regmap r2) reg = peek (regmap radio) reg)
      by (intros reg; unfold peek; now rewrite Hc2, Hc1).
    rewrite P1, P2. f_equal.
    + change KT0913_DSPCFGA_MONO_MASK with 0x8000. rewrite land_bit15.
      now destruct (Z.testbit (peek (regmap radio) KT0913_REG_DSPCFGA) 15).
    + rewrite land_stereo_bits.
      now destruct (Z.testbit (peek (regmap radio) KT0913_REG_STATUSA) 8),
                   (Z.testbit (peek (regmap radio) KT0913_REG_STATUSA) 9).
Qed.

Lemma rssi_of_reg_range (reg mask shift : Z) :
  Z.shiftr mask shift = 31 -> 0 <= rssi_of_reg reg mask shift <= 65535.
Proof.
  intros Hm. destruct (rssi_of_reg_scaled reg mask shift Hm) as [Hraw ->].
  split; [apply Z.div_pos; lia |].
  apply Z.div_le_upper_bound; lia.
Qed.

(** X9: what the tuner query reports.  For tuner 0 on a bus without
    faults it succeeds and reports the name, the radio type and the range
    from the low edge of AM to the high edge of FM, a signal strength
    between 0 and 65535, and AFC 1.  In the AM band it reports mono for
    both the available sub-channels and the audio mode; in an FM band
    the sub-channels are stereo exactly when the mono-select bit of
    DSPCFGA is clear, and the audio mode is stereo exactly when both
    bits of the stereo indicator of STATUSA are set.  For any other
    tuner index it returns [-EINVAL] and touches nothing. *)
Theorem tuner_query_report (v : v4l2_tuner) (radio : kt0913_device) :
  (0 < t_index v ->
   kt0913_ioctl_vidioc_g_tuner v radio = (Err (- EINVAL), radio)) /\
  (t_index v <= 0 -> faults (regmap radio) = [] ->
   exists v',
     fst (kt0913_ioctl_vidioc_g_tuner v radio) = Ok v' /\
     t_name v' = "FM/AM"%string /\ t_type v' = V4L2_TUNER_RADIO /\
     t_rangelow v' = 500 * 16 /\ t_rangehigh v' = 110000 * 16 /\
     0 <= signal v' <= 65535 /\ afc v' = 1 /\
     (band radio = BAND_AM ->
      rxsubchans v' = V4L2_TUNER_SUB_MONO /\ audmode v' = V4L2_TUNER_MODE_MONO) /\
     (band radio <> BAND_AM ->
      (rxsubchans v' = V4L2_TUNER_SUB_STEREO
       <-> Z.testbit (peek (regmap radio) KT0913_REG_DSPCFGA) 15 = false) /\
      (rxsubchans v' = V4L2_TUNER_SUB_STEREO \/ rxsubchans v' = V4L2_TUNER_SUB_MONO) /\
      (audmode v' = V4L2_TUNER_MODE_STEREO
       <-> Z.testbit (peek (regmap radio) KT0913_REG_STATUSA) 8 = true /\
           Z.testbit (peek (regmap radio) KT0913_REG_STATUSA) 9 = true) /\
      (audmode v' = V4L2_TUNER_MODE_STEREO \/ audmode v' = V4L2_TUNER_MODE_MONO))).
Proof.
  split.
  - intros Hidx. unfold kt0913_ioctl_vidioc_g_tuner.
    destruct (Z.ltb_spec 0 (t_index v)) as [_ | Hle]; [reflexivity | lia].
  - intros Hidx Hq. exists (tuner_reading v radio).
    split; [now apply g_tuner_quiet |].
    unfold tuner_reading.
    destruct (band_eqb (band radio) BAND_AM) eqn:Hb;
      cbn [tuner_report tuner_header t_name t_type t_rangelow t_rangehigh
           signal afc rxsubchans audmode].
    + apply band_eqb_eq in Hb.
      pose proof (rssi_of_reg_range (peek (regmap radio) KT0913_REG_AMSTATUSA)
                    KT0913_AMSTATUSA_AMRSSI_MASK KT0913_AMSTATUSA_AMRSSI_SHIFT
                    eq_refl) as Hsig.
      rewrite u32_small by lia.
      repeat split; try reflexivity; try lia; congruence.
    + apply band_eqb_neq in Hb.
      pose proof (rssi_of_reg_range (peek (regmap radio) KT0913_REG_STATUSA)
                    KT0913_STATUSA_FMRSSI_MASK KT0913_STATUSA_FMRSSI_SHIFT
                    eq_refl) as Hsig.
      rewrite u32_small by lia.
      split; [reflexivity |]. split; [reflexivity |].
      split; [reflexivity |]. split; [reflexivity |].
      split; [lia |]. split; [reflexivity |].
      split; [congruence |]. intros _.
      destruct (Z.testbit (peek (regmap radio) KT0913_REG_DSPCFGA) 15),
               (Z.testbit (peek (regmap radio) KT0913_REG_STATUSA) 8),
               (Z.testbit (peek (regmap radio) KT0913_REG_STATUSA) 9);
        cbn [andb]; repeat split; intros; try discriminate; try reflexivity;
        try (now left); try (now right);
        try match goal with H : _ /\ _ |- _ => destruct H; discriminate end.
Qed.

(** A chip that reports a stereo FM station while the driver is
    configured for stereo. *)
Lemma tuner_query_report_witness :
  fst (kt0913_ioctl_vidioc_g_tuner
         {| t_index := 0; t_name := ""; t_type := 0; t_capability := 0;
            t_rangelow := 0; t_rangehigh := 0; rxsubchans := 0; audmode := 0;
            signal := 0; afc := 0 |}
         (attach 0 0 {[ KT0913_REG_STATUSA := 0x0378 ]} []))
  = Ok {| t_index := 0; t_name := "FM/AM"; t_type := 1; t_capability := 0x0411;
          t_rangelow := 8000; t_rangehigh := 1760000;
          rxsubchans := V4L2_TUNER_SUB_STEREO; audmode := V4L2_TUNER_MODE_STEREO;
          signal := 31710; afc := 1 |}.
Proof.
  destruct (proj2 (tuner_query_report
              {| t_index := 0; t_name := ""; t_type := 0; t_capability := 0;
                 t_rangelow := 0; t_rangehigh := 0; rxsubchans := 0; audmode := 0;
                 signal := 0; afc := 0 |}
              (attach 0 0 {[ KT0913_REG_STATUSA := 0x0378 ]} []))
             ltac:(cbn; lia) eq_refl) as [v' [Hv' _]].
  rewrite Hv'. symmetry. exact Hv'.
Defined.




(** ** Device-tree settings *)

Lemma clamp_range (x lo hi : Z) : lo <= hi -> lo <= clamp x lo hi <= hi.
Proof. unfold clamp. lia. Qed.

Lemma clamp_inside (x lo hi : Z) : lo <= x <= hi -> clamp x lo hi = x.
Proof. unfold clamp. lia. Qed.

Lemma clamp_above (x lo hi : Z) : lo <= hi -> hi <= x -> clamp x lo hi = hi.
Proof. unfold clamp. lia. Qed.

(** X11: the device-tree settings always reach initialisation inside
    their ranges.  Whatever cells the device tree holds, after parsing
    the anti-pop level is in 0..3 and the reference clock in 0..9: a
    cell inside the range is kept, a larger one is clamped to the top of
    the range, an absent property gives 0; the band and the registers
    are not touched.  So initialisation after parsing succeeds on a bus
    without faults, with the transfers of the fixed order for the
    clamped settings. *)
Theorem device_tree_settings_clamped
    (ptr_anti_pop ptr_refclk : option Z) (campus : Z) (radio : kt0913_device) :
  let radio' := __kt0913_parse_dt ptr_anti_pop ptr_refclk radio in
  0 <= audio_anti_pop radio' <= 3 /\
  0 <= refclock_val radio' <= 9 /\
  (forall cell, ptr_anti_pop = Some cell ->
     (0 <= cell <= 3 -> audio_anti_pop radio' = cell) /\
     (3 <= cell < 2 ^ 32 -> audio_anti_pop radio' = 3)) /\
  (forall cell, ptr_refclk = Some cell ->
     (0 <= cell <= 9 -> refclock_val radio' = cell) /\
     (9 <= cell < 2 ^ 32 -> refclock_val radio' = 9)) /\
  (ptr_anti_pop = None -> audio_anti_pop radio' = 0) /\
  (ptr_refclk = None -> refclock_val radio' = 0) /\
  band radio' = band radio /\ regmap radio' = regmap radio /\
  (faults (regmap radio) = [] ->
   fst (__kt0913_init campus radio') = Ok tt /\
   trace (regmap (snd (__kt0913_init campus radio')))
   = trace (regmap radio)
     ++ init_ops campus (audio_anti_pop radio') (refclock_val radio')).
Proof.
  intros radio'.
  assert (Hpop : 0 <= audio_anti_pop radio' <= 3).
  { subst radio'. cbn. destruct ptr_anti_pop; [apply clamp_range |]; lia. }
  assert (Hclk : 0 <= refclock_val radio' <= 9).
  { subst radio'. cbn. destruct ptr_refclk; [apply clamp_range |]; lia. }
  split; [exact Hpop |]. split; [exact Hclk |].
  split; [| split; [| split; [| split; [| split; [| split]]]]].
  - intros cell ->. subst radio'. cbn. split; intros Hc.
    + rewrite u32_small by lia. now apply clamp_inside.
    + rewrite u32_small by lia. apply clamp_above; lia.
  - intros cell ->. subst radio'. cbn. split; intros Hc.
    + rewrite u32_small by lia. now apply clamp_inside.
    + rewrite u32_small by lia. apply clamp_above; lia.
  - now intros ->.
  - now intros ->.
  - reflexivity.
  - reflexivity.
  - intros Hq.
    assert (Hq' : faults (regmap radio') = []) by exact Hq.
    rewrite (init_quiet_run campus radio' Hq'). cbn [fst snd].
    split; [reflexivity |].
    unfold with_regmap. cbn [regmap].
    now destruct (init_map_trace campus _ _ (regmap radio') Hpop Hclk) as [-> _].
Qed.

(** A device tree asking for anti-pop level 7 and reference clock 4. *)
Lemma device_tree_settings_clamped_witness :
  audio_anti_pop (__kt0913_parse_dt (Some 7) (Some 4) (attach 0 0 ∅ [])) = 3 /\
  refclock_val (__kt0913_parse_dt (Some 7) (Some 4) (attach 0 0 ∅ [])) = 4.
Proof.
  pose proof (device_tree_settings_clamped (Some 7) (Some 4) 0 (attach 0 0 ∅ []))
    as H.
  cbv zeta in H. destruct H as [_ [_ [Hpop [Hclk _]]]].
  split.
  - apply (proj2 (Hpop 7 eq_refl)). split; [lia | reflexivity].
  - apply (proj1 (Hclk 4 eq_refl)). lia.
Defined.

(** ** Standby *)

(** X12: runtime suspend and resume.  Without client data both return 0
    and do nothing.  With a device on a bus without faults, suspend sets
    the standby bit of RXCFG, resume clears it again, and across the pair
    nothing else changes: the other bits of RXCFG (the volume among
    them), every other register and the band state are as before, so the
    station and the volume survive a suspend. *)
Theorem suspend_resume_round_trip (radio : kt0913_device) :
  kt0913_i2c_pm_runtime_suspend None = (0, None) /\
  kt0913_i2c_pm_runtime_resume None = (0, None) /\
  (faults (regmap radio) = [] ->
   exists asleep awake : kt0913_device,
     kt0913_i2c_pm_runtime_suspend (Some radio) = (0, Some asleep) /\
     Z.testbit (peek (regmap asleep) KT0913_REG_RXCFG) 12 = true /\
     kt0913_i2c_pm_runtime_resume (Some asleep) = (0, Some awake) /\
     Z.testbit (peek (regmap awake) KT0913_REG_RXCFG) 12 = false /\
     same_outside KT0913_RXCFGA_STDBY_MASK
       (peek (regmap radio) KT0913_REG_RXCFG)
       (peek (regmap awake) KT0913_REG_RXCFG) /\
     (forall reg, reg <> KT0913_REG_RXCFG ->
        peek (regmap awake) reg = peek (regmap radio) reg) /\
     band awake = band radio).
Proof.
  split; [reflexivity |]. split; [reflexivity |].
  intros Hq.
  assert (Hreg : KT0913_REG_RXCFG <= max_register) by in_map.
  assert (Hmask : 0 <= KT0913_RXCFGA_STDBY_MASK < 2 ^ 32)
    by (split; [discriminate | reflexivity]).
  unfold kt0913_i2c_pm_runtime_suspend, kt0913_i2c_pm_runtime_resume,
    __kt0913_set_standby. cbn [Z.eqb].
  destruct (update_bits_outcome KT0913_REG_RXCFG KT0913_RXCFGA_STDBY_MASK
              KT0913_RXCFGA_STDBY_ON radio Hreg Hmask)
    as [Hsame1 [Hother1 [_ Hok1]]].
  rewrite (update_bits_quiet _ _ _ radio Hreg Hq) in *.
  cbn [fst snd ret_code] in *. specialize (Hok1 eq_refl).
  set (asleep := with_regmap radio
                   (quiet_update KT0913_REG_RXCFG KT0913_RXCFGA_STDBY_MASK
                      KT0913_RXCFGA_STDBY_ON (regmap radio))) in *.
  assert (Hq1 : faults (regmap asleep) = [])
    by (subst asleep; cbn [with_regmap regmap]; now apply quiet_update_faults).
  destruct (update_bits_outcome KT0913_REG_RXCFG KT0913_RXCFGA_STDBY_MASK
              KT0913_RXCFGA_STDBY_OFF asleep Hreg Hmask)
    as [Hsame2 [Hother2 [_ Hok2]]].
  rewrite (update_bits_quiet _ _ _ asleep Hreg Hq1) in *.
  cbn [fst snd ret_code] in *. specialize (Hok2 eq_refl).
  set (awake := with_regmap asleep
                  (quiet_update KT0913_REG_RXCFG KT0913_RXCFGA_STDBY_MASK
                     KT0913_RXCFGA_STDBY_OFF (regmap asleep))) in *.
  exists asleep, awake.
  split; [reflexivity |].
  split; [now rewrite (Hok1 12 ltac:(lia)) |].
  split; [now rewrite (update_bits_quiet _ _ _ asleep Hreg Hq1) |].
  split; [now rewrite (Hok2 12 ltac:(lia)) |].
  split; [| split].
  - intros i Hi Hbit. now rewrite (Hok2 i Hi), Hbit, (Hok1 i Hi), Hbit.
  - intros reg Hne. now rewrite Hother2, Hother1.
  - reflexivity.
Qed.

Lemma suspend_resume_round_trip_witness :
  exists asleep awake : kt0913_device,
    kt0913_i2c_pm_runtime_suspend
      (Some (attach 0 0 {[ KT0913_REG_RXCFG := 0x881F ]} [])) = (0, Some asleep) /\
    peek (regmap asleep) KT0913_REG_RXCFG = 0x981F /\
    kt0913_i2c_pm_runtime_resume (Some asleep) = (0, Some awake) /\
    peek (regmap awake) KT0913_REG_RXCFG = 0x881F.
Proof.
  destruct (proj2 (proj2 (suspend_resume_round_trip
                            (attach 0 0 {[ KT0913_REG_RXCFG := 0x881F ]} [])))
              eq_refl) as [asleep [awake [Hs [_ [Hr _]]]]].
  exists asleep, awake.
  injection Hs as Hs. subst asleep.
  injection Hr as Hr. subst awake.
  repeat split.
Defined.

(** ** Bounds of the frequency codec *)

(** X13: the frequency query never wraps and never reports a fraction
    of a channel.  On a bus without faults, whatever word the chip holds
    in its tune register, the query succeeds with a frequency that is a
    whole number of channel steps of the current band (16 units per kHz,
    50 kHz per FM channel) and at most 4095 FM channels or 2047 kHz on
    AM: the 32-bit products of the decoding never overflow. *)
Theorem frequency_query_bounds (radio : kt0913_device) :
  faults (regmap radio) = [] ->
  exists f : Z,
    fst (get_frequency radio) = Ok f /\
    0 <= f <= (if band_eqb (band radio) BAND_AM then 2047 * 16
               else 4095 * 50 * 16) /\
    f mod (band_step (band radio) * V4L2_KHZ_FREQ_MUL) = 0 /\
    f = decoded_khz radio * V4L2_KHZ_FREQ_MUL.
Proof.
  intros Hq. eexists. split; [now apply get_frequency_quiet |].
  unfold decoded_khz, khz_to_v4l2_freq.
  change V4L2_KHZ_FREQ_MUL with 16.
  destruct (band radio); cbn [band_eqb band_step].
  1,2: change KT0913_TUNE_FMCHAN_MASK with (Z.ones 12);
       change KT0913_FMCHAN_MUL with 50;
       rewrite Z.land_ones by lia;
       pose proof (Z.mod_pos_bound (peek (regmap radio) KT0913_REG_TUNE) (2 ^ 12)
                     ltac:(lia)) as Hc;
       rewrite (u32_small (_ * 50)) by lia;
       rewrite u32_small by lia;
       split; [lia |]; split; [| reflexivity];
       rewrite <- Z.mul_assoc; apply Z.mod_mul; lia.
  change KT0913_AMCHAN_AMCHAN_MASK with (Z.ones 11).
  rewrite Z.land_ones by lia.
  pose proof (Z.mod_pos_bound (peek (regmap radio) KT0913_REG_AMCHAN) (2 ^ 11)
                ltac:(lia)) as Hc.
  rewrite u32_small by lia.
  split; [lia |]. split; [| reflexivity].
  change (1 * 16) with 16. apply Z.mod_mul. lia.
Qed.

(** A chip whose TUNE register holds all ones. *)
Lemma frequency_query_bounds_witness :
  fst (get_frequency (attach 0 0 {[ KT0913_REG_TUNE := 0xFFFF ]} []))
  = Ok (4095 * 50 * 16).
Proof.
  destruct (frequency_query_bounds (attach 0 0 {[ KT0913_REG_TUNE := 0xFFFF ]} [])
              eq_refl) as [f [Hf [_ [_ Hval]]]].
  rewrite Hf. f_equal. exact Hval.
Defined.

Lemma lor_tune_bit (code : Z) :
  0 <= code < 2 ^ 15 -> u16 (Z.lor 0x8000 code) = 0x8000 + code.
Proof.
  intros Hc.
  assert (Hdisj : Z.land 0x8000 code = 0).
  { rewrite Z.land_comm, land_bit15.
    destruct (Z.eq_dec code 0) as [-> | Hnz]; [reflexivity |].
    rewrite Z.bits_above_log2; [reflexivity | lia |].
    apply Z.log2_lt_pow2; lia. }
  pose proof (Z.add_lor_land 0x8000 code) as Hadd.
  rewrite Hdisj, Z.add_0_r in Hadd. rewrite Hadd.
  unfold u16. change 0xFFFF with (Z.ones 16).
  rewrite Z.land_ones by lia. apply Z.mod_small. lia.
Qed.

(** X14: the channel code of an accepted frequency always fits its
    field.  For a frequency inside an enabled band, the code (kHz over
    the channel step of the band) is at most 2200 on FM and 1710 on AM,
    inside the 12-bit and 11-bit channel fields, so on a bus without
    faults the word that reaches the tune register of the band is
    exactly the tune-enable bit plus the code, and it is the last
    transfer of the request. *)
Theorem tune_word_fits_field
    (campus freq : Z) (radio : kt0913_device) (nb : band_t) :
  faults (regmap radio) = [] ->
  spec_classify (campus_enabled campus) freq = Some nb ->
  let code := v4l2_freq_to_khz freq / band_step nb in
  let res := set_frequency campus freq radio in
  0 < code <= (if band_eqb nb BAND_AM then 1710 else 2200) /\
  code <= (if band_eqb nb BAND_AM then KT0913_AMCHAN_AMCHAN_MASK
           else KT0913_TUNE_FMCHAN_MASK) /\
  peek (regmap (snd res)) (tune_reg nb) = KT0913_TUNE_FMTUNE_ON + code /\
  last (trace (regmap (snd res)))
  = Some (BusWrite (tune_reg nb) (KT0913_TUNE_FMTUNE_ON + code)).
Proof.
  intros Hq Hcls code res.
  destruct (set_frequency_quiet campus freq radio nb Hq Hcls) as [Hset _].
  subst res. rewrite Hset. cbn [snd].
  pose proof (in_band_bounds nb freq (spec_classify_in_band _ _ _ Hcls)) as Hb.
  assert (Hword : u16 (tune_word nb (v4l2_freq_to_khz freq)) = 0x8000 + code /\
                  0 < code <= (if band_eqb nb BAND_AM then 1710 else 2200)).
  { subst code. unfold tune_word, v4l2_freq_to_khz.
    change V4L2_KHZ_FREQ_MUL with 16.
    destruct nb; cbn [band_eqb band_step];
      change KT0913_FMCHAN_MUL with 50;
      change KT0913_TUNE_FMTUNE_ON with 0x8000;
      change KT0913_AMCHAN_AMTUNE_ON with 0x8000.
    1,2: assert (640 <= freq / 16 / 50 <= 2200)
           by (split; [apply Z.div_le_lower_bound; [lia |];
                       apply Z.div_le_lower_bound; lia
                      | apply Z.div_le_upper_bound; [lia |];
                        apply Z.div_le_upper_bound; lia]);
         rewrite lor_tune_bit by lia; lia.
    assert (500 <= freq / 16 <= 1710)
      by (split; [apply Z.div_le_lower_bound | apply Z.div_le_upper_bound]; lia).
    rewrite Z.div_1_r. rewrite lor_tune_bit by lia. lia. }
  destruct Hword as [Hword Hcode]. rewrite Hword.
  change KT0913_TUNE_FMTUNE_ON with 0x8000.
  split; [exact Hcode |].
  split; [destruct nb; cbn [band_eqb] in *;
          unfold KT0913_AMCHAN_AMCHAN_MASK, KT0913_TUNE_FMCHAN_MASK; lia |].
  unfold with_regmap, after. cbn [regmap chip trace].
  split.
  - unfold peek. cbn [chip]. now rewrite lookup_insert_eq.
  - apply last_snoc.
Qed.

(** 88.1 MHz is FM channel 1762. *)
Lemma tune_word_fits_field_witness :
  peek (regmap (snd (set_frequency 0 (88100 * 16) (attach 0 0 ∅ []))))
    KT0913_REG_TUNE
  = 0x8000 + 1762.
Proof.
  pose proof (tune_word_fits_field 0 (88100 * 16) (attach 0 0 ∅ []) BAND_FM
                eq_refl eq_refl) as H.
  cbv zeta in H. destruct H as [_ [_ [Hpeek _]]]. exact Hpeek.
Defined.

(** ** Reading a setting back from the chip *)

Lemma update_bits_field (reg mask v : Z) (radio : kt0913_device) :
  reg <= max_register -> 0 <= mask < 2 ^ 16 ->
  faults (regmap radio) = [] ->
  Z.land (peek (regmap (snd (on_regmap (regmap_update_bits reg mask v) radio))) reg)
    mask
  = Z.land v mask.
Proof.
  intros Hreg Hmask Hq.
  destruct (update_bits_outcome reg mask v radio Hreg ltac:(lia))
    as [_ [_ [_ Hok]]].
  rewrite (update_bits_quiet _ _ _ radio Hreg Hq) in *. cbn [fst snd] in *.
  specialize (Hok eq_refl).
  apply Z.bits_inj'. intros i Hi. rewrite !Z.land_spec.
  destruct (Z.ltb_spec i 16) as [Hlt | Hge].
  - rewrite (Hok i ltac:(lia)).
    destruct (Z.testbit mask i); rewrite ?andb_false_r; reflexivity.
  - assert (Hm : Z.testbit mask i = false).
    { destruct (Z.eq_dec mask 0) as [-> | Hnz]; [apply Z.bits_0 |].
      apply Z.bits_above_log2; [lia |].
      apply Z.lt_le_trans with 16; [| assumption].
      apply Z.log2_lt_pow2; lia. }
    now rewrite Hm, !andb_false_r.
Qed.

Lemma supported_setting_field (ctrl : v4l2_ctrl) :
  supported_setting ctrl = true ->
  exists reg mask v,
    ctrl_field ctrl = Some (reg, mask, v) /\ 0 <= mask < 2 ^ 16.
Proof.
  unfold supported_setting, ctrl_field.
  destruct (cid ctrl); try discriminate; intros Hreg.
  - eexists _, _, _. split; [reflexivity |]. split; [discriminate | reflexivity].
  - eexists _, _, _. split; [reflexivity |]. split; [discriminate | reflexivity].
  - repeat (apply orb_prop in Hreg as [Hreg | Hreg]);
      apply Z.eqb_eq in Hreg; rewrite Hreg; cbn [Z.eqb];
      eexists _, _, _; (split; [reflexivity |]);
      (split; [discriminate | reflexivity]).
  - repeat (apply orb_prop in Hreg as [Hreg | Hreg]);
      apply Z.eqb_eq in Hreg; rewrite Hreg; cbn;
      eexists _, _, _; (split; [reflexivity |]);
      (split; [discriminate | reflexivity]).
Qed.

Lemma volume_field_word (db : Z) :
  volume_domain db = true ->
  Z.land (u32 (volume_field db)) KT0913_RXCFGA_VOLUME_MASK = db / 2 + 31 /\
  1 <= db / 2 + 31 <= 31 /\ db = 2 * (db / 2).
Proof.
  intros Hdom. unfold volume_domain in Hdom.
  apply andb_prop in Hdom as [Hrange Heven].
  apply andb_prop in Hrange as [Hlo Hhi].
  apply Z.leb_le in Hlo, Hhi.
  apply Z.even_spec in Heven as [k ->].
  unfold volume_field.
  rewrite (Z.mul_comm 2 k), Z.quot_mul, Z.div_mul by lia.
  rewrite s32_small by lia. rewrite u32_small by lia.
  change KT0913_RXCFGA_VOLUME_MASK with (Z.ones 5).
  rewrite Z.land_ones by lia. rewrite Z.mod_small by lia. lia.
Qed.

(** X15: a setting can be read back from the chip.  For two control
    requests of the same control, both with settings the driver
    supports, issued to the same device on a bus without faults:
    if they leave the same content in the field of the control they
    asked for the same setting.  Different volumes, gains, de-emphasis
    constants and mute states never share an encoding, and a valid
    volume leaves [db / 2 + 31], between 1 and 31, in the volume field. *)
Theorem control_setting_readable (c1 c2 : v4l2_ctrl) (radio : kt0913_device) :
  faults (regmap radio) = [] ->
  cid c1 = cid c2 ->
  supported_setting c1 = true -> supported_setting c2 = true ->
  exists reg mask v1 v2,
    ctrl_field c1 = Some (reg, mask, v1) /\
    ctrl_field c2 = Some (reg, mask, v2) /\
    fst (kt0913_s_ctrl c1 radio) = Ok tt /\
    Z.land (peek (regmap (snd (kt0913_s_ctrl c1 radio))) reg) mask = Z.land v1 mask /\
    (cid c1 = V4L2_CID_AUDIO_VOLUME ->
     Z.land v1 mask = val c1 / 2 + 31 /\ 1 <= val c1 / 2 + 31 <= 31) /\
    (Z.land (peek (regmap (snd (kt0913_s_ctrl c1 radio))) reg) mask
     = Z.land (peek (regmap (snd (kt0913_s_ctrl c2 radio))) reg) mask ->
     val c1 = val c2).
Proof.
  intros Hq Hcid Hr1 Hr2.
  destruct (supported_setting_field c1 Hr1) as [reg [mask [v1 [Hf1 Hmask]]]].
  destruct (supported_setting_field c2 Hr2) as [reg2 [mask2 [v2 [Hf2 _]]]].
  assert (Hsame : reg2 = reg /\ mask2 = mask).
  { revert Hf1 Hf2. unfold ctrl_field. rewrite <- Hcid.
    destruct (cid c1); try discriminate;
      repeat match goal with
             | |- context [if ?c then _ else _] => destruct c
             end;
      try discriminate; intros E1 E2;
      injection E1 as <- <- _; injection E2 as <- <- _; now split. }
  destruct Hsame as [-> ->].
  destruct (ctrl_field_in_map c1 reg mask v1 Hf1) as [Hreg _].
  exists reg, mask, v1, v2.
  split; [exact Hf1 |]. split; [exact Hf2 |].
  rewrite !s_ctrl_as_update, Hf1, Hf2.
  rewrite !update_bits_field by assumption.
  split; [now rewrite update_bits_quiet |].
  split; [reflexivity |].
  unfold supported_setting, ctrl_field in *. rewrite <- Hcid in *.
  destruct (cid c1); try discriminate.
  - (* mute *)
    split; [discriminate |].
    injection Hf1 as <- <- <-. injection Hf2 as <-.
    repeat (apply orb_prop in Hr1 as [Hr1 | Hr1]);
      repeat (apply orb_prop in Hr2 as [Hr2 | Hr2]);
      apply Z.eqb_eq in Hr1, Hr2; rewrite Hr1, Hr2; cbn;
      intros E; (reflexivity || discriminate E).
  - (* volume *)
    injection Hf1 as <- <- <-. injection Hf2 as <-.
    destruct (volume_field_word (val c1) Hr1) as [E1 [B1 P1]].
    destruct (volume_field_word (val c2) Hr2) as [E2 [B2 P2]].
    rewrite E1, E2. split; [now intros _ |].
    intros E. lia.
  - (* gain *)
    split; [discriminate |].
    repeat (apply orb_prop in Hr1 as [Hr1 | Hr1]);
      repeat (apply orb_prop in Hr2 as [Hr2 | Hr2]);
      apply Z.eqb_eq in Hr1, Hr2; rewrite Hr1, Hr2 in *; cbn in Hf1, Hf2;
      injection Hf1 as <- <- <-; injection Hf2 as <-;
      intros E; (reflexivity || discriminate E).
  - (* de-emphasis *)
    split; [discriminate |].
    repeat (apply orb_prop in Hr1 as [Hr1 | Hr1]);
      repeat (apply orb_prop in Hr2 as [Hr2 | Hr2]);
      apply Z.eqb_eq in Hr1, Hr2; rewrite Hr1, Hr2 in *; cbn in Hf1, Hf2;
      injection Hf1 as <- <- <-; injection Hf2 as <-;
      intros E; (reflexivity || discriminate E).
Qed.

(** Volume -20 dB leaves 21 in the volume field. *)
Lemma control_setting_readable_witness :
  Z.land
    (peek (regmap (snd (kt0913_s_ctrl {| cid := V4L2_CID_AUDIO_VOLUME; val := -20 |}
                          (attach 0 0 {[ KT0913_REG_RXCFG := 0x881F ]} []))))
       KT0913_REG_RXCFG) KT0913_RXCFGA_VOLUME_MASK
  = 21.
Proof.
  destruct (control_setting_readable
              {| cid := V4L2_CID_AUDIO_VOLUME; val := -20 |}
              {| cid := V4L2_CID_AUDIO_VOLUME; val := -20 |}
              (attach 0 0 {[ KT0913_REG_RXCFG := 0x881F ]} [])
              eq_refl eq_refl eq_refl eq_refl)
    as [reg [mask [v1 [v2 [Hf1 [_ [_ [Hland _]]]]]]]].
  injection Hf1 as <- <- <-. exact Hland.
Defined.

(** ** PLL lock *)

Lemma land_pow2_bit (x k : Z) :
  0 <= k -> (Z.land x (2 ^ k) =? 2 ^ k) = Z.testbit x k.
Proof.
  intros Hk.
  assert (Hland : Z.land x (2 ^ k) = if Z.testbit x k then 2 ^ k else 0).
  { apply Z.bits_inj'. intros n Hn.
    rewrite Z.land_spec, Z.pow2_bits_eqb by lia.
    destruct (Z.eqb_spec k n) as [<- | Hne].
    - rewrite andb_true_r.
      destruct (Z.testbit x k);
        [now rewrite Z.pow2_bits_true | now rewrite Z.bits_0].
    - rewrite andb_false_r.
      destruct (Z.testbit x k);
        [rewrite Z.pow2_bits_false by lia | rewrite Z.bits_0]; reflexivity. }
  rewrite Hland.
  destruct (Z.testbit x k); [apply Z.eqb_refl |].
  apply Z.eqb_neq. pose proof (Z.pow_pos_nonneg 2 k). lia.
Qed.

(** X16: the PLL-lock control.  The volatile control query answers only
    for the PLL-lock control; any other control is refused with
    [-EINVAL] and nothing is touched.  For the PLL-lock control it makes
    one read of STATUSA: when the read succeeds the value is 1 if bit 11
    of the register is set and 0 otherwise, whatever the other bits are,
    and when the read fails the error of the bus is returned. *)
Theorem pll_lock_query (ctrl : v4l2_ctrl) (radio : kt0913_device) :
  let res := kt0913_g_volatile_ctrl ctrl radio in
  (cid ctrl <> V4L2_CID_RF_TUNER_PLL_LOCK -> res = (Err (- EINVAL), radio)) /\
  (cid ctrl = V4L2_CID_RF_TUNER_PLL_LOCK ->
   issued radio (snd res) = [BusRead KT0913_REG_STATUSA] /\
   (next_fault (regmap radio) = 0 ->
    fst res
    = Ok (if Z.testbit (peek (regmap radio) KT0913_REG_STATUSA) 11 then 1 else 0)) /\
   (next_fault (regmap radio) <> 0 ->
    fst res = Err (next_fault (regmap radio)))).
Proof.
  intros res. subst res. unfold kt0913_g_volatile_ctrl. split.
  - intros Hne. destruct (cid ctrl); try reflexivity. contradiction.
  - intros ->. unfold __kt0913_get_pll_status, bind.
    rewrite on_regmap_read_run by in_map.
    destruct (Z.eqb_spec (next_fault (regmap radio)) 0) as [Hz | Hnz];
      cbn [ret fst snd].
    + split; [apply issued_app; reflexivity |].
      split; [| intros Hbad; contradiction].
      intros _.
      change KT0913_STATUSA_PLL_LOCK_MASK with (2 ^ 11).
      change KT0913_STATUSA_PLL_LOCK_LOCKED with (2 ^ 11).
      now rewrite land_pow2_bit by lia.
    + split; [apply issued_app; reflexivity |].
      split; [intros Hbad; contradiction | reflexivity].
Qed.

Lemma pll_lock_query_witness :
  fst (kt0913_g_volatile_ctrl {| cid := V4L2_CID_RF_TUNER_PLL_LOCK; val := 0 |}
         (attach 0 0 {[ KT0913_REG_STATUSA := 0x0800 ]} [])) = Ok 1.
Proof.
  refine (proj1 (proj2 (proj2 (pll_lock_query
             {| cid := V4L2_CID_RF_TUNER_PLL_LOCK; val := 0 |}
             (attach 0 0 {[ KT0913_REG_STATUSA := 0x0800 ]} [])) eq_refl)) eq_refl).
Defined.

(** ** Repeating a tune request *)

(** X17: a repeated tune request costs one transfer.  After a tune
    request has succeeded on a bus without faults, the device is in the
    band of the frequency, so the same request again makes no mode
    update: it issues exactly the tune write, with the same word, and
    every register of the chip reads as after the first request. *)
Theorem repeated_tune_request
    (campus freq : Z) (radio : kt0913_device) (nb : band_t) :
  faults (regmap radio) = [] ->
  spec_classify (campus_enabled campus) freq = Some nb ->
  let once := snd (set_frequency campus freq radio) in
  let twice := set_frequency campus freq once in
  fst twice = Ok tt /\
  issued once (snd twice)
  = [BusWrite (tune_reg nb) (u16 (tune_word nb (v4l2_freq_to_khz freq)))] /\
  (forall reg, peek (regmap (snd twice)) reg = peek (regmap once) reg) /\
  band (snd twice) = band once /\ band once = nb.
Proof.
  intros Hq Hcls once twice.
  destruct (set_frequency_quiet campus freq radio nb Hq Hcls)
    as [Hset [Hband Hq1]].
  assert (Honce : band once = nb /\ faults (regmap once) = [] /\
                  peek (regmap once) (tune_reg nb)
                  = u16 (tune_word nb (v4l2_freq_to_khz freq))).
  { subst once. rewrite Hset. unfold with_regmap, after.
    cbn [snd band regmap faults]. rewrite Hband, Hq1.
    repeat split. unfold peek. cbn [chip]. now rewrite lookup_insert_eq. }
  clearbody once. destruct Honce as [Hb [Hqo Hpeek]].
  destruct (set_frequency_quiet campus freq once nb Hqo Hcls) as [Hset2 _].
  subst twice. rewrite Hset2.
  unfold after_mode_step. rewrite Hb.
  assert (Hrefl : band_eqb nb nb = true) by now apply band_eqb_eq.
  rewrite Hrefl. unfold with_regmap, after. cbn [fst snd band regmap trace chip].
  split; [reflexivity |].
  split; [apply issued_app; reflexivity |].
  split; [| now split].
  intros reg. unfold peek at 1. cbn [chip].
  destruct (Z.eq_dec (tune_reg nb) reg) as [<- | Hne].
  - now rewrite lookup_insert_eq, Hpeek.
  - now rewrite lookup_insert_ne by assumption.
Qed.

Lemma repeated_tune_request_witness :
  issued (snd (set_frequency 0 (1000 * 16) (attach 0 0 ∅ [])))
    (snd (set_frequency 0 (1000 * 16)
            (snd (set_frequency 0 (1000 * 16) (attach 0 0 ∅ [])))))
  = [BusWrite KT0913_REG_AMCHAN 0x83E8].
Proof.
  pose proof (repeated_tune_request 0 (1000 * 16) (attach 0 0 ∅ []) BAND_AM
                eq_refl eq_refl) as H.
  cbv zeta in H. destruct H as [_ [Hops _]]. exact Hops.
Defined.
